(** * Joshoeixi Vape inventory: item validation, item store and dashboard analytics

    A shallow embedding of the Express servers ([src/server/index.js] and the
    second server file shipped with the client bundle) and of the analytics and
    sale flow of the React client ([App]), together with the properties the
    specification states about them.

    JavaScript numbers are IEEE 754 binary64 values.  They are modelled by
    [spec_float] with the arithmetic of [SpecFloat] at precision 53 and
    maximal exponent 1024, so that rounding, NaN, the infinities and the two
    zeros behave as in the engine.  Item identifiers are only ever produced by
    the store itself (the seed 1..5 and [nextId]); they are integers and are
    modelled by [Z], which agrees with the binary64 arithmetic of the code
    for identifiers below 2^53: the statements that depend on [nextId] or on
    the conversion of an identifier are made for that range.  Strings are
    sequences of bytes; [toLowerCase] and [trim] are modelled on the ASCII
    range, and the statements about the search are made for ASCII texts.
    A plain object used as a map is modelled by its own properties, and
    the statements about it are made for keys that do not name a member of
    [Object.prototype]. *)

From Stdlib Require Import ZArith List String Ascii Bool Lia.
From Stdlib Require Import SpecFloat.
From Stdlib Require Import Sorted Permutation DecimalString.
From Stdlib Require Import DecimalPos.
Import ListNotations.

Local Open Scope Z_scope.

(* ===================================================================== *)
(** * The JavaScript runtime: numbers                                      *)
(* ===================================================================== *)

Module JS.

Definition number := spec_float.

Definition prec : Z := 53.
Definition emax : Z := 1024.

Definition NaN : number := S754_nan.
Definition pos_zero : number := S754_zero false.
Definition neg_zero : number := S754_zero true.
Definition Infinity : number := S754_infinity false.
Definition neg_Infinity : number := S754_infinity true.

Definition add : number -> number -> number := SFadd prec emax.
Definition sub : number -> number -> number := SFsub prec emax.
Definition mul : number -> number -> number := SFmul prec emax.
Definition div : number -> number -> number := SFdiv prec emax.

(** The binary64 value nearest to an integer (exact below 2^53). *)
Definition of_Z (n : Z) : number := binary_normalize prec emax n 0 false.

(** [Number.isFinite] on a value that already is a number. *)
Definition isFinite (x : number) : bool :=
  match x with
  | S754_zero _ | S754_finite _ _ _ => true
  | S754_infinity _ | S754_nan => false
  end.

Definition isNaN (x : number) : bool :=
  match x with S754_nan => true | _ => false end.

(** ** Comparison

    ECMAScript compares two finite numbers by their mathematical values.  The
    value of [S754_finite s m e] is [(-1)^s * m * 2^e]; two such values are
    compared after aligning both mantissas on the smaller exponent. *)

Definition signed (s : bool) (m : positive) : Z :=
  if s then Zneg m else Zpos m.

Definition aligned (s : bool) (m : positive) (e ez : Z) : Z :=
  signed s m * 2 ^ (e - ez).

Definition compare_finite (s1 : bool) (m1 : positive) (e1 : Z)
                          (s2 : bool) (m2 : positive) (e2 : Z) : comparison :=
  let ez := Z.min e1 e2 in
  Z.compare (aligned s1 m1 e1 ez) (aligned s2 m2 e2 ez).

Definition compare (x y : number) : option comparison :=
  match x, y with
  | S754_nan, _ | _, S754_nan => None
  | S754_infinity s1, S754_infinity s2 =>
      Some (match s1, s2 with
            | true, true | false, false => Eq
            | true, false => Lt
            | false, true => Gt
            end)
  | S754_infinity s, _ => Some (if s then Lt else Gt)
  | _, S754_infinity s => Some (if s then Gt else Lt)
  | S754_zero _, S754_zero _ => Some Eq
  | S754_finite s _ _, S754_zero _ => Some (if s then Lt else Gt)
  | S754_zero _, S754_finite s _ _ => Some (if s then Gt else Lt)
  | S754_finite s1 m1 e1, S754_finite s2 m2 e2 =>
      Some (compare_finite s1 m1 e1 s2 m2 e2)
  end.

(** [x < y], [x <= y], [x > y], [x >= y] and [x === y] on numbers. *)
Definition lt (x y : number) : bool :=
  match compare x y with Some Lt => true | _ => false end.
Definition le (x y : number) : bool :=
  match compare x y with Some (Lt | Eq) => true | _ => false end.
Definition gt (x y : number) : bool := lt y x.
Definition ge (x y : number) : bool := le y x.
Definition strict_eq (x y : number) : bool :=
  match compare x y with Some Eq => true | _ => false end.

(** Truthiness of a number: [0], [-0] and [NaN] are falsy. *)
Definition truthy (x : number) : bool :=
  match x with
  | S754_zero _ | S754_nan => false
  | _ => true
  end.

(** ** [Math.max] and [Math.round] *)

Definition max2 (a b : number) : number :=
  if isNaN a || isNaN b then NaN
  else if lt a b then b
  else if lt b a then a
  else match a with S754_zero true => b | _ => a end.

(** [Math.max(...xs)]: the largest argument, [-Infinity] without arguments,
    [NaN] as soon as one argument is [NaN]; [+0] is larger than [-0]. *)
Definition Math_max (xs : list number) : number :=
  fold_left max2 xs neg_Infinity.

(** [Math.round x]: the integer nearest to [x], ties towards [+Infinity];
    a result of zero keeps the sign of [x]. *)
Definition Math_round (x : number) : number :=
  match x with
  | S754_finite s m e =>
      if 0 <=? e then x
      else
        let n := (2 * signed s m + 2 ^ (- e)) / 2 ^ (1 - e) in
        if n =? 0 then S754_zero s else of_Z n
  | _ => x
  end.

End JS.

(* ===================================================================== *)
(** * The JavaScript runtime: strings and conversions                      *)
(* ===================================================================== *)

Module Str.

(** White space and line terminators removed by [trim] (ASCII range). *)
Definition is_white (c : ascii) : bool :=
  Ascii.eqb c " "%char || Ascii.eqb c "009"%char || Ascii.eqb c "010"%char
  || Ascii.eqb c "011"%char || Ascii.eqb c "012"%char || Ascii.eqb c "013"%char.

Definition is_empty (s : string) : bool :=
  match s with EmptyString => true | String _ _ => false end.

Fixpoint trimStart (s : string) : string :=
  match s with
  | EmptyString => EmptyString
  | String c r => if is_white c then trimStart r else s
  end.

Fixpoint trimEnd (s : string) : string :=
  match s with
  | EmptyString => EmptyString
  | String c r =>
      let t := trimEnd r in
      if is_white c && is_empty t then EmptyString else String c t
  end.

Definition trim (s : string) : string := trimEnd (trimStart s).

Definition lower_char (c : ascii) : ascii :=
  let n := nat_of_ascii c in
  if ((65 <=? n) && (n <=? 90))%nat then ascii_of_nat (n + 32) else c.

Fixpoint toLowerCase (s : string) : string :=
  match s with
  | EmptyString => EmptyString
  | String c r => String (lower_char c) (toLowerCase r)
  end.

(** [q] is what [s] starts with. *)
Fixpoint starts_with (s q : string) {struct q} : bool :=
  match q with
  | EmptyString => true
  | String c q' =>
      match s with
      | EmptyString => false
      | String d s' => Ascii.eqb c d && starts_with s' q'
      end
  end.

(** [s.includes(q)]: [q] occurs in [s] as a contiguous substring. *)
Fixpoint includes (s q : string) : bool :=
  starts_with s q ||
  match s with
  | EmptyString => false
  | String _ r => includes r q
  end.

(** ** Numeric strings *)

Definition digit_in (base : Z) (c : ascii) : option Z :=
  let n := Z.of_nat (nat_of_ascii c) in
  let d := if (48 <=? n) && (n <=? 57) then n - 48
           else if (97 <=? n) && (n <=? 122) then n - 87
           else if (65 <=? n) && (n <=? 90) then n - 55
           else base in
  if d <? base then Some d else None.

(** The longest prefix of digits in the given base, and the rest. *)
Fixpoint take_digits (base : Z) (s : string) : list Z * string :=
  match s with
  | EmptyString => ([], EmptyString)
  | String c r =>
      match digit_in base c with
      | Some d => let '(ds, rest) := take_digits base r in (d :: ds, rest)
      | None => ([], s)
      end
  end.

Definition digits_value (base : Z) (ds : list Z) : Z :=
  fold_left (fun acc d => base * acc + d)%Z ds 0%Z.

(** [sign * m * 10^e] rounded to the nearest binary64 value. *)
Definition decimal_to_number (neg : bool) (m e : Z) : JS.number :=
  match m with
  | Zpos p =>
      if (0 <=? e)%Z then
        binary_normalize JS.prec JS.emax (JS.signed neg p * 10 ^ e) 0 false
      else
        SFdiv JS.prec JS.emax (S754_finite neg p 0)
              (S754_finite false (Z.to_pos (10 ^ (- e))) 0)
  | _ => S754_zero neg
  end.

Definition split_sign (s : string) : bool * string :=
  match s with
  | String "+"%char r => (false, r)
  | String "-"%char r => (true, r)
  | _ => (false, s)
  end.

(** The exponent part of a decimal literal: empty, or [e]/[E], an optional
    sign and at least one digit, up to the end of the string. *)
Definition parse_exponent (s : string) : option Z :=
  match s with
  | EmptyString => Some 0%Z
  | String c r =>
      if Ascii.eqb c "e"%char || Ascii.eqb c "E"%char then
        let '(neg, r1) := split_sign r in
        match take_digits 10 r1 with
        | (d :: ds, EmptyString) =>
            let v := digits_value 10 (d :: ds) in
            Some (if neg then - v else v)%Z
        | _ => None
        end
      else None
  end.

(** [StrDecimalLiteral]: sign, [Infinity] or digits with an optional
    fraction and exponent. *)
Definition parse_decimal (s : string) : option JS.number :=
  let '(neg, s1) := split_sign s in
  if String.eqb s1 "Infinity" then Some (S754_infinity neg)
  else
    let '(ip, s2) := take_digits 10 s1 in
    let '(fp, s3) :=
      match s2 with
      | String "."%char r => take_digits 10 r
      | _ => ([], s2)
      end in
    match ip ++ fp with
    | [] => None
    | ds =>
        match parse_exponent s3 with
        | Some ex =>
            Some (decimal_to_number neg (digits_value 10 ds)
                    (ex - Z.of_nat (List.length fp)))
        | None => None
        end
    end.

(** [NonDecimalIntegerLiteral]: [0x], [0o] or [0b] and digits, unsigned. *)
Definition parse_radix (s : string) : option JS.number :=
  match s with
  | String "0"%char (String c r) =>
      let base :=
        if Ascii.eqb c "x"%char || Ascii.eqb c "X"%char then 16
        else if Ascii.eqb c "o"%char || Ascii.eqb c "O"%char then 8
        else if Ascii.eqb c "b"%char || Ascii.eqb c "B"%char then 2
        else 0 in
      if (base =? 0)%Z then None
      else match take_digits base r with
           | (d :: ds, EmptyString) =>
               Some (JS.of_Z (digits_value base (d :: ds)))
           | _ => None
           end
  | _ => None
  end.

(** [Number(s)] for a string [s]. *)
Definition StringToNumber (s : string) : JS.number :=
  let t := trim s in
  if is_empty t then JS.pos_zero
  else match parse_radix t with
       | Some x => x
       | None =>
           match parse_decimal t with
           | Some x => x
           | None => JS.NaN
           end
       end.

End Str.

(* ===================================================================== *)
(** * Requests, items and responses shared by the two servers              *)
(* ===================================================================== *)

Local Open Scope string_scope.

Module Api.

Import JS.

(** A property of a parsed JSON object: missing ([undefined]), [null], or a
    value. *)
Inductive field (A : Type) : Type :=
  | Absent
  | Null
  | Given (a : A).
Arguments Absent {A}.
Arguments Null {A}.
Arguments Given {A} a.

(** [a ?? b]. *)
Definition nullish {A} (a b : field A) : field A :=
  match a with
  | Given _ => a
  | _ => b
  end.

(** JSON values sent for a numeric property. *)
Inductive scalar : Type :=
  | SNum (x : number)
  | SStr (s : string)
  | SBool (b : bool).

(** [Number(v)]. *)
Definition Number (v : field scalar) : number :=
  match v with
  | Absent => NaN
  | Null => pos_zero
  | Given (SNum x) => x
  | Given (SStr s) => Str.StringToNumber s
  | Given (SBool b) => if b then of_Z 1 else pos_zero
  end.

(** The request body of [POST] and [PUT].  The three text properties are
    modelled for strings, [null] and missing keys. *)
Record Body : Type := {
  b_name : field string;
  b_brand : field string;
  b_category : field string;
  b_stock : field scalar;
  b_rawPrice : field scalar;
  b_sellingPrice : field scalar;
  b_price : field scalar;
  b_minStockAlert : field scalar
}.

(** An element of [inventory]. *)
Record Item : Type := {
  id : Z;
  name : string;
  brand : string;
  category : string;
  stock : number;
  rawPrice : number;
  sellingPrice : number;
  minStockAlert : number
}.

(** The object under [validation.item]: the normalized properties, and the
    [id] when it was spread from [currentItem]. *)
Record Normalized : Type := {
  n_id : option Z;
  n_name : string;
  n_brand : string;
  n_category : string;
  n_stock : number;
  n_rawPrice : number;
  n_sellingPrice : number;
  n_minStockAlert : number
}.

Inductive validation : Type :=
  | Invalid (error : string)
  | Valid (item : Normalized).

(** [{ ...base, ...v }] where [base] carries the identifier [base_id]. *)
Definition spread (base_id : Z) (v : Normalized) : Item :=
  {| id := match n_id v with Some i => i | None => base_id end;
     name := n_name v; brand := n_brand v; category := n_category v;
     stock := n_stock v; rawPrice := n_rawPrice v;
     sellingPrice := n_sellingPrice v;
     minStockAlert := n_minStockAlert v |}.

(** The JSON object returned for an item. *)
Record ResponseItem : Type := {
  r_id : Z;
  r_name : string;
  r_brand : string;
  r_category : string;
  r_stock : number;
  r_rawPrice : number;
  r_sellingPrice : number;
  r_minStockAlert : number;
  r_profit : number;
  r_price : number
}.

Inductive payload : Type :=
  | Json_error (error : string)
  | Json_item (r : ResponseItem)
  | Json_items (rs : list ResponseItem)
  | Empty_body.

(** What a route handler does: it sends a response, or an exception escapes
    from it. *)
Inductive reply : Type :=
  | Respond (status : Z) (p : payload)
  | Raise (exn : string).

Inductive request : Type :=
  | GET_items (q : option string)
  | POST_item (body : Body)
  | PUT_item (id_param : string) (body : Body)
  | DELETE_item (id_param : string).

(** [toNumber], [nextId] and [buildItemResponse] read the same in both
    server files. *)
Definition toNumber (v : field scalar) : number := Number v.

(** [Math.max(...ids)] for a non-empty list of identifiers. *)
Definition max_id (first : Z) (others : list Z) : Z :=
  fold_left Z.max others first.

Definition nextId (inventory : list Item) : Z :=
  match map id inventory with
  | [] => 1
  | i :: ids => max_id i ids + 1
  end.

Definition buildItemResponse (item : Item) : ResponseItem :=
  let rawPrice := toNumber (Given (SNum (rawPrice item))) in
  let sellingPrice := toNumber (Given (SNum (sellingPrice item))) in
  {| r_id := id item; r_name := name item; r_brand := brand item;
     r_category := category item; r_stock := stock item;
     r_rawPrice := rawPrice;
     r_sellingPrice := sellingPrice;
     r_minStockAlert := toNumber (Given (SNum (minStockAlert item)));
     r_profit := sub sellingPrice rawPrice;
     r_price := sellingPrice |}.

(** [i.id === id] for a stored identifier and a converted path parameter. *)
Definition id_is (n : number) (i : Item) : bool :=
  strict_eq (of_Z (id i)) n.

(** [inventory.findIndex(p)], with [None] for [-1]. *)
Fixpoint findIndex {A} (p : A -> bool) (l : list A) : option nat :=
  match l with
  | [] => None
  | x :: r =>
      if p x then Some O
      else match findIndex p r with
           | Some k => Some (S k)
           | None => None
           end
  end.

(** [l[k] = v] for an index within the list. *)
Fixpoint assign {A} (l : list A) (k : nat) (v : A) : list A :=
  match l, k with
  | [], _ => []
  | _ :: r, O => v :: r
  | x :: r, S k' => x :: assign r k' v
  end.

(** The fields of a stored item seen as properties of [currentItem?.]. *)
Definition prop {A B} (cur : option A) (get : A -> B) : field B :=
  match cur with
  | Some it => Given (get it)
  | None => Absent
  end.

Definition num_prop (cur : option Item) (get : Item -> number) : field scalar :=
  prop cur (fun it => SNum (get it)).

(** [!s] for a text property that may be undefined. *)
Definition falsy_text (s : field string) : bool :=
  match s with
  | Given t => Str.is_empty t
  | _ => true
  end.

Definition text (s : field string) : string :=
  match s with
  | Given t => t
  | _ => EmptyString
  end.

(** The error taxonomy of the specification, and the message each server
    sends for it. *)
Inductive ErrorKind : Type :=
  | MissingField
  | InvalidNumber
  | PriceInversion
  | MissingPriceOnCreate.

End Api.

(* ===================================================================== *)
(** * [src/server/index.js]                                                *)
(* ===================================================================== *)

Module Server.

Import JS Api.

(** Non-ASCII characters of the seed data are kept as the bytes of the
    source file. *)
Definition inventory0 : list Item :=
  [ {| id := 1; name := "Strawberry Milk 60ml"; brand := "Cloudy Co.";
       category := "E-Liquid"; stock := of_Z 24; rawPrice := of_Z 280;
       sellingPrice := of_Z 450; minStockAlert := of_Z 10 |};
    {| id := 2; name := "Mint Freeze Disposable"; brand := "VapeX";
       category := "Disposable"; stock := of_Z 15; rawPrice := of_Z 230;
       sellingPrice := of_Z 380; minStockAlert := of_Z 8 |};
    {| id := 3;
       name := "Mesh Coil 0.8" ++
               String (ascii_of_nat 195) (String (ascii_of_nat 142)
               (String (ascii_of_nat 194) (String (ascii_of_nat 169) EmptyString)));
       brand := "SmokeLab";
       category := "Coils"; stock := of_Z 40; rawPrice := of_Z 120;
       sellingPrice := of_Z 220; minStockAlert := of_Z 15 |};
    {| id := 4; name := "Pod Cartridge 2ml"; brand := "VapeX";
       category := "Pods"; stock := of_Z 28; rawPrice := of_Z 95;
       sellingPrice := of_Z 180; minStockAlert := of_Z 12 |};
    {| id := 5; name := "Battery 18650 3000mAh"; brand := "PowerLeaf";
       category := "Accessories"; stock := of_Z 12; rawPrice := of_Z 340;
       sellingPrice := of_Z 520; minStockAlert := of_Z 6 |} ].

Definition msg_required := "Name, brand, and category are required.".
Definition msg_numeric := "Invalid numeric values.".
Definition msg_prices := "Raw price and selling price are required.".
Definition msg_not_found := "Item not found.".

(** [body.x?.toString().trim()]. *)
Definition trimmed (v : field string) : field string :=
  match v with
  | Given s => Given (Str.trim s)
  | _ => Absent
  end.

Definition is_undefined {A} (v : field A) : bool :=
  match v with Absent => true | _ => false end.

(** The values the validator resolves from the body and the current item. *)
Definition name_of (body : Body) (currentItem : option Item) : field string :=
  nullish (trimmed (b_name body)) (prop currentItem Api.name).
Definition brand_of (body : Body) (currentItem : option Item) : field string :=
  nullish (trimmed (b_brand body)) (prop currentItem Api.brand).
Definition category_of (body : Body) (currentItem : option Item)
  : field string :=
  nullish (trimmed (b_category body)) (prop currentItem Api.category).
Definition stock_of (body : Body) (currentItem : option Item) : number :=
  toNumber (nullish (b_stock body) (num_prop currentItem Api.stock)).
Definition rawPrice_of (body : Body) (currentItem : option Item) : number :=
  toNumber (nullish (b_rawPrice body) (num_prop currentItem Api.rawPrice)).
Definition sellingPrice_of (body : Body) (currentItem : option Item)
  : number :=
  toNumber (nullish (nullish (b_sellingPrice body) (b_price body))
                    (num_prop currentItem Api.sellingPrice)).
Definition minStockAlert_of (body : Body) (currentItem : option Item)
  : number :=
  toNumber (nullish (nullish (b_minStockAlert body)
                             (num_prop currentItem Api.minStockAlert))
                    (Given (SNum (of_Z 10)))).

Definition validateAndNormalizeItem
    (body : Body) (currentItem : option Item) (isCreate : bool) : validation :=
  let name := name_of body currentItem in
  let brand := brand_of body currentItem in
  let category := category_of body currentItem in
  if falsy_text name || falsy_text brand || falsy_text category then
    Invalid msg_required
  else
    let stock := stock_of body currentItem in
    let rawPrice := rawPrice_of body currentItem in
    let sellingPrice := sellingPrice_of body currentItem in
    let minStockAlert := minStockAlert_of body currentItem in
    if negb (isFinite stock)
       || negb (isFinite rawPrice)
       || negb (isFinite sellingPrice)
       || lt stock pos_zero
       || lt rawPrice pos_zero
       || lt sellingPrice rawPrice
    then Invalid msg_numeric
    else if isCreate
            && (is_undefined (b_rawPrice body)
                || is_undefined (b_sellingPrice body))
    then Invalid msg_prices
    else
      Valid {| n_id := option_map id currentItem;
               n_name := text name; n_brand := text brand;
               n_category := text category;
               n_stock := stock; n_rawPrice := rawPrice;
               n_sellingPrice := sellingPrice;
               n_minStockAlert := minStockAlert |}.

(** [GET /api/items] *)
Definition matches (q : string) (item : Item) : bool :=
  existsb (fun f => Str.includes (Str.toLowerCase f) q)
          [name item; brand item; category item].

Definition get_items (inventory : list Item) (query_q : option string)
  : list Item * reply :=
  let q := Str.toLowerCase (match query_q with Some s => s | None => EmptyString end) in
  let data := if negb (Str.is_empty q) then filter (matches q) inventory
              else inventory in
  (inventory, Respond 200 (Json_items (map buildItemResponse data))).

(** [POST /api/items] *)
Definition post_item (inventory : list Item) (body : Body)
  : list Item * reply :=
  match validateAndNormalizeItem body None true with
  | Invalid error => (inventory, Respond 400 (Json_error error))
  | Valid item =>
      let newItem := spread (nextId inventory) item in
      ((inventory ++ [newItem])%list,
       Respond 201 (Json_item (buildItemResponse newItem)))
  end.

(** [PUT /api/items/:id].  [findIndex] only returns positions of the array,
    so the last branch is never taken. *)
Definition put_item (inventory : list Item) (id_param : string) (body : Body)
  : list Item * reply :=
  let id := Str.StringToNumber id_param in
  match findIndex (id_is id) inventory with
  | None => (inventory, Respond 404 (Json_error msg_not_found))
  | Some index =>
      match nth_error inventory index with
      | Some current =>
          match validateAndNormalizeItem body (Some current) false with
          | Invalid error => (inventory, Respond 400 (Json_error error))
          | Valid item =>
              let updated := spread (Api.id current) item in
              (assign inventory index updated,
               Respond 200 (Json_item (buildItemResponse updated)))
          end
      | None => (inventory, Raise "index out of range")
      end
  end.

(** [DELETE /api/items/:id] *)
Definition delete_item (inventory : list Item) (id_param : string)
  : list Item * reply :=
  let id := Str.StringToNumber id_param in
  let len := List.length inventory in
  let inventory' := filter (fun i => negb (id_is id i)) inventory in
  if Nat.eqb (List.length inventory') len then
    (inventory', Respond 404 (Json_error msg_not_found))
  else (inventory', Respond 204 Empty_body).

Definition handle (inventory : list Item) (r : request) : list Item * reply :=
  match r with
  | GET_items q => get_items inventory q
  | POST_item body => post_item inventory body
  | PUT_item p body => put_item inventory p body
  | DELETE_item p => delete_item inventory p
  end.

(** The states of [inventory] the running server can be in. *)
Inductive reachable : list Item -> Prop :=
  | reach_start : reachable inventory0
  | reach_step : forall inventory r,
      reachable inventory -> reachable (fst (handle inventory r)).

(** The kind of error, in the taxonomy of the specification, that each
    message of this server stands for. *)
Definition error_kind (msg : string) : option ErrorKind :=
  if String.eqb msg msg_required then Some MissingField
  else if String.eqb msg msg_numeric then Some InvalidNumber
  else if String.eqb msg msg_prices then Some MissingPriceOnCreate
  else None.

End Server.

(* ===================================================================== *)
(** * The second server file (shipped next to the client [App])            *)
(* ===================================================================== *)

Module ServerStrict.

Import JS Api.

Definition inventory0 : list Item :=
  [ {| id := 1; name := "Strawberry Milk 60ml"; brand := "Cloudy Co.";
       category := "E-Liquid"; stock := of_Z 24; rawPrice := of_Z 280;
       sellingPrice := of_Z 450; minStockAlert := of_Z 10 |};
    {| id := 2; name := "Mint Freeze Disposable"; brand := "VapeX";
       category := "Disposable"; stock := of_Z 15; rawPrice := of_Z 230;
       sellingPrice := of_Z 380; minStockAlert := of_Z 8 |};
    {| id := 3;
       name := "Mesh Coil 0.8" ++
               String (ascii_of_nat 206) (String (ascii_of_nat 169) EmptyString);
       brand := "SmokeLab";
       category := "Coils"; stock := of_Z 40; rawPrice := of_Z 120;
       sellingPrice := of_Z 220; minStockAlert := of_Z 15 |};
    {| id := 4; name := "Pod Cartridge 2ml"; brand := "VapeX";
       category := "Pods"; stock := of_Z 28; rawPrice := of_Z 95;
       sellingPrice := of_Z 180; minStockAlert := of_Z 12 |};
    {| id := 5; name := "Battery 18650 3000mAh"; brand := "PowerLeaf";
       category := "Accessories"; stock := of_Z 12; rawPrice := of_Z 340;
       sellingPrice := of_Z 520; minStockAlert := of_Z 6 |} ].

Definition msg_required := "Name, brand, and category are required.".
Definition msg_stock := "Stock must be a valid non-negative number.".
Definition msg_raw := "Raw price must be a valid non-negative number.".
Definition msg_selling := "Selling price must be a valid non-negative number.".
Definition msg_inversion :=
  "Selling price must be greater than or equal to raw price.".
Definition msg_alert :=
  "Minimum stock alert must be a valid non-negative number.".
Definition msg_prices := "Raw price and selling price are required.".
Definition msg_not_found := "Item not found.".
Definition type_error :=
  "TypeError: Cannot read properties of null (reading 'toString')".

(** The result of a computation that may throw. *)
Inductive attempt (A : Type) : Type :=
  | Done (a : A)
  | Thrown (exn : string).
Arguments Done {A} a.
Arguments Thrown {A} exn.

Definition is_undefined {A} (v : field A) : bool :=
  match v with Absent => true | _ => false end.

(** [body.x !== undefined ? body.x : fallback]. *)
Definition defined_or {A} (v fallback : field A) : field A :=
  match v with
  | Absent => fallback
  | _ => v
  end.

(** [body.x !== undefined ? body.x.toString().trim() : currentItem?.x];
    [null.toString()] throws. *)
Definition text_or (v : field string) (fallback : field string)
  : attempt (field string) :=
  match v with
  | Absent => Done fallback
  | Null => Thrown type_error
  | Given s => Done (Given (Str.trim s))
  end.

(** The three text properties, in the order the validator reads them. *)
Definition texts_of (body : Body) (currentItem : option Item)
  : attempt (field string * field string * field string) :=
  match text_or (b_name body) (prop currentItem Api.name) with
  | Thrown e => Thrown e
  | Done name =>
      match text_or (b_brand body) (prop currentItem Api.brand) with
      | Thrown e => Thrown e
      | Done brand =>
          match text_or (b_category body) (prop currentItem Api.category) with
          | Thrown e => Thrown e
          | Done category => Done (name, brand, category)
          end
      end
  end.

Definition stockSource (body : Body) (currentItem : option Item) :=
  defined_or (b_stock body) (num_prop currentItem Api.stock).
Definition rawPriceSource (body : Body) (currentItem : option Item) :=
  defined_or (b_rawPrice body) (num_prop currentItem Api.rawPrice).
Definition sellingPriceSource (body : Body) (currentItem : option Item) :=
  defined_or (b_sellingPrice body)
    (defined_or (b_price body) (num_prop currentItem Api.sellingPrice)).
Definition minStockAlertSource (body : Body) (currentItem : option Item) :=
  defined_or (b_minStockAlert body)
    (nullish (num_prop currentItem Api.minStockAlert)
             (Given (SNum (of_Z 10)))).

Definition stock_of (body : Body) (currentItem : option Item) : number :=
  toNumber (stockSource body currentItem).
Definition rawPrice_of (body : Body) (currentItem : option Item) : number :=
  toNumber (rawPriceSource body currentItem).
Definition sellingPrice_of (body : Body) (currentItem : option Item)
  : number :=
  toNumber (sellingPriceSource body currentItem).
Definition minStockAlert_of (body : Body) (currentItem : option Item)
  : number :=
  toNumber (minStockAlertSource body currentItem).

(** The checks that follow the reading of the text properties. *)
Definition checked (body : Body) (currentItem : option Item) (isCreate : bool)
    (name brand category : field string) : validation :=
  if falsy_text name || falsy_text brand || falsy_text category then
    Invalid msg_required
  else
    let stock := stock_of body currentItem in
    let rawPrice := rawPrice_of body currentItem in
    let sellingPrice := sellingPrice_of body currentItem in
    let minStockAlert := minStockAlert_of body currentItem in
    if negb (isFinite stock) || lt stock pos_zero then Invalid msg_stock
    else if negb (isFinite rawPrice) || lt rawPrice pos_zero then
      Invalid msg_raw
    else if negb (isFinite sellingPrice) || lt sellingPrice pos_zero then
      Invalid msg_selling
    else if lt sellingPrice rawPrice then Invalid msg_inversion
    else if negb (isFinite minStockAlert) || lt minStockAlert pos_zero then
      Invalid msg_alert
    else if isCreate
            && (is_undefined (b_rawPrice body)
                || (is_undefined (b_sellingPrice body)
                    && is_undefined (b_price body)))
    then Invalid msg_prices
    else
      Valid {| n_id := option_map id currentItem;
               n_name := text name; n_brand := text brand;
               n_category := text category;
               n_stock := stock; n_rawPrice := rawPrice;
               n_sellingPrice := sellingPrice;
               n_minStockAlert := minStockAlert |}.

Definition validateAndNormalizeItem
    (body : Body) (currentItem : option Item) (isCreate : bool)
  : attempt validation :=
  match texts_of body currentItem with
  | Thrown e => Thrown e
  | Done (name, brand, category) =>
      Done (checked body currentItem isCreate name brand category)
  end.

(** [GET /api/items] *)
Definition matches (query : string) (item : Item) : bool :=
  existsb (fun f => Str.includes (Str.toLowerCase f) query)
          [name item; brand item; category item].

Definition get_items (inventory : list Item) (query_q : option string)
  : list Item * reply :=
  let query :=
    Str.toLowerCase
      (Str.trim (match query_q with Some s => s | None => EmptyString end)) in
  if Str.is_empty query then
    (inventory, Respond 200 (Json_items (map buildItemResponse inventory)))
  else
    let filtered := filter (matches query) inventory in
    (inventory, Respond 200 (Json_items (map buildItemResponse filtered))).

(** [POST /api/items] *)
Definition post_item (inventory : list Item) (body : Body)
  : list Item * reply :=
  match validateAndNormalizeItem body None true with
  | Thrown e => (inventory, Raise e)
  | Done (Invalid error) => (inventory, Respond 400 (Json_error error))
  | Done (Valid item) =>
      let newItem := spread (nextId inventory) item in
      ((inventory ++ [newItem])%list,
       Respond 201 (Json_item (buildItemResponse newItem)))
  end.

(** [PUT /api/items/:id] *)
Definition put_item (inventory : list Item) (id_param : string) (body : Body)
  : list Item * reply :=
  let id := Str.StringToNumber id_param in
  match findIndex (id_is id) inventory with
  | None => (inventory, Respond 404 (Json_error msg_not_found))
  | Some index =>
      match nth_error inventory index with
      | Some current =>
          match validateAndNormalizeItem body (Some current) false with
          | Thrown e => (inventory, Raise e)
          | Done (Invalid error) =>
              (inventory, Respond 400 (Json_error error))
          | Done (Valid item) =>
              let updated := spread (Api.id current) item in
              (assign inventory index updated,
               Respond 200 (Json_item (buildItemResponse updated)))
          end
      | None => (inventory, Raise "index out of range")
      end
  end.

(** [DELETE /api/items/:id] *)
Definition delete_item (inventory : list Item) (id_param : string)
  : list Item * reply :=
  let id := Str.StringToNumber id_param in
  let previousLength := List.length inventory in
  let inventory' := filter (fun item => negb (id_is id item)) inventory in
  if Nat.eqb (List.length inventory') previousLength then
    (inventory', Respond 404 (Json_error msg_not_found))
  else (inventory', Respond 204 Empty_body).

Definition handle (inventory : list Item) (r : request) : list Item * reply :=
  match r with
  | GET_items q => get_items inventory q
  | POST_item body => post_item inventory body
  | PUT_item p body => put_item inventory p body
  | DELETE_item p => delete_item inventory p
  end.

Inductive reachable : list Item -> Prop :=
  | reach_start : reachable inventory0
  | reach_step : forall inventory r,
      reachable inventory -> reachable (fst (handle inventory r)).

Definition error_kind (msg : string) : option ErrorKind :=
  if String.eqb msg msg_required then Some MissingField
  else if String.eqb msg msg_stock || String.eqb msg msg_raw
          || String.eqb msg msg_selling || String.eqb msg msg_alert
  then Some InvalidNumber
  else if String.eqb msg msg_inversion then Some PriceInversion
  else if String.eqb msg msg_prices then Some MissingPriceOnCreate
  else None.

End ServerStrict.

(* ===================================================================== *)
(** * Plain objects used as dictionaries, and [Array.prototype.sort]       *)
(* ===================================================================== *)

Module Obj.

Import JS.

(** A key is an array index when it is the canonical decimal form of an
    integer below [2^32 - 1]; such keys are enumerated first, in ascending
    order, before the other keys in insertion order. *)
Definition canonical_digits (s : string) : bool :=
  match s with
  | EmptyString => false
  | String c r =>
      if Ascii.eqb c "0"%char then Str.is_empty r
      else
        match Str.take_digits 10 s with
        | (_, EmptyString) => true
        | _ => false
        end
  end.

Definition array_index (s : string) : option Z :=
  if canonical_digits s then
    let v := Str.digits_value 10 (fst (Str.take_digits 10 s)) in
    if (v <? 4294967295)%Z then Some v else None
  else None.

(** The own properties of an object, in the order [Object.entries] lists
    them.  Keys are assumed not to name a member of [Object.prototype]. *)
Definition object (V : Type) : Type := list (string * V).

Fixpoint get {V} (o : object V) (k : string) : option V :=
  match o with
  | [] => None
  | (k', v) :: r => if String.eqb k' k then Some v else get r k
  end.

(** Where a new key goes: before the first key that is not an array index
    or is a larger one, when the new key is an array index; last
    otherwise. *)
Definition goes_before (k k' : string) : bool :=
  match array_index k, array_index k' with
  | Some i, Some j => (i <? j)%Z
  | Some _, None => true
  | None, _ => false
  end.

Fixpoint insert_new {V} (o : object V) (k : string) (v : V) : object V :=
  match o with
  | [] => [(k, v)]
  | (k', v') :: r =>
      if goes_before k k' then (k, v) :: o
      else (k', v') :: insert_new r k v
  end.

Fixpoint overwrite {V} (o : object V) (k : string) (v : V) : object V :=
  match o with
  | [] => []
  | (k', v') :: r =>
      if String.eqb k' k then (k', v) :: r else (k', v') :: overwrite r k v
  end.

(** [o[k] = v]. *)
Definition set {V} (o : object V) (k : string) (v : V) : object V :=
  match get o k with
  | Some _ => overwrite o k v
  | None => insert_new o k v
  end.

Definition entries {V} (o : object V) : list (string * V) := o.

(** [xs.sort(compare)]: a stable sort; [x] is moved behind [y] only when
    [compare(x, y) > 0]. *)
Fixpoint sort_insert {A} (compare : A -> A -> number) (x : A) (l : list A)
  : list A :=
  match l with
  | [] => [x]
  | y :: r =>
      if gt (compare x y) pos_zero then y :: sort_insert compare x r
      else x :: l
  end.

Definition sort {A} (compare : A -> A -> number) (l : list A) : list A :=
  fold_right (sort_insert compare) [] l.

(** [xs.map((x, index) => f x index)]. *)
Fixpoint mapi_from {A B} (k : nat) (f : A -> nat -> B) (l : list A) : list B :=
  match l with
  | [] => []
  | x :: r => f x k :: mapi_from (S k) f r
  end.

Definition mapi {A B} (f : A -> nat -> B) (l : list A) : list B :=
  mapi_from O f l.

End Obj.

(* ===================================================================== *)
(** * The client [App]: derived analytics                                  *)
(* ===================================================================== *)

Module App.

Import JS.
Export Api(field, Absent, Null, Given).

(** An element of [items], as parsed from the JSON the API returns. *)
Record Item : Type := {
  id : Z;
  name : string;
  brand : string;
  category : string;
  stock : field number;
  rawPrice : field number;
  sellingPrice : field number;
  price : field number;
  profit : field number;
  minStockAlert : field number
}.

Definition monthLabels : list string :=
  ["Jan"; "Feb"; "Mar"; "Apr"; "May"; "Jun"].

Definition chartPalette : list string :=
  ["#561C24"; "#6D2932"; "#8B3A44"; "#a05060"; "#C7B7A3"; "#3a1a20"].

(** The decimal literals of the source, as binary64 values. *)
Definition c0_28 : number := S754_finite false 5044031582654956 (-54).
Definition c0_72 : number := S754_finite false 6485183463413514 (-53).
Definition c0_1 : number := S754_finite false 7205759403792794 (-56).
Definition c0_56 : number := S754_finite false 5044031582654956 (-53).
Definition c0_05 : number := S754_finite false 7205759403792794 (-57).
Definition c0_02 : number := S754_finite false 5764607523034235 (-58).

(** [Number(v)] for a numeric property. *)
Definition Number (v : field number) : number :=
  match v with
  | Given x => x
  | Null => pos_zero
  | Absent => NaN
  end.

(** [Number(v ?? d)] for a numeric property. *)
Definition number_or (v : field number) (d : number) : number :=
  match v with
  | Given x => x
  | _ => d
  end.

Definition rawPriceOf (item : Item) : number :=
  number_or (rawPrice item) pos_zero.

Definition sellingPriceOf (item : Item) : number :=
  number_or (Api.nullish (sellingPrice item) (price item)) pos_zero.

Definition minStockAlertOf (item : Item) : number :=
  number_or (minStockAlert item) (of_Z 10).

Definition estimatedSales (items : list Item) : number :=
  fold_left
    (fun sum item =>
       add sum (mul (sellingPriceOf item)
                    (Math_max [pos_zero; Math_round (mul (Number (stock item)) c0_28)])))
    items pos_zero.

Record Segment : Type := {
  label : string;
  value : number;
  color : string
}.

(** [item.category || 'Uncategorized']. *)
Definition category_label (item : Item) : string :=
  if Str.is_empty (category item) then "Uncategorized" else category item.

(** [accumulator[category] || 0]. *)
Definition count_so_far (accumulator : Obj.object number) (category : string)
  : number :=
  match Obj.get accumulator category with
  | Some v => if truthy v then v else pos_zero
  | None => pos_zero
  end.

Definition grouped (items : list Item) : Obj.object number :=
  fold_left
    (fun accumulator item =>
       let category := category_label item in
       Obj.set accumulator category
               (add (count_so_far accumulator category)
                    (Number (stock item))))
    items [].

Definition categorySegments (items : list Item) : list Segment :=
  Obj.mapi
    (fun '(label, value) index =>
       {| label := label;
          value := value;
          color := nth (index mod List.length chartPalette) chartPalette EmptyString |})
    (Obj.sort (fun a b => sub (snd b) (snd a))
              (Obj.entries (grouped items))).

Record MonthValue : Type := {
  month : string;
  month_value : number
}.

Definition salesByMonth (estimatedSales : number) : list MonthValue :=
  Obj.mapi
    (fun month index =>
       let monthValue :=
         Math_round (mul (div estimatedSales (of_Z 6))
                         (add c0_72 (mul (of_Z (Z.of_nat index)) c0_1))) in
       {| month := month; month_value := monthValue |})
    monthLabels.

Definition expenseByMonth (salesByMonth : list MonthValue) : list number :=
  Obj.mapi
    (fun entry index =>
       let ratio := add c0_56 (if Nat.even index then c0_05 else c0_02) in
       Math_round (mul (month_value entry) ratio))
    salesByMonth.

(** [xs[index]] used as a number: [undefined] converts to [NaN]. *)
Definition at_index (xs : list number) (index : nat) : number :=
  match nth_error xs index with
  | Some x => x
  | None => NaN
  end.

Definition profitByMonth (salesByMonth : list MonthValue)
    (expenseByMonth : list number) : list number :=
  Obj.mapi
    (fun entry index =>
       Math_max [pos_zero;
                 sub (month_value entry) (at_index expenseByMonth index)])
    salesByMonth.

(* --------------------------------------------------------------------- *)
(** ** The record-sale flow                                                *)
(* --------------------------------------------------------------------- *)

Record SaleForm : Type := {
  itemId : string;
  quantity : string
}.

Record SaleRecord : Type := {
  sale_id : Z;
  date : string;
  sale_itemId : Z;
  sale_name : string;
  sale_brand : string;
  sale_category : string;
  sale_quantity : number;
  sale_sellingPrice : number;
  totalAmount : number
}.

(** A template literal: text with numbers still to be printed. *)
Inductive part : Type :=
  | Lit (s : string)
  | Num (x : number).

Record Toast : Type := {
  icon : string;
  title : string;
  text : list part
}.

(** What the handler does to the outside: a notification, or a request
    sent to the API. *)
Inductive effect : Type :=
  | Fired (t : Toast)
  | Fetched (r : Api.request).

Record State : Type := {
  items : list Item;
  search : string;
  saleForm : SaleForm;
  isSaleModalOpen : bool;
  salesLog : list SaleRecord;
  loading : bool;
  error : string
}.

(** [String(id)] for an integer. *)
Definition String_of (n : Z) : string := NilZero.string_of_int (Z.to_int n).

(** [JSON.stringify] prints [NaN] and the infinities as [null] and both
    zeros as [0]. *)
Definition json_number (x : number) : field number :=
  match x with
  | S754_zero _ => Given pos_zero
  | S754_finite _ _ _ => Given x
  | _ => Null
  end.

Definition json_scalar (x : number) : field Api.scalar :=
  match json_number x with
  | Given y => Given (Api.SNum y)
  | Null => Null
  | Absent => Absent
  end.

(** An item of a JSON response, as the client reads it. *)
Definition of_response (r : Api.ResponseItem) : Item :=
  {| id := Api.r_id r; name := Api.r_name r; brand := Api.r_brand r;
     category := Api.r_category r;
     stock := json_number (Api.r_stock r);
     rawPrice := json_number (Api.r_rawPrice r);
     sellingPrice := json_number (Api.r_sellingPrice r);
     price := json_number (Api.r_price r);
     profit := json_number (Api.r_profit r);
     minStockAlert := json_number (Api.r_minStockAlert r) |}.

(** [response.ok] *)
Definition ok (status : Z) : bool := (200 <=? status)%Z && (status <=? 299)%Z.

(** [s || fallback] *)
Definition or_text (s fallback : string) : string :=
  if Str.is_empty s then fallback else s.

Section Flow.

(** The API the client talks to, the clock and the rendering of a date. *)
Variable backend : list Api.Item -> Api.request -> list Api.Item * Api.reply.
Variable now : Z.
Variable isoString : string.

Definition set_loading (st : State) (l : bool) (e : string) : State :=
  {| items := items st; search := search st; saleForm := saleForm st;
     isSaleModalOpen := isSaleModalOpen st; salesLog := salesLog st;
     loading := l; error := e |}.

Definition setItems (st : State) (data : list Item) : State :=
  {| items := data; search := search st; saleForm := saleForm st;
     isSaleModalOpen := isSaleModalOpen st; salesLog := salesLog st;
     loading := loading st; error := error st |}.

Definition setSalesLog (st : State) (log : list SaleRecord) : State :=
  {| items := items st; search := search st; saleForm := saleForm st;
     isSaleModalOpen := isSaleModalOpen st; salesLog := log;
     loading := loading st; error := error st |}.

Definition closeSaleModal (st : State) : State :=
  {| items := items st; search := search st;
     saleForm := {| itemId := EmptyString; quantity := EmptyString |};
     isSaleModalOpen := false; salesLog := salesLog st;
     loading := loading st; error := error st |}.

(** The message of the error thrown when a response that is not JSON is
    parsed. *)
Definition not_json := "SyntaxError: Unexpected token in JSON".

Definition loadItems (st : State) (srv : list Api.Item) (query : string)
  : State * list Api.Item * list effect :=
  let st := set_loading st true EmptyString in
  let request :=
    Api.GET_items (if Str.is_empty query then None else Some query) in
  let '(srv, reply) := backend srv request in
  let st :=
    match reply with
    | Api.Respond status (Api.Json_items data) =>
        if ok status then setItems st (map of_response data)
        else set_loading st (loading st) "Failed to fetch inventory data."
    | Api.Respond status _ =>
        if ok status then set_loading st (loading st) not_json
        else set_loading st (loading st) "Failed to fetch inventory data."
    | Api.Raise _ =>
        set_loading st (loading st) "Failed to fetch inventory data."
    end in
  (set_loading st false (error st), srv, [Fetched request]).

Definition onAddSaleSubmit (st : State) (srv : list Api.Item)
  : State * list Api.Item * list effect :=
  let selectedItem :=
    find (fun item => String.eqb (String_of (id item)) (itemId (saleForm st)))
         (items st) in
  let quantity := Str.StringToNumber (quantity (saleForm st)) in
  match selectedItem with
  | None =>
      (st, srv,
       [Fired {| icon := "error"; title := "Invalid item";
                 text := [Lit "Please select a valid product."] |}])
  | Some selectedItem =>
      if negb (isFinite quantity) || le quantity pos_zero then
        (st, srv,
         [Fired {| icon := "error"; title := "Invalid quantity";
                   text := [Lit "Sale quantity must be greater than 0."] |}])
      else
        let currentStock := Number (stock selectedItem) in
        if gt quantity currentStock then
          (st, srv,
           [Fired {| icon := "warning"; title := "Not enough stock";
                     text := [Lit (name selectedItem); Lit " only has ";
                              Num currentStock;
                              Lit " stocks available."] |}])
        else
          let payload :=
            {| Api.b_name := Given (name selectedItem);
               Api.b_brand := Given (brand selectedItem);
               Api.b_category := Given (category selectedItem);
               Api.b_stock := json_scalar (sub currentStock quantity);
               Api.b_rawPrice := json_scalar (rawPriceOf selectedItem);
               Api.b_sellingPrice := json_scalar (sellingPriceOf selectedItem);
               Api.b_price := Absent;
               Api.b_minStockAlert :=
                 json_scalar (minStockAlertOf selectedItem) |} in
          let request := Api.PUT_item (String_of (id selectedItem)) payload in
          let '(srv1, reply) := backend srv request in
          let failed (message : string) :=
            (st, srv1,
             [Fetched request;
              Fired {| icon := "error"; title := "Sale failed";
                       text := [Lit (or_text message
                                             "Could not record sale.")] |}]) in
          match reply with
          | Api.Raise _ => failed not_json
          | Api.Respond status p =>
              if ok status then
                let saleRecord :=
                  {| sale_id := now; date := isoString;
                     sale_itemId := id selectedItem;
                     sale_name := name selectedItem;
                     sale_brand := brand selectedItem;
                     sale_category := category selectedItem;
                     sale_quantity := quantity;
                     sale_sellingPrice := sellingPriceOf selectedItem;
                     totalAmount := mul (sellingPriceOf selectedItem) quantity
                  |} in
                let st1 := closeSaleModal
                             (setSalesLog st (saleRecord :: salesLog st)) in
                let '(st2, srv2, loaded) := loadItems st1 srv1 (search st) in
                (st2, srv2,
                 ([Fetched request] ++ loaded ++
                  [Fired {| icon := "success"; title := "Sale recorded";
                            text := [Lit "Sold "; Num quantity;
                                     Lit " units of ";
                                     Lit (name selectedItem); Lit "."] |}])%list)
              else
                match p with
                | Api.Json_error e => failed (or_text e "Failed to record sale.")
                | _ => failed "Failed to record sale."
                end
          end
  end.

End Flow.

End App.

(* ===================================================================== *)
(** * Notions used in the statements                                       *)
(* ===================================================================== *)

(** ** Classes of numbers *)

Module Shape.

Import JS.

Definition emin : Z := SpecFloat.emin prec emax.

(** "A finite, non-negative number". *)
Definition finite_nonneg (x : number) : bool :=
  isFinite x && negb (lt x pos_zero).

(** The sign bit is clear, or the value is [NaN]. *)
Definition not_negative (x : number) : bool :=
  match x with
  | S754_zero s | S754_infinity s | S754_finite s _ _ => negb s
  | S754_nan => true
  end.

(** What rounding a non-zero value with sign [s] can give. *)
Definition rounded (s : bool) (x : number) : Prop :=
  (exists m e, x = S754_finite s m e /\ emin <= e) \/ x = S754_infinity s.

(** The numbers a running sum of finite numbers can be: neither [NaN] nor
    [-0], with an exponent that is not below [emin]. *)
Definition regular (x : number) : Prop :=
  match x with
  | S754_zero false | S754_infinity _ => True
  | S754_finite _ _ e => emin <= e
  | _ => False
  end.

(** A finite number with an exponent that is not below [emin]. *)
Definition summand (x : number) : Prop :=
  match x with
  | S754_zero _ => True
  | S754_finite _ _ e => emin <= e
  | _ => False
  end.

End Shape.

(** ** The item store *)

(** An item is stored with [sellingPrice >= rawPrice]. *)
Definition price_ok (it : Api.Item) : Prop :=
  JS.ge (Api.sellingPrice it) (Api.rawPrice it) = true.

(** The body supplies no [rawPrice], or neither [sellingPrice] nor
    [price]. *)
Definition price_missing (body : Api.Body) : Prop :=
  Api.b_rawPrice body = Api.Absent
  \/ (Api.b_sellingPrice body = Api.Absent /\ Api.b_price body = Api.Absent).

(** [n] is one more than the largest identifier in use, or 1 when there is
    none. *)
Definition one_above_ids (inventory : list Api.Item) (n : Z) : Prop :=
  match inventory with
  | [] => n = 1
  | _ => exists it, In it inventory /\ n = Api.id it + 1 /\
                    Forall (fun other => Api.id other <= Api.id it) inventory
  end.

(** Every property the body leaves out has in [updated] the value it has in
    [current]; [price] stands in for a missing [sellingPrice]. *)
Definition keeps_unsupplied (body : Api.Body) (current updated : Api.Item)
  : Prop :=
  Api.id updated = Api.id current /\
  (Api.b_name body = Api.Absent -> Api.name updated = Api.name current) /\
  (Api.b_brand body = Api.Absent -> Api.brand updated = Api.brand current) /\
  (Api.b_category body = Api.Absent ->
   Api.category updated = Api.category current) /\
  (Api.b_stock body = Api.Absent -> Api.stock updated = Api.stock current) /\
  (Api.b_rawPrice body = Api.Absent ->
   Api.rawPrice updated = Api.rawPrice current) /\
  (Api.b_sellingPrice body = Api.Absent -> Api.b_price body = Api.Absent ->
   Api.sellingPrice updated = Api.sellingPrice current) /\
  (Api.b_minStockAlert body = Api.Absent ->
   Api.minStockAlert updated = Api.minStockAlert current).

(** [after] is [before] with the element at [index] replaced by [updated]. *)
Definition replaced_at (before after : list Api.Item) (index : nat)
    (updated : Api.Item) : Prop :=
  List.length after = List.length before /\
  nth_error after index = Some updated /\
  (forall j, j <> index -> nth_error after j = nth_error before j).

(** ** Search *)





(** ** Analytics *)

(** The synthetic monthly trend, following the words of the specification:
    estimated sales are the sum over all items of
    [sellingPrice * round(stock * 0.28)]; the month at [index] has the sales
    value [round((estimatedSales / 6) * (0.72 + index * 0.1))], the expense
    [round(salesValue * (0.56 + (index even ? 0.05 : 0.02)))] and the profit
    [max(0, sales - expense)]. *)
Module TrendSpec.

Import JS App.

Definition estimated_sales (items : list Item) : number :=
  fold_left
    (fun sum item =>
       add sum (mul (sellingPriceOf item)
                    (Math_round (mul (Number (stock item)) c0_28))))
    items pos_zero.

Definition month_sales (estimated : number) (index : nat) : number :=
  Math_round (mul (div estimated (of_Z 6))
                  (add c0_72 (mul (of_Z (Z.of_nat index)) c0_1))).

Definition month_expense (salesValue : number) (index : nat) : number :=
  Math_round (mul salesValue
                  (add c0_56 (if Nat.even index then c0_05 else c0_02))).

Definition month_profit (sales expense : number) : number :=
  Math_max [pos_zero; sub sales expense].

End TrendSpec.

(** A stock that is not negative. *)
Definition stock_not_negative (item : App.Item) : Prop :=
  Shape.not_negative (App.Number (App.stock item)) = true.

(** The stock of an item is a JSON number: a finite binary64 value. *)
Definition stock_is_number (item : App.Item) : Prop :=
  valid_binary JS.prec JS.emax (App.Number (App.stock item)) = true /\
  JS.isFinite (App.Number (App.stock item)) = true.






(** The item selected in the sale form. *)
Definition selected (st : App.State) : option App.Item :=
  find (fun item =>
          String.eqb (App.String_of (App.id item))
                     (App.itemId (App.saleForm st)))
       (App.items st).

(* ===================================================================== *)
(** * Sample requests and items                                            *)
(* ===================================================================== *)

Module Sample.

Import JS Api.

Definition num (z : Z) : field scalar := Given (SNum (of_Z z)).

Definition body (stock rawPrice sellingPrice alert : field scalar) : Body :=
  {| b_name := Given "Test"; b_brand := Given "B"; b_category := Given "C";
     b_stock := stock; b_rawPrice := rawPrice;
     b_sellingPrice := sellingPrice; b_price := Absent;
     b_minStockAlert := alert |}.

(** The body of the specification's example. *)
Definition test : Body := body (num 5) (num 10) (num 15) Absent.

(** The item that body creates in the seeded store. *)
Definition test_item : Item :=
  {| id := 6; name := "Test"; brand := "B"; category := "C";
     stock := of_Z 5; rawPrice := of_Z 10; sellingPrice := of_Z 15;
     minStockAlert := of_Z 10 |}.

(** Only [stock] is supplied. *)
Definition only_stock (z : Z) : Body :=
  {| b_name := Absent; b_brand := Absent; b_category := Absent;
     b_stock := num z; b_rawPrice := Absent; b_sellingPrice := Absent;
     b_price := Absent; b_minStockAlert := Absent |}.

(** Selling below the raw price. *)
Definition inverted : Body := body (num 5) (num 10) (num 5) Absent.



(** A minimum stock alert that is not a number, or negative. *)
Definition text_alert : Body :=
  body (num 5) (num 10) (num 15) (Given (SStr "abc")).

Definition negative_alert : Body :=
  body (num 5) (num 10) (num 15) (num (-5)).

(** A create without any price. *)
Definition no_price : Body := body (num 5) Absent Absent Absent.

(** Items as the client holds them. *)
Definition client_item (category : string) (units unit_price : Z)
  : App.Item :=
  {| App.id := 1; App.name := "Pod Cartridge 2ml"; App.brand := "VapeX";
     App.category := category;
     App.stock := Given (of_Z units);
     App.rawPrice := Given (of_Z 1);
     App.sellingPrice := Given (of_Z unit_price);
     App.price := Given (of_Z unit_price);
     App.profit := Given (sub (of_Z unit_price) (of_Z 1));
     App.minStockAlert := Given (of_Z 12) |}.

(** The item list of the specification's grouping example. *)
Definition three_items : list App.Item :=
  [client_item "A" 5 180; client_item "A" 3 180; client_item "B" 2 180].

Definition two_items : list App.Item :=
  [client_item "Disposable" 15 380; client_item "E-Liquid" 24 450].

(** The client after loading the seeded store, about to record the sale of
    [quantity] units of item 2. *)
Definition sale_state (quantity : string) : App.State :=
  {| App.items :=
       map App.of_response (map buildItemResponse Server.inventory0);
     App.search := EmptyString;
     App.saleForm := {| App.itemId := "2"; App.quantity := quantity |};
     App.isSaleModalOpen := true;
     App.salesLog := [];
     App.loading := false;
     App.error := EmptyString |}.

Definition clock : Z := 1762128000000.
Definition clock_text : string := "2026-11-03T00:00:00.000Z".

End Sample.

(* ===================================================================== *)
(** * Further notions about the item store                                 *)
(* ===================================================================== *)

(** A text property as the validator leaves it: not empty, and without
    white space at either end. *)
Definition text_ok (s : string) : Prop :=
  Str.is_empty s = false /\ Str.trim s = s.

(** What both validators establish for an item. *)
Definition stored_ok (it : Api.Item) : Prop :=
  text_ok (Api.name it) /\ text_ok (Api.brand it) /\
  text_ok (Api.category it) /\
  Shape.finite_nonneg (Api.stock it) = true /\
  Shape.finite_nonneg (Api.rawPrice it) = true /\
  Shape.finite_nonneg (Api.sellingPrice it) = true.

(** What the validator of the second server file establishes besides. *)
Definition alert_ok (it : Api.Item) : Prop :=
  Shape.finite_nonneg (Api.minStockAlert it) = true.

(** Identifiers are distinct, positive integers. *)
Definition ids_ok (inventory : list Api.Item) : Prop :=
  NoDup (map Api.id inventory) /\ Forall (fun it => 1 <= Api.id it) inventory.

(** Identifiers that binary64 numbers hold exactly. *)
Definition ids_exact (inventory : list Api.Item) : Prop :=
  Forall (fun it => Api.id it < 2 ^ 53) inventory.

(** A string that does not begin with white space. *)
Definition starts_clean (s : string) : Prop :=
  match s with
  | EmptyString => True
  | String c _ => Str.is_white c = false
  end.

(** The digits of a decimal numeral. *)
Fixpoint uint_digits (d : Decimal.uint) : list Z :=
  match d with
  | Decimal.Nil => []
  | Decimal.D0 r => 0 :: uint_digits r
  | Decimal.D1 r => 1 :: uint_digits r
  | Decimal.D2 r => 2 :: uint_digits r
  | Decimal.D3 r => 3 :: uint_digits r
  | Decimal.D4 r => 4 :: uint_digits r
  | Decimal.D5 r => 5 :: uint_digits r
  | Decimal.D6 r => 6 :: uint_digits r
  | Decimal.D7 r => 7 :: uint_digits r
  | Decimal.D8 r => 8 :: uint_digits r
  | Decimal.D9 r => 9 :: uint_digits r
  end.

Definition server_inv (inventory : list Api.Item) : Prop :=
  ids_ok inventory /\ Forall stored_ok inventory.


Definition strict_inv (inventory : list Api.Item) : Prop :=
  ids_ok inventory /\ Forall stored_ok inventory /\ Forall alert_ok inventory.


(** The body with every [null] property left out. *)
Definition drop_null {A} (v : Api.field A) : Api.field A :=
  match v with
  | Api.Null => Api.Absent
  | _ => v
  end.

Definition without_nulls (body : Api.Body) : Api.Body :=
  {| Api.b_name := drop_null (Api.b_name body);
     Api.b_brand := drop_null (Api.b_brand body);
     Api.b_category := drop_null (Api.b_category body);
     Api.b_stock := drop_null (Api.b_stock body);
     Api.b_rawPrice := drop_null (Api.b_rawPrice body);
     Api.b_sellingPrice := drop_null (Api.b_sellingPrice body);
     Api.b_price := drop_null (Api.b_price body);
     Api.b_minStockAlert := drop_null (Api.b_minStockAlert body) |}.



(** The items other than the one with identifier [k], in their order. *)
Definition without_id (k : Z) (inventory : list Api.Item) : list Api.Item :=
  filter (fun other => negb (Api.id other =? k)%Z) inventory.


(** Some stored item has the identifier the path parameter converts to. *)
Definition known (inventory : list Api.Item) (p : string) : Prop :=
  exists it, In it inventory /\ Api.id_is (Str.StringToNumber p) it = true.


(** A body that supplies nothing, and bodies that only carry a [null]
    stock. *)
Definition empty_body : Api.Body :=
  {| Api.b_name := Api.Absent; Api.b_brand := Api.Absent;
     Api.b_category := Api.Absent; Api.b_stock := Api.Absent;
     Api.b_rawPrice := Api.Absent; Api.b_sellingPrice := Api.Absent;
     Api.b_price := Api.Absent; Api.b_minStockAlert := Api.Absent |}.

Definition null_stock : Api.Body :=
  {| Api.b_name := Api.Absent; Api.b_brand := Api.Absent;
     Api.b_category := Api.Absent; Api.b_stock := Api.Null;
     Api.b_rawPrice := Api.Absent; Api.b_sellingPrice := Api.Absent;
     Api.b_price := Api.Absent; Api.b_minStockAlert := Api.Absent |}.

(** An item with another stock. *)
Definition with_stock (it : Api.Item) (x : JS.number) : Api.Item :=
  {| Api.id := Api.id it; Api.name := Api.name it; Api.brand := Api.brand it;
     Api.category := Api.category it; Api.stock := x;
     Api.rawPrice := Api.rawPrice it;
     Api.sellingPrice := Api.sellingPrice it;
     Api.minStockAlert := Api.minStockAlert it |}.

(** Numbers other than [NaN], with an exponent that is not below [emin]. *)
Definition ordinary (x : JS.number) : Prop :=
  match x with
  | S754_nan => False
  | S754_finite _ _ e => Shape.emin <= e
  | _ => True
  end.

(** A number with the sign of a zero forgotten. *)
Definition unsigned_zero (x : JS.number) : JS.number :=
  match x with
  | S754_zero _ => JS.pos_zero
  | _ => x
  end.

(** A numeric property as [JSON.parse] delivers it from a response of the
    API: missing, [null], or a finite binary64 value. *)
Definition is_number (v : Api.field JS.number) : Prop :=
  match v with
  | Api.Given x => valid_binary JS.prec JS.emax x = true /\ JS.isFinite x = true
  | _ => True
  end.

(* ===================================================================== *)
(** * The client [App]: the other derived values of the dashboard          *)
(* ===================================================================== *)

Module Dashboard.

Import JS App.

Definition profitPerUnitOf (item : Item) : number :=
  number_or (profit item) (sub (sellingPriceOf item) (rawPriceOf item)).


Definition lowStockCount (items : list Item) : nat :=
  List.length
    (filter
       (fun item =>
          let stock := Number (stock item) in
          let minAlert := minStockAlertOf item in
          gt stock pos_zero && le stock minAlert)
       items).

(** [{ ...item, value }] *)
Record Valued : Type := {
  v_item : Item;
  v_value : number
}.

Definition topProductsByValue (items : list Item) : list Valued :=
  firstn 6
    (Obj.sort (fun a b => sub (v_value b) (v_value a))
       (map (fun item =>
               {| v_item := item;
                  v_value := mul (Number (stock item)) (sellingPriceOf item) |})
            items)).

Record ProfitRow : Type := {
  p_id : Z;
  p_name : string;
  p_brand : string;
  profitPerUnit : number
}.

Definition profitPerProduct (items : list Item) : list ProfitRow :=
  firstn 8
    (Obj.sort (fun a b => sub (profitPerUnit b) (profitPerUnit a))
       (map (fun item =>
               {| p_id := id item; p_name := name item;
                  p_brand := brand item;
                  profitPerUnit := profitPerUnitOf item |})
            items)).

(** A row of [stockMovements].  Items never carry [dateAdded], so
    [item.dateAdded || null] is [null]. *)
Record Movement : Type := {
  m_id : Z;
  m_name : string;
  m_brand : string;
  m_category : string;
  m_stock : number;
  m_minStockAlert : number;
  status : string;
  action : string;
  dateAdded : field string
}.

Definition status_of (stock minStockAlert : number) : string :=
  if strict_eq stock pos_zero then "Out of Stock"
  else if le stock minStockAlert then "Low Stock"
  else if ge stock (of_Z 40) then "Overstock"
  else "Healthy".

Definition action_of (status : string) : string :=
  if String.eqb status "Out of Stock" then "Urgent restock"
  else if String.eqb status "Low Stock" then "Prepare reorder"
  else if String.eqb status "Overstock" then "Run promo bundle"
  else "Maintain level".

Definition movement_of (item : Item) : Movement :=
  let stock := Number (stock item) in
  let minStockAlert := minStockAlertOf item in
  let status := status_of stock minStockAlert in
  let action := action_of status in
  {| m_id := id item; m_name := name item; m_brand := brand item;
     m_category := category item; m_stock := stock;
     m_minStockAlert := minStockAlert; status := status; action := action;
     dateAdded := Null |}.

Definition stockMovements (items : list Item) : list Movement :=
  Obj.sort (fun a b => sub (m_stock a) (m_stock b)) (map movement_of items).


(** The preview of the sale modal. *)
Definition saleUnitPrice (st : State) : number :=
  match find (fun item => String.eqb (String_of (id item))
                                     (itemId (saleForm st)))
             (items st) with
  | Some saleItem => sellingPriceOf saleItem
  | None => pos_zero
  end.

Definition saleQty (st : State) : number :=
  let q := Str.StringToNumber (quantity (saleForm st)) in
  if truthy q then q else pos_zero.

Definition saleTotalAmount (st : State) : number :=
  mul (saleUnitPrice st) (saleQty st).

End Dashboard.

(** An item whose stock is a number and whose other numeric properties are
    numbers where they are present. *)
Definition numbers_ok (item : App.Item) : Prop :=
  stock_is_number item /\ is_number (App.rawPrice item) /\
  is_number (App.sellingPrice item) /\ is_number (App.price item) /\
  is_number (App.profit item) /\ is_number (App.minStockAlert item).



(** A product with the value of its stock, and with its profit per unit. *)
Definition valued (item : App.Item) : Dashboard.Valued :=
  {| Dashboard.v_item := item;
     Dashboard.v_value :=
       JS.mul (App.Number (App.stock item)) (App.sellingPriceOf item) |}.

Definition profit_row (item : App.Item) : Dashboard.ProfitRow :=
  {| Dashboard.p_id := App.id item; Dashboard.p_name := App.name item;
     Dashboard.p_brand := App.brand item;
     Dashboard.profitPerUnit := Dashboard.profitPerUnitOf item |}.

(** [top] holds the [k] largest elements of [all], largest first, by the
    key [key]. *)
Definition largest {A} (key : A -> JS.number) (k : nat) (all top : list A)
  : Prop :=
  exists rest,
    Permutation (top ++ rest) all /\
    List.length top = Nat.min k (List.length all) /\
    StronglySorted (fun a b => JS.ge (key a) (key b) = true) top /\
    forall a b, In a top -> In b rest -> JS.ge (key a) (key b) = true.

(* ===================================================================== *)
(** * The client [App]: forms and their handlers                           *)
(* ===================================================================== *)

Module Screen.

Import JS App.

(** [form], with the text of each input. *)
Record Form : Type := {
  f_name : string;
  f_brand : string;
  f_category : string;
  f_stock : string;
  f_rawPrice : string;
  f_sellingPrice : string;
  f_minStockAlert : string
}.

Definition initialFormState : Form :=
  {| f_name := EmptyString; f_brand := EmptyString;
     f_category := EmptyString; f_stock := EmptyString;
     f_rawPrice := EmptyString; f_sellingPrice := EmptyString;
     f_minStockAlert := EmptyString |}.

(** An element of [variantEntries]. *)
Record VariantEntry : Type := {
  entry_name : string;
  entry_stock : string
}.

Definition blank_entry : VariantEntry :=
  {| entry_name := EmptyString; entry_stock := EmptyString |}.

(** The state of the component: the part the sale flow uses, and the other
    cells the forms use. *)
Record State : Type := {
  core : App.State;
  form : Form;
  editingId : option Z;
  isAddModalOpen : bool;
  isEditModalOpen : bool;
  isStockModalOpen : bool;
  stockForm : SaleForm;
  variantEntries : list VariantEntry
}.

Definition with_core (st : State) (c : App.State) : State :=
  {| core := c; form := form st; editingId := editingId st;
     isAddModalOpen := isAddModalOpen st;
     isEditModalOpen := isEditModalOpen st;
     isStockModalOpen := isStockModalOpen st; stockForm := stockForm st;
     variantEntries := variantEntries st |}.

Definition setForm (st : State) (f : Form) : State :=
  {| core := core st; form := f; editingId := editingId st;
     isAddModalOpen := isAddModalOpen st;
     isEditModalOpen := isEditModalOpen st;
     isStockModalOpen := isStockModalOpen st; stockForm := stockForm st;
     variantEntries := variantEntries st |}.

Definition setEditingId (st : State) (e : option Z) : State :=
  {| core := core st; form := form st; editingId := e;
     isAddModalOpen := isAddModalOpen st;
     isEditModalOpen := isEditModalOpen st;
     isStockModalOpen := isStockModalOpen st; stockForm := stockForm st;
     variantEntries := variantEntries st |}.

Definition setIsAddModalOpen (st : State) (b : bool) : State :=
  {| core := core st; form := form st; editingId := editingId st;
     isAddModalOpen := b;
     isEditModalOpen := isEditModalOpen st;
     isStockModalOpen := isStockModalOpen st; stockForm := stockForm st;
     variantEntries := variantEntries st |}.

Definition setIsEditModalOpen (st : State) (b : bool) : State :=
  {| core := core st; form := form st; editingId := editingId st;
     isAddModalOpen := isAddModalOpen st;
     isEditModalOpen := b;
     isStockModalOpen := isStockModalOpen st; stockForm := stockForm st;
     variantEntries := variantEntries st |}.

Definition setIsStockModalOpen (st : State) (b : bool) : State :=
  {| core := core st; form := form st; editingId := editingId st;
     isAddModalOpen := isAddModalOpen st;
     isEditModalOpen := isEditModalOpen st;
     isStockModalOpen := b; stockForm := stockForm st;
     variantEntries := variantEntries st |}.

Definition setStockForm (st : State) (f : SaleForm) : State :=
  {| core := core st; form := form st; editingId := editingId st;
     isAddModalOpen := isAddModalOpen st;
     isEditModalOpen := isEditModalOpen st;
     isStockModalOpen := isStockModalOpen st; stockForm := f;
     variantEntries := variantEntries st |}.

Definition setVariantEntries (st : State) (l : list VariantEntry) : State :=
  {| core := core st; form := form st; editingId := editingId st;
     isAddModalOpen := isAddModalOpen st;
     isEditModalOpen := isEditModalOpen st;
     isStockModalOpen := isStockModalOpen st; stockForm := stockForm st;
     variantEntries := l |}.

Definition setError (st : State) (e : string) : State :=
  with_core st
    {| items := items (core st); search := search (core st);
       saleForm := saleForm (core st);
       isSaleModalOpen := isSaleModalOpen (core st);
       salesLog := salesLog (core st); loading := loading (core st);
       error := e |}.

Definition setSaleForm (st : State) (f : SaleForm) : State :=
  with_core st
    {| items := items (core st); search := search (core st);
       saleForm := f;
       isSaleModalOpen := isSaleModalOpen (core st);
       salesLog := salesLog (core st); loading := loading (core st);
       error := error (core st) |}.

Definition setIsSaleModalOpen (st : State) (b : bool) : State :=
  with_core st
    {| items := items (core st); search := search (core st);
       saleForm := saleForm (core st);
       isSaleModalOpen := b;
       salesLog := salesLog (core st); loading := loading (core st);
       error := error (core st) |}.

(** ** Inputs *)

(** The two inputs of a variant entry. *)
Inductive EntryField : Type := EntryName | EntryStock.

Definition set_entry (entry : VariantEntry) (field : EntryField)
    (value : string) : VariantEntry :=
  match field with
  | EntryName => {| entry_name := value; entry_stock := entry_stock entry |}
  | EntryStock => {| entry_name := entry_name entry; entry_stock := value |}
  end.

Definition onVariantEntryChange (st : State) (index : nat)
    (field : EntryField) (value : string) : State :=
  setVariantEntries st
    (Obj.mapi
       (fun entry entryIndex =>
          if Nat.eqb entryIndex index then set_entry entry field value
          else entry)
       (variantEntries st)).

Definition onAddVariantEntry (st : State) : State :=
  setVariantEntries st (variantEntries st ++ [blank_entry])%list.

(** [xs.filter((x, index) => p x index)] *)
Fixpoint filteri_from {A} (k : nat) (p : A -> nat -> bool) (l : list A)
  : list A :=
  match l with
  | [] => []
  | x :: r =>
      if p x k then x :: filteri_from (S k) p r else filteri_from (S k) p r
  end.

Definition onRemoveVariantEntry (st : State) (index : nat) : State :=
  setVariantEntries st
    (let current := variantEntries st in
     if (List.length current <=? 1)%nat then current
     else filteri_from O (fun _ entryIndex => negb (Nat.eqb entryIndex index))
                       current).

(** ** Opening and closing the modals *)

Definition resetForm (st : State) : State :=
  setVariantEntries (setEditingId (setForm st initialFormState) None)
                    [blank_entry].

Definition closeAddModal (st : State) : State := setIsAddModalOpen st false.

Definition closeEditModal (st : State) : State :=
  resetForm (setIsEditModalOpen st false).

Definition info (text : string) : Toast :=
  {| icon := "info"; title := "No products yet"; text := [Lit text] |}.

Definition openStockModal (st : State) : State * list effect :=
  match items (core st) with
  | [] => (st, [Fired (info "Add products first before adding stock.")])
  | first :: _ =>
      (setIsStockModalOpen
         (setStockForm st {| itemId := String_of (id first);
                             quantity := EmptyString |})
         true,
       [])
  end.

Definition closeStockModal (st : State) : State :=
  setStockForm (setIsStockModalOpen st false)
               {| itemId := EmptyString; quantity := EmptyString |}.

Definition openSaleModal (st : State) : State * list effect :=
  match items (core st) with
  | [] => (st, [Fired (info "Add products first before recording a sale.")])
  | first :: _ =>
      (setIsSaleModalOpen
         (setSaleForm st {| itemId := String_of (id first);
                            quantity := EmptyString |})
         true,
       [])
  end.

(** ** Talking to the API *)

(** [response.ok] for what comes back; a handler that threw is answered by
    the framework with status 500 and a page that is not JSON. *)
Definition is_ok (reply : Api.reply) : bool :=
  match reply with
  | Api.Respond status _ => ok status
  | Api.Raise _ => false
  end.

(** The message of the error thrown for a response that is not ok:
    [result.error || fallback], or the message of the parse error when the
    response holds no JSON. *)
Definition thrown_message (reply : Api.reply) (fallback : string) : string :=
  match reply with
  | Api.Raise _ => not_json
  | Api.Respond _ (Api.Json_error e) => or_text e fallback
  | Api.Respond _ Api.Empty_body => not_json
  | Api.Respond _ _ => fallback
  end.

(** [payload] of the item form. *)
Record Payload : Type := {
  p_name : string;
  p_brand : string;
  p_category : string;
  p_stock : number;
  p_rawPrice : number;
  p_sellingPrice : number;
  p_minStockAlert : number
}.

Definition payload_of (f : Form) : Payload :=
  {| p_name := Str.trim (f_name f);
     p_brand := Str.trim (f_brand f);
     p_category := Str.trim (f_category f);
     p_stock := Str.StringToNumber (f_stock f);
     p_rawPrice := Str.StringToNumber (f_rawPrice f);
     p_sellingPrice := Str.StringToNumber (f_sellingPrice f);
     p_minStockAlert := Str.StringToNumber (f_minStockAlert f) |}.

(** An element of [multiEntries] and of [entriesToCreate]. *)
Record Entry : Type := {
  e_name : string;
  e_stock : number
}.

(** [JSON.stringify({ ...payload, name, stock })] as the server parses it. *)
Definition body_of (payload : Payload) (name : string) (stock : number)
  : Api.Body :=
  {| Api.b_name := Given name;
     Api.b_brand := Given (p_brand payload);
     Api.b_category := Given (p_category payload);
     Api.b_stock := json_scalar stock;
     Api.b_rawPrice := json_scalar (p_rawPrice payload);
     Api.b_sellingPrice := json_scalar (p_sellingPrice payload);
     Api.b_price := Absent;
     Api.b_minStockAlert := json_scalar (p_minStockAlert payload) |}.

(** How the loop over [entriesToCreate] ends: with an error thrown, or with
    [createdCount]. *)
Inductive outcome : Type :=
  | Failed (message : string)
  | Created (createdCount : nat).

(** What the user is asked to confirm. *)
Inductive event : Type :=
  | Did (e : effect)
  | Confirm (dialog : Toast).

(** The constants [onFormSubmit] derives from the state. *)
Definition isEditing (st : State) : bool :=
  match editingId st with Some _ => true | None => false end.

Definition normalizedCategory (st : State) : string :=
  Str.toLowerCase (p_category (payload_of (form st))).

Definition isPodsCategory (st : State) : bool :=
  String.eqb (normalizedCategory st) "pods".

Definition isBatteryCategory (st : State) : bool :=
  String.eqb (normalizedCategory st) "battery"
  || String.eqb (normalizedCategory st) "batteries".

Definition allowMultipleNames (st : State) : bool :=
  isPodsCategory st || isBatteryCategory st.

Definition itemFieldLabel (st : State) : string :=
  if isBatteryCategory st then "color" else "flavor".

Definition itemList (st : State) : list string :=
  [Str.trim (f_name (form st))].

Definition multiEntries (st : State) : list Entry :=
  if allowMultipleNames st then
    filter (fun entry => negb (Str.is_empty (e_name entry)))
      (map (fun entry =>
              {| e_name := Str.trim (entry_name entry);
                 e_stock := Str.StringToNumber (entry_stock entry) |})
           (variantEntries st))
  else [].

Definition entriesToCreate (st : State) : list Entry :=
  if allowMultipleNames st then multiEntries st
  else [{| e_name := nth 0 (itemList st) EmptyString;
           e_stock := p_stock (payload_of (form st)) |}].

(** The checks of [onFormSubmit], in their order: the message of the first
    one that stops the submission. *)
Definition rejection (st : State) : option string :=
  let payload := payload_of (form st) in
  if Str.is_empty (p_brand payload) || Str.is_empty (p_category payload) then
    Some ("Please provide brand, " ++ itemFieldLabel st ++ ", and category.")
  else if negb (isEditing st) && allowMultipleNames st
          && Nat.eqb (List.length (multiEntries st)) 0 then
    Some ("Please provide at least one " ++ itemFieldLabel st
          ++ " with stock.")
  else if negb (isEditing st) && negb (allowMultipleNames st)
          && Str.is_empty (nth 0 (itemList st) EmptyString) then
    Some ("Please provide " ++ itemFieldLabel st ++ ".")
  else if (negb (allowMultipleNames st) || isEditing st)
          && (negb (isFinite (p_stock payload))
              || lt (p_stock payload) pos_zero) then
    Some "Stock must be a valid non-negative number."
  else if negb (isEditing st) && allowMultipleNames st
          && existsb (fun entry => negb (isFinite (e_stock entry))
                                   || lt (e_stock entry) pos_zero)
                     (multiEntries st) then
    Some "Each flavor/color stock must be a valid non-negative number."
  else if negb (isFinite (p_rawPrice payload))
          || lt (p_rawPrice payload) pos_zero then
    Some "Raw price must be a valid non-negative amount in PHP."
  else if negb (isFinite (p_sellingPrice payload))
          || lt (p_sellingPrice payload) pos_zero then
    Some "Selling price must be a valid non-negative amount in PHP."
  else if lt (p_sellingPrice payload) (p_rawPrice payload) then
    Some "Selling price must be greater than or equal to raw price."
  else if negb (isFinite (p_minStockAlert payload))
          || lt (p_minStockAlert payload) pos_zero then
    Some "Minimum stock alert must be a valid non-negative number."
  else None.

(** The title of the notification shown after a save. *)
Definition saved_title (st : State) (createdCount : nat) : string :=
  if isEditing st then "Item updated"
  else if (1 <? createdCount)%nat then
    String_of (Z.of_nat createdCount) ++ " " ++
    (if isBatteryCategory st then "colors" else "flavors") ++ " added"
  else if isBatteryCategory st then "Color added"
  else "Flavor added".

Section Handlers.

Variable backend : list Api.Item -> Api.request -> list Api.Item * Api.reply.

(** [await loadItems(query)] *)
Definition loadItems (st : State) (srv : list Api.Item) (query : string)
  : State * list Api.Item * list effect :=
  let '(c, srv, effects) := App.loadItems backend (core st) srv query in
  (with_core st c, srv, effects).

Definition onAddStockSubmit (st : State) (srv : list Api.Item)
  : State * list Api.Item * list effect :=
  let selectedItem :=
    find (fun item => String.eqb (String_of (id item)) (itemId (stockForm st)))
         (items (core st)) in
  let quantity := Str.StringToNumber (quantity (stockForm st)) in
  match selectedItem with
  | None =>
      (st, srv,
       [Fired {| icon := "error"; title := "Invalid item";
                 text := [Lit "Please select a valid product."] |}])
  | Some selectedItem =>
      if negb (isFinite quantity) || le quantity pos_zero then
        (st, srv,
         [Fired {| icon := "error"; title := "Invalid quantity";
                   text := [Lit "Stock quantity must be greater than 0."] |}])
      else
        let payload :=
          {| Api.b_name := Given (name selectedItem);
             Api.b_brand := Given (brand selectedItem);
             Api.b_category := Given (category selectedItem);
             Api.b_stock :=
               json_scalar (add (Number (stock selectedItem)) quantity);
             Api.b_rawPrice := json_scalar (rawPriceOf selectedItem);
             Api.b_sellingPrice := json_scalar (sellingPriceOf selectedItem);
             Api.b_price := Absent;
             Api.b_minStockAlert :=
               json_scalar (minStockAlertOf selectedItem) |} in
        let request := Api.PUT_item (String_of (id selectedItem)) payload in
        let '(srv1, reply) := backend srv request in
        if is_ok reply then
          let st1 := closeStockModal st in
          let '(st2, srv2, loaded) := loadItems st1 srv1 (search (core st)) in
          (st2, srv2,
           ([Fetched request] ++ loaded ++
            [Fired {| icon := "success"; title := "Stock updated";
                      text := [Lit "Added "; Num quantity; Lit " stock to ";
                               Lit (name selectedItem); Lit "."] |}])%list)
        else
          (st, srv1,
           [Fetched request;
            Fired {| icon := "error"; title := "Update failed";
                     text := [Lit (or_text
                                     (thrown_message reply
                                                     "Failed to add stock.")
                                     "Could not add stock.")] |}])
  end.

(** The loop [for (const entry of entriesToCreate)]. *)
Fixpoint create_entries (payload : Payload) (srv : list Api.Item)
    (entriesToCreate : list Entry) (createdCount : nat)
  : list Api.Item * list effect * outcome :=
  match entriesToCreate with
  | [] => (srv, [], Created createdCount)
  | entry :: rest =>
      let request :=
        Api.POST_item (body_of payload (e_name entry) (e_stock entry)) in
      let '(srv1, reply) := backend srv request in
      if is_ok reply then
        let '(srv2, sent, result) :=
          create_entries payload srv1 rest (S createdCount) in
        (srv2, Fetched request :: sent, result)
      else
        (srv1, [Fetched request],
         Failed (thrown_message reply "Failed to save item."))
  end.

(** The [catch] block of [onFormSubmit]. *)
Definition save_failed (st : State) (srv1 : list Api.Item)
    (sent : list effect) (message : string)
  : State * list Api.Item * list effect :=
  let shown := or_text message "Could not save inventory item." in
  (setError (setError st EmptyString) shown, srv1,
   (sent ++ [Fired {| icon := "error"; title := "Save failed";
                      text := [Lit shown] |}])%list).

(** The end of the [try] block of [onFormSubmit]. *)
Definition saved (st : State) (srv1 : list Api.Item) (sent : list effect)
    (createdCount : nat) : State * list Api.Item * list effect :=
  let st0 := setError st EmptyString in
  let st1 := if isEditing st then closeEditModal st0 else closeAddModal st0 in
  let st2 := resetForm st1 in
  let '(st3, srv2, loaded) := loadItems st2 srv1 (search (core st)) in
  (st3, srv2,
   (sent ++ loaded ++
    [Fired {| icon := "success"; title := saved_title st createdCount;
              text := [] |}])%list).

(** The [try] block of [onFormSubmit]. *)
Definition save (st : State) (srv : list Api.Item)
  : State * list Api.Item * list effect :=
  let payload := payload_of (form st) in
  match editingId st with
  | Some editingId =>
      let request :=
        Api.PUT_item (String_of editingId)
                     (body_of payload (p_name payload) (p_stock payload)) in
      let '(srv1, reply) := backend srv request in
      if is_ok reply then saved st srv1 [Fetched request] O
      else save_failed st srv1 [Fetched request]
                       (thrown_message reply "Failed to save item.")
  | None =>
      let '(srv1, sent, result) :=
        create_entries payload srv (entriesToCreate st) O in
      match result with
      | Failed message => save_failed st srv1 sent message
      | Created createdCount =>
          if Nat.eqb createdCount 0 then
            save_failed st srv1 sent "No flavors were added."
          else saved st srv1 sent createdCount
      end
  end.

Definition onFormSubmit (st : State) (srv : list Api.Item)
  : State * list Api.Item * list effect :=
  match rejection st with
  | Some message => (setError (setError st EmptyString) message, srv, [])
  | None => save st srv
  end.

(** [onDelete(id, name)], with the answer the user gives to the dialog. *)
Definition onDelete (st : State) (srv : list Api.Item) (id : Z)
    (name : string) (isConfirmed : bool)
  : State * list Api.Item * list event :=
  let asked :=
    Confirm {| icon := "warning"; title := "Are you sure?";
               text := [Lit "Delete "; Lit name;
                        Lit "? This action cannot be undone."] |} in
  if negb isConfirmed then (st, srv, [asked])
  else
    let st0 := setError st EmptyString in
    let request := Api.DELETE_item (String_of id) in
    let '(srv1, reply) := backend srv request in
    if is_ok reply then
      let st1 :=
        match editingId st with
        | Some editing => if (editing =? id)%Z then resetForm st0 else st0
        | None => st0
        end in
      let '(st2, srv2, loaded) := loadItems st1 srv1 (search (core st)) in
      (st2, srv2,
       ([asked; Did (Fetched request)] ++ map Did loaded ++
        [Did (Fired {| icon := "success"; title := "Deleted";
                       text := [Lit name;
                                Lit " was removed from inventory."] |})])%list)
    else
      let shown :=
        or_text (thrown_message reply "Failed to delete item.")
                "Could not delete inventory item." in
      (setError st0 shown, srv1,
       [asked; Did (Fetched request);
        Did (Fired {| icon := "error"; title := "Delete failed";
                      text := [Lit shown] |})]).

End Handlers.

End Screen.

(** The record a sale leaves in the log. *)
Definition sale_of (item : App.Item) (quantity : JS.number)
    (record : App.SaleRecord) : Prop :=
  App.sale_itemId record = App.id item /\
  App.sale_name record = App.name item /\
  App.sale_quantity record = quantity /\
  App.sale_sellingPrice record = App.sellingPriceOf item /\
  App.totalAmount record = JS.mul (App.sellingPriceOf item) quantity.

(** A quantity the sale form and the stock form accept. *)
Definition positive_quantity (q : JS.number) : Prop :=
  JS.isFinite q = true /\ JS.le q JS.pos_zero = false.

(** A body with which nothing is wrong but, possibly, an empty name: the
    texts are trimmed, brand and category are not empty, the numbers are
    finite and not negative, and the selling price is not below the raw
    price. *)
Definition sound_body (body : Api.Body) : Prop :=
  exists name brand category stock rawPrice sellingPrice alert,
    body = {| Api.b_name := Api.Given name; Api.b_brand := Api.Given brand;
              Api.b_category := Api.Given category;
              Api.b_stock := Api.Given (Api.SNum stock);
              Api.b_rawPrice := Api.Given (Api.SNum rawPrice);
              Api.b_sellingPrice := Api.Given (Api.SNum sellingPrice);
              Api.b_price := Api.Absent;
              Api.b_minStockAlert := Api.Given (Api.SNum alert) |} /\
    Str.trim name = name /\ text_ok brand /\ text_ok category /\
    Shape.finite_nonneg stock = true /\
    Shape.finite_nonneg rawPrice = true /\
    Shape.finite_nonneg sellingPrice = true /\
    Shape.finite_nonneg alert = true /\
    JS.lt sellingPrice rawPrice = false.

(** What a request sent by the item form looks like. *)
Definition sound_request (st : Screen.State) (request : Api.request) : Prop :=
  match request with
  | Api.GET_items _ => True
  | Api.POST_item body =>
      Screen.editingId st = None /\ sound_body body /\
      Api.falsy_text (Api.b_name body) = false
  | Api.PUT_item p body =>
      exists k, Screen.editingId st = Some k /\ p = App.String_of k /\
                sound_body body
  | Api.DELETE_item _ => False
  end.

(** The item a server stores for an entry the item form sends. *)
Definition stored_for (payload : Screen.Payload) (id : Z)
    (entry : Screen.Entry) : Api.Item :=
  {| Api.id := id; Api.name := Screen.e_name entry;
     Api.brand := Screen.p_brand payload;
     Api.category := Screen.p_category payload;
     Api.stock := unsigned_zero (Screen.e_stock entry);
     Api.rawPrice := unsigned_zero (Screen.p_rawPrice payload);
     Api.sellingPrice := unsigned_zero (Screen.p_sellingPrice payload);
     Api.minStockAlert := unsigned_zero (Screen.p_minStockAlert payload) |}.

(** The items stored for a list of entries, each with the next identifier
    of the store it is added to. *)
Fixpoint created_from (payload : Screen.Payload) (srv : list Api.Item)
    (entries : list Screen.Entry) : list Api.Item :=
  match entries with
  | [] => []
  | entry :: rest =>
      let item := stored_for payload (Api.nextId srv) entry in
      item :: created_from payload (srv ++ [item])%list rest
  end.

(** The requests of the loop over the entries. *)
Definition posts (payload : Screen.Payload) (entries : list Screen.Entry)
  : list App.effect :=
  map (fun entry =>
         App.Fetched
           (Api.POST_item
              (Screen.body_of payload (Screen.e_name entry)
                              (Screen.e_stock entry))))
      entries.

(** The request that reloads the list. *)
Definition reload (query : string) : App.effect :=
  App.Fetched (Api.GET_items (if Str.is_empty query then None else Some query)).

(** An entry the form may send. *)
Definition entry_ok (entry : Screen.Entry) : Prop :=
  text_ok (Screen.e_name entry) /\
  Shape.finite_nonneg (Screen.e_stock entry) = true.

(** A filled-in item form, on a screen where no item is being edited. *)
Definition mint_form : Screen.Form :=
  {| Screen.f_name := " Mint "; Screen.f_brand := "VapeX";
     Screen.f_category := "Coils"; Screen.f_stock := "4";
     Screen.f_rawPrice := "10"; Screen.f_sellingPrice := "15";
     Screen.f_minStockAlert := "10" |}.

Definition mint_screen : Screen.State :=
  {| Screen.core := Sample.sale_state "1"; Screen.form := mint_form;
     Screen.editingId := None; Screen.isAddModalOpen := true;
     Screen.isEditModalOpen := false; Screen.isStockModalOpen := false;
     Screen.stockForm := {| App.itemId := EmptyString;
                            App.quantity := EmptyString |};
     Screen.variantEntries := [Screen.blank_entry] |}.

(** The two servers of the repository. *)
Definition served
    (backend : list Api.Item -> Api.request -> list Api.Item * Api.reply)
  : Prop :=
  backend = Server.handle \/ backend = ServerStrict.handle.

(** The body the stock form and the sale form send for an item of the
    list: the properties of the item as the client has read them, with
    another stock. *)
Definition stock_body (item : App.Item) (x : JS.number) : Api.Body :=
  {| Api.b_name := Api.Given (App.name item);
     Api.b_brand := Api.Given (App.brand item);
     Api.b_category := Api.Given (App.category item);
     Api.b_stock := App.json_scalar x;
     Api.b_rawPrice := App.json_scalar (App.rawPriceOf item);
     Api.b_sellingPrice := App.json_scalar (App.sellingPriceOf item);
     Api.b_price := Api.Absent;
     Api.b_minStockAlert := App.json_scalar (App.minStockAlertOf item) |}.

(** A stored item after the client has sent it back with another stock:
    the numbers are the ones the client has read, in which a negative zero
    has become zero. *)
Definition restocked (it : Api.Item) (x : JS.number) : Api.Item :=
  {| Api.id := Api.id it; Api.name := Api.name it; Api.brand := Api.brand it;
     Api.category := Api.category it; Api.stock := unsigned_zero x;
     Api.rawPrice := unsigned_zero (Api.rawPrice it);
     Api.sellingPrice := unsigned_zero (Api.sellingPrice it);
     Api.minStockAlert := unsigned_zero (Api.minStockAlert it) |}.

(** The item of the list that the client has read from a stored item. *)
Definition shown (it : Api.Item) : App.Item :=
  App.of_response (Api.buildItemResponse it).

(* ===================================================================== *)
(** * Further notions used in the statements                               *)
(* ===================================================================== *)

(** A create that supplies the raw price and the alias [price], but no
    [sellingPrice]. *)
Definition raw_and_alias : Api.Body :=
  {| Api.b_name := Api.Given "Test"; Api.b_brand := Api.Given "B";
     Api.b_category := Api.Given "C";
     Api.b_stock := Sample.num 5; Api.b_rawPrice := Sample.num 10;
     Api.b_sellingPrice := Api.Absent; Api.b_price := Sample.num 15;
     Api.b_minStockAlert := Api.Absent |}.






(** The states a server reaches from [start] by [n] requests. *)
Inductive reached
    (handle : list Api.Item -> Api.request -> list Api.Item * Api.reply)
    (start : list Api.Item) : nat -> list Api.Item -> Prop :=
  | reached_start : reached handle start O start
  | reached_next : forall n inventory r,
      reached handle start n inventory ->
      reached handle start (S n) (fst (handle inventory r)).

(* ===================================================================== *)
(** * The runtime model on concrete inputs                                 *)
(* ===================================================================== *)

Module RuntimeChecks.

Import JS Str.

(** The decimal literals of the client are the binary64 values nearest to
    them. *)
Example literals_of_the_client :
  StringToNumber "0.28" = App.c0_28 /\ StringToNumber "0.72" = App.c0_72 /\
  StringToNumber "0.1" = App.c0_1 /\ StringToNumber "0.56" = App.c0_56 /\
  StringToNumber "0.05" = App.c0_05 /\ StringToNumber "0.02" = App.c0_02.
Proof. repeat split. Qed.

Example numeric_strings :
  StringToNumber "abc" = NaN /\ StringToNumber " 12 " = of_Z 12 /\
  StringToNumber "0x1F" = of_Z 31 /\ StringToNumber "1e3" = of_Z 1000 /\
  StringToNumber "1e999" = Infinity /\ StringToNumber "-0" = neg_zero /\
  StringToNumber "12px" = NaN /\ StringToNumber "-Infinity" = neg_Infinity.
Proof. repeat split. Qed.

Example empty_string_is_zero : StringToNumber EmptyString = pos_zero.
Proof. reflexivity. Qed.

Example binary64_addition :
  add (StringToNumber "0.1") (StringToNumber "0.2")
  = StringToNumber "0.30000000000000004" /\
  sub (StringToNumber "0.3") (StringToNumber "0.1")
  = StringToNumber "0.19999999999999998".
Proof. split; reflexivity. Qed.

Example rounding_to_integers :
  Math_round (StringToNumber "2.5") = of_Z 3 /\
  Math_round (StringToNumber "-2.5") = of_Z (-2) /\
  Math_round (StringToNumber "-0.2") = neg_zero /\
  Math_round (StringToNumber "0.49999999999999994") = pos_zero /\
  Math_round (mul (of_Z 24) App.c0_28) = of_Z 7.
Proof. repeat split. Qed.

Example maximum :
  Math_max [pos_zero; of_Z (-3)] = pos_zero /\
  Math_max [neg_zero; pos_zero] = pos_zero /\
  Math_max [of_Z 1; NaN] = NaN /\
  Math_max [] = neg_Infinity.
Proof. repeat split. Qed.

Example comparisons :
  lt (of_Z 1) (of_Z 2) = true /\ lt (of_Z 2) (of_Z 1) = false /\
  lt NaN (of_Z 1) = false /\ le NaN NaN = false /\
  strict_eq pos_zero neg_zero = true /\ strict_eq NaN NaN = false /\
  lt (of_Z (-1)) (StringToNumber "0.001") = true.
Proof. repeat split. Qed.

Example text_functions :
  trim "  Mint Freeze " = "Mint Freeze" /\
  toLowerCase "VapeX Co." = "vapex co." /\
  includes "cloudy co." "dy" = true /\
  includes "cloudy co." "dx" = false.
Proof. repeat split. Qed.

End RuntimeChecks.

(* ===================================================================== *)
(** * Facts about numbers                                                  *)
(* ===================================================================== *)

Local Close Scope string_scope.

Module NumFacts.
Import JS.

Lemma compare_finite_antisym s1 m1 e1 s2 m2 e2 :
  compare_finite s2 m2 e2 s1 m1 e1 = CompOpp (compare_finite s1 m1 e1 s2 m2 e2).
Proof.
  unfold compare_finite. rewrite (Z.min_comm e2 e1). apply Z.compare_antisym.
Qed.

Lemma compare_antisym x y :
  compare y x = option_map CompOpp (compare x y).
Proof.
  destruct x as [sx|sx| |sx mx ex], y as [sy|sy| |sy my ey]; simpl;
    try reflexivity;
    try (destruct sx; reflexivity); try (destruct sy; reflexivity);
    try (destruct sx, sy; reflexivity).
  now rewrite compare_finite_antisym.
Qed.

Lemma compare_defined x y :
  isNaN x = false -> isNaN y = false -> exists c, compare x y = Some c.
Proof.
  destruct x, y; simpl; intros; try discriminate; eauto.
Qed.

Lemma isFinite_not_NaN x : isFinite x = true -> isNaN x = false.
Proof. destruct x; simpl; congruence. Qed.

(** On numbers other than NaN, [x < y] fails exactly when [y <= x]. *)
Lemma lt_false_le x y :
  isNaN x = false -> isNaN y = false -> lt x y = false -> le y x = true.
Proof.
  intros Hx Hy. unfold lt, le. rewrite (compare_antisym x y).
  destruct (compare_defined x y Hx Hy) as [c ->]. destruct c; simpl; congruence.
Qed.

Lemma aligned_neg m e ez : ez <= e -> aligned true m e ez < 0.
Proof.
  intros H. unfold aligned, signed.
  assert (0 < 2 ^ (e - ez)) by (apply Z.pow_pos_nonneg; lia). nia.
Qed.

Lemma aligned_pos m e ez : ez <= e -> 0 < aligned false m e ez.
Proof.
  intros H. unfold aligned, signed.
  assert (0 < 2 ^ (e - ez)) by (apply Z.pow_pos_nonneg; lia). nia.
Qed.

(** A negative number is below every number that is not negative. *)
Lemma lt_zero_trans x y :
  lt x pos_zero = true -> isFinite y = true -> lt y pos_zero = false ->
  lt x y = true.
Proof.
  unfold lt.
  destruct x as [sx|sx| |sx mx ex], y as [sy|sy| |sy my ey]; simpl;
    try discriminate; try (destruct sx; simpl; congruence);
    try (destruct sx, sy; simpl; congruence).
  destruct sx, sy; simpl; try discriminate. intros _ _ _.
  unfold compare_finite.
  pose proof (aligned_neg mx ex (Z.min ex ey) (Z.le_min_l _ _)) as H1.
  pose proof (aligned_pos my ey (Z.min ex ey) (Z.le_min_r _ _)) as H2.
  destruct (Z.compare_spec (aligned true mx ex (Z.min ex ey))
                           (aligned false my ey (Z.min ex ey))); auto; lia.
Qed.

Lemma strict_eq_NaN x : strict_eq x NaN = false.
Proof. destruct x; reflexivity. Qed.

End NumFacts.

Module RoundFacts.
Import JS Shape NumFacts.

Lemma fexp_ge_emin k : emin <= fexp prec emax k.
Proof. unfold fexp, emin. lia. Qed.

Lemma digits2_bounds p :
  2 ^ (Zpos (digits2_pos p) - 1) <= Zpos p < 2 ^ Zpos (digits2_pos p).
Proof.
  induction p as [p IH|p IH|]; simpl digits2_pos.
  - rewrite Pos2Z.inj_succ.
    replace (Z.succ (Zpos (digits2_pos p)) - 1) with (Zpos (digits2_pos p))
      by lia.
    rewrite Z.pow_succ_r by lia.
    assert (2 ^ Zpos (digits2_pos p)
            = 2 * 2 ^ (Zpos (digits2_pos p) - 1)).
    { rewrite <- Z.pow_succ_r by lia. f_equal. lia. }
    lia.
  - rewrite Pos2Z.inj_succ.
    replace (Z.succ (Zpos (digits2_pos p)) - 1) with (Zpos (digits2_pos p))
      by lia.
    rewrite Z.pow_succ_r by lia.
    assert (2 ^ Zpos (digits2_pos p)
            = 2 * 2 ^ (Zpos (digits2_pos p) - 1)).
    { rewrite <- Z.pow_succ_r by lia. f_equal. lia. }
    lia.
  - simpl. lia.
Qed.

Lemma shr_1_m mrs :
  0 <= shr_m mrs -> shr_m (shr_1 mrs) = shr_m mrs / 2.
Proof.
  destruct mrs as [m r s]. simpl. intros H.
  destruct m as [|p|p]; [reflexivity| |lia].
  destruct p as [p|p|]; simpl.
  - rewrite Pos2Z.inj_xI. apply Z.div_unique with 1; lia.
  - rewrite Pos2Z.inj_xO. apply Z.div_unique with 0; lia.
  - reflexivity.
Qed.

Lemma iter_shr_m n mrs :
  0 <= shr_m mrs ->
  shr_m (iter_pos shr_1 n mrs) = shr_m mrs / 2 ^ Zpos n.
Proof.
  revert mrs. induction n as [n IH|n IH|]; intros mrs H; simpl iter_pos.
  - assert (H1 : 0 <= shr_m (shr_1 mrs))
      by (rewrite shr_1_m by assumption; apply Z.div_pos; lia).
    assert (H2 : 0 <= shr_m (iter_pos shr_1 n (shr_1 mrs)))
      by (rewrite IH by assumption; apply Z.div_pos; lia).
    rewrite IH, IH, shr_1_m by assumption.
    rewrite !Z.div_div by lia. f_equal.
    replace (Zpos n~1) with (Zpos n + Zpos n + 1) by lia.
    rewrite !Z.pow_add_r by lia. change (2 ^ 1) with 2. ring.
  - assert (H2 : 0 <= shr_m (iter_pos shr_1 n mrs))
      by (rewrite IH by assumption; apply Z.div_pos; lia).
    rewrite IH, IH by assumption.
    rewrite !Z.div_div by lia. f_equal.
    replace (Zpos n~0) with (Zpos n + Zpos n) by lia.
    rewrite !Z.pow_add_r by lia. ring.
  - rewrite shr_1_m by assumption. reflexivity.
Qed.

Lemma shr_record_of_loc_m m l : shr_m (shr_record_of_loc m l) = m.
Proof. destruct l as [|[]]; reflexivity. Qed.

(** Shifting a positive mantissa to its place keeps it positive, as long as
    the exponent is not below [emin]. *)
Lemma shr_fexp_pos m e l :
  0 < m -> emin <= e ->
  0 < shr_m (fst (shr_fexp prec emax m e l)) /\
  emin <= snd (shr_fexp prec emax m e l).
Proof.
  intros Hm He. unfold shr_fexp, shr.
  destruct m as [|p|p]; try lia. simpl Zdigits2.
  pose proof (digits2_bounds p) as Hd.
  set (d := Zpos (digits2_pos p)) in *.
  destruct (fexp prec emax (d + e) - e) as [|n|n] eqn:Hn; simpl fst; simpl snd.
  - rewrite shr_record_of_loc_m. lia.
  - rewrite iter_shr_m by (rewrite shr_record_of_loc_m; lia).
    rewrite shr_record_of_loc_m.
    assert (Hf : Zpos n = d - prec).
    { unfold fexp in Hn. fold emin in Hn. lia. }
    split.
    + apply Z.lt_le_trans with (2 ^ (prec - 1)); [reflexivity|].
      apply Z.div_le_lower_bound; [apply Z.pow_pos_nonneg; lia|].
      rewrite <- Z.pow_add_r by (unfold prec; lia).
      replace (Zpos n + (prec - 1)) with (d - 1) by lia. lia.
    + rewrite <- Hn. pose proof (fexp_ge_emin (d + e)). lia.
  - rewrite shr_record_of_loc_m. lia.
Qed.

Lemma round_nearest_even_pos m l : 0 < m -> 0 < round_nearest_even m l.
Proof.
  intros H. destruct l as [|[]]; simpl; try lia.
  destruct (Z.even m); lia.
Qed.

Lemma binary_round_aux_pos s m e l :
  0 < m -> emin <= e -> rounded s (binary_round_aux prec emax s m e l).
Proof.
  intros Hm He. unfold binary_round_aux.
  pose proof (shr_fexp_pos m e l Hm He) as [H1 H1e].
  destruct (shr_fexp prec emax m e l) as [mrs' e']. simpl in H1, H1e.
  pose proof (round_nearest_even_pos _ (loc_of_shr_record mrs') H1) as H2.
  pose proof (shr_fexp_pos _ e' loc_Exact H2 H1e) as [H3 H3e].
  destruct (shr_fexp prec emax _ e' loc_Exact) as [mrs'' e''].
  simpl in H3, H3e.
  destruct (shr_m mrs'') as [|p|p]; try lia.
  destruct (e'' <=? emax - prec); [left; eauto|right; reflexivity].
Qed.

Lemma shl_align_value m e e' :
  Zpos (fst (shl_align m e e')) = Zpos m * 2 ^ (e - snd (shl_align m e e')) /\
  snd (shl_align m e e') = Z.min e e'.
Proof.
  unfold shl_align. destruct (e' - e) as [|d|d] eqn:Hd; simpl fst; simpl snd.
  - rewrite Z.sub_diag. simpl. lia.
  - rewrite Z.sub_diag. simpl. lia.
  - replace (e - e') with (Zpos d) by lia. split; [|lia].
    clear Hd. induction d using Pos.peano_ind.
    + simpl. lia.
    + rewrite Pos.iter_succ, Pos2Z.inj_xO, IHd, Pos2Z.inj_succ.
      rewrite Z.pow_succ_r by lia. ring.
Qed.

Lemma binary_round_pos s m e :
  emin <= e -> rounded s (binary_round prec emax s m e).
Proof.
  intros He. unfold binary_round.
  pose proof (shl_align_value m e
                (fexp prec emax (Zpos (digits2_pos m) + e))) as [_ Hs].
  destruct (shl_align m e _) as [mz ez]. cbn [snd] in Hs.
  apply binary_round_aux_pos; [lia|].
  pose proof (fexp_ge_emin (Zpos (digits2_pos m) + e)). lia.
Qed.

End RoundFacts.

Module OrderFacts.
Import JS Shape NumFacts RoundFacts.

Lemma rounded_regular s x : rounded s x -> regular x.
Proof. intros [(m & e & E & H)|E]; subst; simpl; auto. Qed.


Lemma binary_normalize_regular n e :
  emin <= e -> regular (binary_normalize prec emax n e false).
Proof.
  intros He. destruct n as [|p|p]; simpl binary_normalize.
  - exact I.
  - eapply rounded_regular. now apply binary_round_pos.
  - eapply rounded_regular. now apply binary_round_pos.
Qed.


(** A value that satisfies [valid_binary] has such an exponent. *)
Lemma valid_summand x :
  valid_binary prec emax x = true -> isFinite x = true -> summand x.
Proof.
  destruct x as [s|s| |s m e]; simpl; try discriminate; auto.
  unfold bounded, canonical_mantissa. intros H _.
  apply andb_true_iff in H. destruct H as [H _].
  apply Z.eqb_eq in H. rewrite <- H. apply fexp_ge_emin.
Qed.

(** Rescaling both sides of a comparison to a smaller exponent. *)
Lemma aligned_rescale s m e ez ez' :
  ez' <= ez -> ez <= e ->
  aligned s m e ez' = aligned s m e ez * 2 ^ (ez - ez').
Proof.
  intros H1 H2. unfold aligned.
  rewrite <- Z.mul_assoc, <- Z.pow_add_r by lia. do 2 f_equal. lia.
Qed.

Lemma compare_finite_at ez s1 m1 e1 s2 m2 e2 :
  ez <= e1 -> ez <= e2 ->
  compare_finite s1 m1 e1 s2 m2 e2
  = Z.compare (aligned s1 m1 e1 ez) (aligned s2 m2 e2 ez).
Proof.
  intros H1 H2. unfold compare_finite.
  rewrite (aligned_rescale s1 m1 e1 (Z.min e1 e2) ez) by lia.
  rewrite (aligned_rescale s2 m2 e2 (Z.min e1 e2) ez) by lia.
  assert (P : 0 < 2 ^ (Z.min e1 e2 - ez)) by (apply Z.pow_pos_nonneg; lia).
  set (k := 2 ^ (Z.min e1 e2 - ez)) in *.
  destruct (Z.compare_spec (aligned s1 m1 e1 (Z.min e1 e2))
                           (aligned s2 m2 e2 (Z.min e1 e2)));
    destruct (Z.compare_spec (aligned s1 m1 e1 (Z.min e1 e2) * k)
                             (aligned s2 m2 e2 (Z.min e1 e2) * k));
    try reflexivity; nia.
Qed.

Lemma le_finite_trans s1 m1 e1 s2 m2 e2 s3 m3 e3 :
  compare_finite s1 m1 e1 s2 m2 e2 <> Gt ->
  compare_finite s2 m2 e2 s3 m3 e3 <> Gt ->
  compare_finite s1 m1 e1 s3 m3 e3 <> Gt.
Proof.
  set (ez := Z.min e1 (Z.min e2 e3)).
  rewrite (compare_finite_at ez s1 m1 e1 s2 m2 e2) by lia.
  rewrite (compare_finite_at ez s2 m2 e2 s3 m3 e3) by lia.
  rewrite (compare_finite_at ez s1 m1 e1 s3 m3 e3) by lia.
  rewrite !Z.compare_gt_iff. lia.
Qed.

Lemma num_le_spec x y :
  le x y = true <-> exists c, compare x y = Some c /\ c <> Gt.
Proof.
  unfold le. destruct (compare x y) as [[]|]; split;
    try discriminate; try reflexivity;
    try (intros _; eexists; split; [reflexivity|discriminate]);
    intros (c & H & Hc); inversion H; congruence.
Qed.

Lemma compare_finite_signs m1 e1 m2 e2 :
  compare_finite true m1 e1 false m2 e2 = Lt.
Proof.
  unfold compare_finite.
  pose proof (aligned_neg m1 e1 (Z.min e1 e2) (Z.le_min_l _ _)).
  pose proof (aligned_pos m2 e2 (Z.min e1 e2) (Z.le_min_r _ _)).
  apply Z.compare_lt_iff. lia.
Qed.

Lemma compare_finite_signs' m1 e1 m2 e2 :
  compare_finite false m1 e1 true m2 e2 = Gt.
Proof.
  now rewrite (compare_finite_antisym true m2 e2 false m1 e1),
    compare_finite_signs.
Qed.

(** [<=] is transitive on regular numbers. *)
Lemma num_le_trans x y z :
  regular x -> regular y -> regular z ->
  le x y = true -> le y z = true -> le x z = true.
Proof.
  intros Hx Hy Hz.
  destruct x as [[]|[]| |sx mx ex], y as [[]|[]| |sy my ey],
           z as [[]|[]| |sz mz ez]; simpl in Hx, Hy, Hz; try contradiction;
    try reflexivity; try discriminate;
    unfold le; cbn [compare]; intros H1 H2.
  all: try match goal with
           | H1 : context [compare_finite ?a ?b ?c ?d ?e ?f],
             H2 : context [compare_finite ?d ?e ?f ?g ?h ?i]
             |- context [compare_finite ?a ?b ?c ?g ?h ?i] =>
               pose proof (le_finite_trans a b c d e f g h i) as T;
               destruct (compare_finite a b c d e f),
                        (compare_finite d e f g h i),
                        (compare_finite a b c g h i);
               try discriminate; try reflexivity;
               exfalso; apply T; congruence
           end.
  all: repeat match goal with s : bool |- _ => destruct s end;
    rewrite ?compare_finite_signs, ?compare_finite_signs' in *;
    try reflexivity; try discriminate.
Qed.

Lemma num_lt_le x y : lt x y = true -> le x y = true.
Proof. unfold lt, le. destruct (compare x y) as [[]|]; congruence. Qed.

(** The sign of a difference tells which operand is larger. *)
Lemma sub_positive a b :
  regular a -> regular b -> gt (sub b a) pos_zero = lt a b.
Proof.
  intros Ha Hb.
  destruct a as [[]|[]| |sa ma ea], b as [[]|[]| |sb mb eb];
    simpl in Ha, Hb; try contradiction; try reflexivity;
    try (destruct sa; reflexivity); try (destruct sb; reflexivity).
  unfold sub, SFsub, gt, lt.
  cbv beta iota zeta delta [compare].
  destruct (shl_align_value mb eb (Z.min eb ea)) as [Vb Sb].
  destruct (shl_align_value ma ea (Z.min eb ea)) as [Va Sa].
  replace (cond_Zopp sb (Zpos (fst (shl_align mb eb (Z.min eb ea)))))
    with (aligned sb mb eb (Z.min ea eb)).
  2:{ unfold aligned, signed, cond_Zopp. rewrite Vb, Sb.
      replace (Z.min eb (Z.min eb ea)) with (Z.min ea eb) by lia.
      destruct sb; [|reflexivity]. now rewrite <- Z.mul_opp_l. }
  replace (cond_Zopp sa (Zpos (fst (shl_align ma ea (Z.min eb ea)))))
    with (aligned sa ma ea (Z.min ea eb)).
  2:{ unfold aligned, signed, cond_Zopp. rewrite Va, Sa.
      replace (Z.min ea (Z.min eb ea)) with (Z.min ea eb) by lia.
      destruct sa; [|reflexivity]. now rewrite <- Z.mul_opp_l. }
  replace (Z.min eb ea) with (Z.min ea eb) by lia.
  unfold compare_finite.
  set (A := aligned sa ma ea (Z.min ea eb)).
  set (B := aligned sb mb eb (Z.min ea eb)).
  assert (He : emin <= Z.min ea eb) by lia.
  destruct (B - A) as [|p|p] eqn:HD; unfold binary_normalize.
  - replace (A ?= B) with Eq by (symmetry; apply Z.compare_eq_iff; lia).
    reflexivity.
  - replace (A ?= B) with Lt by (symmetry; apply Z.compare_lt_iff; lia).
    destruct (binary_round_pos false p _ He) as [(m & e & E & _)|E];
      rewrite E; reflexivity.
  - replace (A ?= B) with Gt by (symmetry; apply Z.compare_gt_iff; lia).
    destruct (binary_round_pos true p _ He) as [(m & e & E & _)|E];
      rewrite E; reflexivity.
Qed.

(** ** Signs *)

Lemma binary_round_aux_sign m e l :
  not_negative (binary_round_aux prec emax false m e l) = true.
Proof.
  unfold binary_round_aux.
  destruct (shr_fexp prec emax m e l) as [mrs' e'].
  destruct (shr_fexp prec emax _ e' loc_Exact) as [mrs'' e''].
  destruct (shr_m mrs''); try reflexivity.
  destruct (e'' <=? emax - prec); reflexivity.
Qed.

Lemma mul_not_negative x y :
  not_negative x = true -> not_negative y = true ->
  not_negative (mul x y) = true.
Proof.
  destruct x as [[]|[]| |[] mx ex], y as [[]|[]| |[] my ey]; simpl;
    try discriminate; try reflexivity.
  intros _ _. apply binary_round_aux_sign.
Qed.

Lemma of_Z_not_negative n : 0 <= n -> not_negative (of_Z n) = true.
Proof.
  intros H. unfold of_Z, binary_normalize.
  destruct n as [|p|p]; [reflexivity| |lia].
  unfold binary_round. destruct (shl_align p 0 _) as [mz ez].
  apply binary_round_aux_sign.
Qed.

Lemma Math_round_not_negative x :
  not_negative x = true -> not_negative (Math_round x) = true.
Proof.
  destruct x as [s|s| |s m e]; try (simpl; auto; fail).
  destruct s; [discriminate|]. intros _. unfold Math_round.
  destruct (0 <=? e) eqn:He; [reflexivity|].
  apply Z.leb_gt in He.
  match goal with |- context [?n =? 0] => destruct (n =? 0) eqn:Hn end;
    [reflexivity|].
  apply of_Z_not_negative. apply Z.div_pos.
  - assert (0 < 2 ^ (- e)) by (apply Z.pow_pos_nonneg; lia).
    change (signed false m) with (Zpos m). lia.
  - apply Z.pow_pos_nonneg; lia.
Qed.

Lemma Math_max_zero x :
  not_negative x = true -> Math_max [pos_zero; x] = x.
Proof.
  destruct x as [[]|[]| |[] m e]; simpl; try discriminate; reflexivity.
Qed.

(** ** Agreement with the comparison of [SpecFloat] *)

Lemma canonical_digits m e :
  bounded prec emax m e = true ->
  emin <= e /\ Zpos (digits2_pos m) <= prec /\
  (emin < e -> Zpos (digits2_pos m) = prec).
Proof.
  unfold bounded, canonical_mantissa. intros H.
  apply andb_true_iff in H. destruct H as [H _]. apply Z.eqb_eq in H.
  unfold fexp in H. fold emin in H. lia.
Qed.

(** Of two canonical mantissas, the one with the larger exponent stands for
    the larger value. *)
Lemma canonical_lt m1 e1 m2 e2 :
  bounded prec emax m1 e1 = true -> bounded prec emax m2 e2 = true ->
  e1 < e2 ->
  Zpos m1 * 2 ^ (e1 - Z.min e1 e2) < Zpos m2 * 2 ^ (e2 - Z.min e1 e2).
Proof.
  intros H1 H2 He.
  destruct (canonical_digits m1 e1 H1) as (Hm1 & Hd1 & _).
  destruct (canonical_digits m2 e2 H2) as (_ & _ & Hd2).
  specialize (Hd2 ltac:(lia)).
  pose proof (digits2_bounds m1) as [_ B1].
  pose proof (digits2_bounds m2) as [B2 _]. rewrite Hd2 in B2.
  replace (Z.min e1 e2) with e1 by lia. rewrite Z.sub_diag, Z.mul_1_r.
  assert (P1 : 2 ^ Zpos (digits2_pos m1) <= 2 ^ prec)
    by (apply Z.pow_le_mono_r; lia).
  assert (P2 : 2 ^ 1 <= 2 ^ (e2 - e1)) by (apply Z.pow_le_mono_r; lia).
  change (2 ^ 1) with 2 in P2.
  assert (P3 : 2 ^ prec = 2 ^ (prec - 1) * 2) by reflexivity.
  nia.
Qed.

(** On binary64 values the comparison by value is the comparison of
    [SpecFloat]. *)
Lemma compare_SFcompare x y :
  valid_binary prec emax x = true -> valid_binary prec emax y = true ->
  compare x y = SFcompare x y.
Proof.
  destruct x as [sx|sx| |sx mx ex], y as [sy|sy| |sy my ey];
    try reflexivity.
  simpl valid_binary. intros Hx Hy. unfold compare, SFcompare. f_equal.
  destruct sx, sy.
  - unfold compare_finite, aligned, signed.
    destruct (Z.compare_spec ex ey) as [E|L|G].
    + subst ey. rewrite Z.min_id, Z.sub_diag. simpl.
      rewrite Pos.compare_cont_spec. simpl.
      rewrite !Pos.mul_1_r. destruct (mx ?= my)%positive; reflexivity.
    + pose proof (canonical_lt mx ex my ey Hx Hy L).
      apply Z.compare_gt_iff. lia.
    + pose proof (canonical_lt my ey mx ex Hy Hx ltac:(lia)) as K.
      rewrite (Z.min_comm ey ex) in K.
      apply Z.compare_lt_iff. lia.
  - apply compare_finite_signs.
  - apply compare_finite_signs'.
  - unfold compare_finite, aligned, signed.
    destruct (Z.compare_spec ex ey) as [E|L|G].
    + subst ey. rewrite Z.min_id, Z.sub_diag. simpl.
      rewrite Pos.compare_cont_spec.
      rewrite !Pos.mul_1_r. destruct (mx ?= my)%positive; reflexivity.
    + pose proof (canonical_lt mx ex my ey Hx Hy L).
      apply Z.compare_lt_iff. lia.
    + pose proof (canonical_lt my ey mx ex Hy Hx ltac:(lia)) as K.
      rewrite (Z.min_comm ey ex) in K.
      apply Z.compare_gt_iff. lia.
Qed.

End OrderFacts.


(* ===================================================================== *)
(** * Facts about strings                                                  *)
(* ===================================================================== *)

Local Open Scope string_scope.


Module StrFacts.
Import Str Api.







Lemma lower_char_idem c : lower_char (lower_char c) = lower_char c.
Proof.
  destruct c as [[] [] [] [] [] [] [] []]; reflexivity.
Qed.

Lemma toLowerCase_idem s : toLowerCase (toLowerCase s) = toLowerCase s.
Proof.
  induction s as [|c s IH]; simpl; [reflexivity|].
  now rewrite lower_char_idem, IH.
Qed.

Lemma toLowerCase_empty s : is_empty (toLowerCase s) = is_empty s.
Proof. destruct s; reflexivity. Qed.

Lemma includes_empty s : includes s EmptyString = true.
Proof. destruct s; reflexivity. Qed.



End StrFacts.


(* ===================================================================== *)
(** * Facts about the item store                                           *)
(* ===================================================================== *)


Module StoreFacts.
Import JS Api NumFacts.

Lemma findIndex_Some {A} (p : A -> bool) l k :
  findIndex p l = Some k ->
  exists x, nth_error l k = Some x /\ p x = true.
Proof.
  revert k. induction l as [|y r IH]; simpl; intros k H; [discriminate|].
  destruct (p y) eqn:Hy.
  - inversion H; subst. exists y. auto.
  - destruct (findIndex p r) as [j|]; [|discriminate].
    inversion H; subst. simpl. apply IH. reflexivity.
Qed.

Lemma findIndex_None {A} (p : A -> bool) l :
  findIndex p l = None <-> (forall x, In x l -> p x = false).
Proof.
  induction l as [|y r IH]; simpl.
  - split; [intros _ x []|reflexivity].
  - destruct (p y) eqn:Hy.
    + split; [discriminate|]. intros H. rewrite (H y) in Hy; auto. discriminate.
    + destruct (findIndex p r) as [j|].
      * split; [discriminate|]. intros H.
        destruct IH as [_ IH]. discriminate IH. intros x Hx. apply H. auto.
      * split; [|reflexivity]. intros _ x [<-|Hx]; [assumption|].
        apply IH; auto.
Qed.

Lemma assign_nth_eq {A} (l : list A) k v x :
  nth_error l k = Some x -> nth_error (assign l k v) k = Some v.
Proof.
  revert k. induction l as [|y r IH]; intros [|k]; simpl; try discriminate; auto.
Qed.

Lemma assign_nth_neq {A} (l : list A) k j v :
  j <> k -> nth_error (assign l k v) j = nth_error l j.
Proof.
  revert k j. induction l as [|y r IH]; intros [|k] [|j] H; simpl; auto;
    try congruence.
Qed.

Lemma assign_length {A} (l : list A) k v :
  List.length (assign l k v) = List.length l.
Proof.
  revert k. induction l as [|y r IH]; intros [|k]; simpl; auto.
Qed.

Lemma assign_Forall {A} (P : A -> Prop) l k v :
  Forall P l -> P v -> Forall P (assign l k v).
Proof.
  intros Hl Hv. revert k. induction Hl; intros [|k]; simpl; constructor; auto.
Qed.

Lemma filter_all {A} (p : A -> bool) l :
  (forall x, In x l -> p x = true) -> filter p l = l.
Proof.
  induction l as [|y r IH]; simpl; intros H; [reflexivity|].
  rewrite (H y) by auto. f_equal. apply IH. auto.
Qed.

Lemma filter_Forall {A} (P : A -> Prop) (p : A -> bool) l :
  Forall P l -> Forall P (filter p l).
Proof.
  induction 1; simpl; [constructor|]. destruct (p x); auto.
Qed.

(** [nextId] is above every identifier in use. *)
Lemma max_id_ge first others :
  first <= max_id first others /\
  Forall (fun i => i <= max_id first others) others.
Proof.
  unfold max_id. revert first. induction others as [|o r IH]; simpl; intros.
  - split; [lia|constructor].
  - destruct (IH (Z.max first o)) as [H1 H2]. split; [lia|].
    constructor; [lia|assumption].
Qed.

Lemma max_id_in first others :
  In (max_id first others) (first :: others).
Proof.
  unfold max_id. revert first. induction others as [|o r IH]; simpl; intros.
  - auto.
  - destruct (IH (Z.max first o)) as [H|H].
    + destruct (Z.max_spec first o) as [[_ E]|[_ E]]; rewrite E in *.
      * right. left. exact H.
      * left. exact H.
    + right. right. exact H.
Qed.

Lemma nextId_above inventory :
  Forall (fun it => id it < nextId inventory) inventory.
Proof.
  unfold nextId. destruct inventory as [|it r]; simpl; [constructor|].
  destruct (max_id_ge (id it) (map id r)) as [H1 H2].
  constructor; [lia|]. rewrite Forall_map in H2.
  eapply Forall_impl; [|exact H2]. simpl. intros; lia.
Qed.


Lemma delete_unknown inventory n :
  (forall it, In it inventory -> id_is n it = false) ->
  filter (fun it => negb (id_is n it)) inventory = inventory.
Proof.
  intros H. apply filter_all. intros it Hin. now rewrite (H it Hin).
Qed.

Lemma id_is_NaN n it : isNaN n = true -> id_is n it = false.
Proof.
  destruct n; try discriminate. intros _. apply strict_eq_NaN.
Qed.

Lemma nextId_one_above inventory : one_above_ids inventory (nextId inventory).
Proof.
  unfold one_above_ids, nextId. destruct inventory as [|it r]; [reflexivity|].
  simpl map.
  destruct (max_id_in (id it) (map id r)) as [H|H].
  - exists it. split; [left; reflexivity|]. split; [now rewrite <- H|].
    destruct (max_id_ge (id it) (map id r)) as [H1 H2].
    rewrite H. constructor; [lia|]. now rewrite Forall_map in H2.
  - apply in_map_iff in H. destruct H as (x & Hx & Hin).
    exists x. split; [right; exact Hin|]. split; [now rewrite Hx|].
    destruct (max_id_ge (id it) (map id r)) as [H1 H2].
    rewrite Hx. constructor; [lia|]. now rewrite Forall_map in H2.
Qed.

Lemma assign_replaced_at inventory index current updated :
  nth_error inventory index = Some current ->
  replaced_at inventory (assign inventory index updated) index updated.
Proof.
  intros H. repeat split.
  - apply assign_length.
  - eapply assign_nth_eq; eassumption.
  - intros j Hj. now apply assign_nth_neq.
Qed.

End StoreFacts.


Ltac bools :=
  repeat match goal with
         | H : _ || _ = false |- _ =>
             apply orb_false_iff in H; destruct H
         | H : _ && _ = true |- _ =>
             apply andb_true_iff in H; destruct H
         | H : negb _ = false |- _ => apply negb_false_iff in H
         | H : negb _ = true |- _ => apply negb_true_iff in H
         end.



Module ServerFacts.
Import JS Shape Api NumFacts StoreFacts Server.

(** What an accepted body went through. *)
Lemma server_validate_Valid body cur isCreate v :
  validateAndNormalizeItem body cur isCreate = Valid v ->
  falsy_text (name_of body cur) = false /\
  falsy_text (brand_of body cur) = false /\
  falsy_text (category_of body cur) = false /\
  isFinite (stock_of body cur) = true /\
  isFinite (rawPrice_of body cur) = true /\
  isFinite (sellingPrice_of body cur) = true /\
  lt (stock_of body cur) pos_zero = false /\
  lt (rawPrice_of body cur) pos_zero = false /\
  lt (sellingPrice_of body cur) (rawPrice_of body cur) = false /\
  isCreate && (is_undefined (b_rawPrice body)
               || is_undefined (b_sellingPrice body)) = false /\
  v = {| n_id := option_map id cur;
         n_name := text (name_of body cur);
         n_brand := text (brand_of body cur);
         n_category := text (category_of body cur);
         n_stock := stock_of body cur;
         n_rawPrice := rawPrice_of body cur;
         n_sellingPrice := sellingPrice_of body cur;
         n_minStockAlert := minStockAlert_of body cur |}.
Proof.
  unfold validateAndNormalizeItem.
  destruct (falsy_text (name_of body cur) || falsy_text (brand_of body cur)
            || falsy_text (category_of body cur)) eqn:Ht; [discriminate|].
  match goal with |- (if ?c then _ else _) = _ -> _ => destruct c eqn:Hn end;
    [discriminate|].
  match goal with |- (if ?c then _ else _) = _ -> _ => destruct c eqn:Hc end;
    [discriminate|].
  intros H; inversion H; subst; clear H. bools. repeat split; auto.
Qed.

Lemma server_valid_price_ok body cur isCreate v base :
  validateAndNormalizeItem body cur isCreate = Valid v ->
  price_ok (spread base v).
Proof.
  intros H. apply server_validate_Valid in H.
  destruct H as (_ & _ & _ & _ & Hr & Hs & _ & _ & Hlt & _ & ->).
  unfold price_ok, ge. simpl.
  apply lt_false_le; auto using isFinite_not_NaN.
Qed.


Lemma server_handle_price_ok inventory r :
  Forall price_ok inventory -> Forall price_ok (fst (handle inventory r)).
Proof.
  intros Hinv. destruct r as [q|body|p body|p]; simpl.
  - assumption.
  - unfold post_item.
    destruct (validateAndNormalizeItem body None true) as [e|v] eqn:Hv; simpl;
      [assumption|].
    apply Forall_app. split; [assumption|]. constructor; [|constructor].
    eapply server_valid_price_ok; eassumption.
  - unfold put_item.
    destruct (findIndex _ inventory) as [k|]; [|assumption].
    destruct (nth_error inventory k) as [cur|]; [|assumption].
    destruct (validateAndNormalizeItem body (Some cur) false) as [e|v] eqn:Hv;
      simpl; [assumption|].
    apply assign_Forall; [assumption|]. eapply server_valid_price_ok; eassumption.
  - unfold delete_item.
    match goal with |- context [if ?c then _ else _] => destruct c end;
      simpl; apply filter_Forall; assumption.
Qed.

Lemma server_inventory0_price_ok : Forall price_ok inventory0.
Proof. repeat constructor. Qed.

Lemma server_reachable_price_ok inventory :
  reachable inventory -> Forall price_ok inventory.
Proof.
  induction 1; [apply server_inventory0_price_ok|]. now apply server_handle_price_ok.
Qed.


Lemma server_missing_price body isCreate :
  price_missing body ->
  exists e, validateAndNormalizeItem body None isCreate = Invalid e.
Proof.
  intros Hm. unfold validateAndNormalizeItem.
  destruct (falsy_text _ || falsy_text _ || falsy_text _); [eauto|].
  assert (Hnan : isFinite (rawPrice_of body None) = false
                 \/ isFinite (sellingPrice_of body None) = false).
  { destruct Hm as [Hr|[Hs Hp]].
    - left. unfold rawPrice_of. rewrite Hr. reflexivity.
    - right. unfold sellingPrice_of. rewrite Hs, Hp. reflexivity. }
  match goal with |- context [if ?c then _ else _] => destruct c eqn:Hk end;
    [eauto|exfalso].
  bools. destruct Hnan; congruence.
Qed.

Lemma server_keeps body current v :
  validateAndNormalizeItem body (Some current) false = Valid v ->
  keeps_unsupplied body current (spread (id current) v).
Proof.
  intros Hv. apply server_validate_Valid in Hv.
  destruct Hv as (_ & _ & _ & _ & _ & _ & _ & _ & _ & _ & ->).
  unfold keeps_unsupplied, name_of, brand_of,
    category_of, stock_of, rawPrice_of,
    sellingPrice_of, minStockAlert_of. simpl.
  repeat split; try (intros -> ; reflexivity).
  intros -> ->. reflexivity.
Qed.

(** [inventory[index]] is always defined in [put_item]. *)
Lemma server_put_in_range inventory p body :
  snd (put_item inventory p body) <> Raise "index out of range".
Proof.
  unfold put_item.
  destruct (findIndex _ inventory) as [k|] eqn:Hk; [|discriminate].
  destruct (findIndex_Some _ _ _ Hk) as (x & Hx & _). rewrite Hx.
  destruct (validateAndNormalizeItem body (Some x) false); discriminate.
Qed.

End ServerFacts.


Module StrictFacts.
Import JS Shape Api NumFacts StoreFacts ServerStrict.

Lemma strict_checked_Valid body cur isCreate name brand category v :
  checked body cur isCreate name brand category = Valid v ->
  (falsy_text name = false /\ falsy_text brand = false /\
   falsy_text category = false) /\
  (isFinite (stock_of body cur) = true /\
   lt (stock_of body cur) pos_zero = false) /\
  (isFinite (rawPrice_of body cur) = true /\
   lt (rawPrice_of body cur) pos_zero = false) /\
  (isFinite (sellingPrice_of body cur) = true /\
   lt (sellingPrice_of body cur) pos_zero = false) /\
  lt (sellingPrice_of body cur) (rawPrice_of body cur) = false /\
  (isFinite (minStockAlert_of body cur) = true /\
   lt (minStockAlert_of body cur) pos_zero = false) /\
  isCreate && (is_undefined (b_rawPrice body)
               || (is_undefined (b_sellingPrice body)
                   && is_undefined (b_price body))) = false /\
  v = {| n_id := option_map id cur;
         n_name := text name; n_brand := text brand;
         n_category := text category;
         n_stock := stock_of body cur;
         n_rawPrice := rawPrice_of body cur;
         n_sellingPrice := sellingPrice_of body cur;
         n_minStockAlert := minStockAlert_of body cur |}.
Proof.
  unfold checked.
  repeat match goal with
         | |- (if ?c then _ else _) = _ -> _ =>
             destruct c eqn:?; [discriminate|]
         end.
  intros H; inversion H; subst; clear H. bools. repeat split; auto.
Qed.

Lemma strict_validate_Valid body cur isCreate v :
  validateAndNormalizeItem body cur isCreate = Done (Valid v) ->
  exists name brand category,
    texts_of body cur = Done (name, brand, category) /\
    checked body cur isCreate name brand category = Valid v.
Proof.
  unfold validateAndNormalizeItem.
  destruct (texts_of body cur) as [[[n b] c]|e]; [|discriminate].
  intros H; inversion H. eauto.
Qed.

Lemma strict_valid_price_ok body cur isCreate v base :
  validateAndNormalizeItem body cur isCreate = Done (Valid v) ->
  price_ok (spread base v).
Proof.
  intros H. apply strict_validate_Valid in H. destruct H as (n & b & c & _ & H).
  apply strict_checked_Valid in H.
  destruct H as (_ & _ & [Hr _] & [Hs _] & Hlt & _ & _ & ->).
  unfold price_ok, ge. simpl.
  apply lt_false_le; auto using isFinite_not_NaN.
Qed.

Lemma strict_handle_price_ok inventory r :
  Forall price_ok inventory -> Forall price_ok (fst (handle inventory r)).
Proof.
  intros Hinv. destruct r as [q|body|p body|p]; simpl.
  - unfold get_items.
    match goal with |- context [if ?c then _ else _] => destruct c end;
      assumption.
  - unfold post_item.
    destruct (validateAndNormalizeItem body None true) as [[e|v]|e] eqn:Hv;
      simpl; try assumption.
    apply Forall_app. split; [assumption|]. constructor; [|constructor].
    eapply strict_valid_price_ok; eassumption.
  - unfold put_item.
    destruct (findIndex _ inventory) as [k|]; [|assumption].
    destruct (nth_error inventory k) as [cur|]; [|assumption].
    destruct (validateAndNormalizeItem body (Some cur) false)
      as [[e|v]|e] eqn:Hv; simpl; try assumption.
    apply assign_Forall; [assumption|]. eapply strict_valid_price_ok; eassumption.
  - unfold delete_item.
    match goal with |- context [if ?c then _ else _] => destruct c end;
      simpl; apply filter_Forall; assumption.
Qed.

Lemma strict_inventory0_price_ok : Forall price_ok inventory0.
Proof. repeat constructor. Qed.

Lemma strict_reachable_price_ok inventory :
  reachable inventory -> Forall price_ok inventory.
Proof.
  induction 1; [apply strict_inventory0_price_ok|]. now apply strict_handle_price_ok.
Qed.



(** In the second server file the check for missing prices never fires on a
    create: a price that is not supplied has already failed the check of
    its number. *)
Lemma strict_prices_check_is_dead body e :
  ServerStrict.validateAndNormalizeItem body None true
    = ServerStrict.Done (Invalid e) ->
  ServerStrict.error_kind e <> Some MissingPriceOnCreate.
Proof.
  unfold ServerStrict.validateAndNormalizeItem.
  destruct (ServerStrict.texts_of body None) as [[[name brand] category]|t];
    [|discriminate].
  intros H. injection H as H. revert H. unfold ServerStrict.checked.
  destruct (falsy_text name || falsy_text brand || falsy_text category);
    [intros H; inversion H; discriminate|].
  destruct (negb (isFinite (ServerStrict.stock_of body None))
            || lt (ServerStrict.stock_of body None) pos_zero);
    [intros H; inversion H; discriminate|].
  destruct (negb (isFinite (ServerStrict.rawPrice_of body None))
            || lt (ServerStrict.rawPrice_of body None) pos_zero) eqn:Hr;
    [intros H; inversion H; discriminate|].
  destruct (negb (isFinite (ServerStrict.sellingPrice_of body None))
            || lt (ServerStrict.sellingPrice_of body None) pos_zero) eqn:Hs;
    [intros H; inversion H; discriminate|].
  destruct (lt (ServerStrict.sellingPrice_of body None)
               (ServerStrict.rawPrice_of body None));
    [intros H; inversion H; discriminate|].
  destruct (negb (isFinite (ServerStrict.minStockAlert_of body None))
            || lt (ServerStrict.minStockAlert_of body None) pos_zero);
    [intros H; inversion H; discriminate|].
  bools.
  unfold ServerStrict.rawPrice_of, ServerStrict.rawPriceSource,
    ServerStrict.sellingPrice_of, ServerStrict.sellingPriceSource in *.
  destruct (b_rawPrice body); [discriminate|..];
    (destruct (b_sellingPrice body);
     [destruct (b_price body); [discriminate|..]|..]);
    cbn; intros E; discriminate E.
Qed.


Lemma strict_missing_price body isCreate name brand category :
  price_missing body ->
  exists e,
    checked body None isCreate name brand category = Invalid e.
Proof.
  intros Hm. unfold checked.
  destruct (falsy_text _ || falsy_text _ || falsy_text _); [eauto|].
  destruct (negb (isFinite (stock_of body None))
            || lt (stock_of body None) pos_zero); [eauto|].
  destruct Hm as [Hr|[Hs Hp]].
  - unfold rawPrice_of, rawPriceSource.
    rewrite Hr. simpl. eauto.
  - destruct (negb (isFinite (rawPrice_of body None))
              || lt (rawPrice_of body None) pos_zero); [eauto|].
    unfold sellingPrice_of, sellingPriceSource.
    rewrite Hs, Hp. simpl. eauto.
Qed.

Lemma strict_keeps body current v :
  validateAndNormalizeItem body (Some current) false
    = Done (Valid v) ->
  keeps_unsupplied body current (spread (id current) v).
Proof.
  intros Hv. apply strict_validate_Valid in Hv.
  destruct Hv as (n & b & c & Ht & Hv).
  apply strict_checked_Valid in Hv.
  destruct Hv as (_ & _ & _ & _ & _ & _ & _ & ->).
  unfold texts_of in Ht.
  unfold keeps_unsupplied, stock_of, rawPrice_of,
    sellingPrice_of, minStockAlert_of,
    stockSource, rawPriceSource,
    sellingPriceSource, minStockAlertSource. simpl.
  destruct (b_name body) as [| |sn] eqn:En; simpl in Ht; try discriminate;
    destruct (b_brand body) as [| |sb] eqn:Eb; simpl in Ht; try discriminate;
    destruct (b_category body) as [| |sc] eqn:Ec; simpl in Ht;
    try discriminate; inversion Ht; subst; simpl;
    repeat split; try discriminate; try reflexivity;
    try (intros -> ; reflexivity); try (intros -> ->; reflexivity).
Qed.

Lemma strict_thrown body cur isCreate e :
  validateAndNormalizeItem body cur isCreate = Thrown e -> e = type_error.
Proof.
  unfold validateAndNormalizeItem, texts_of, text_or.
  destruct (b_name body); try (intros H; inversion H; reflexivity);
    destruct (b_brand body); try (intros H; inversion H; reflexivity);
    destruct (b_category body); intros H; inversion H; reflexivity.
Qed.

(** [inventory[index]] is always defined in [put_item]. *)
Lemma strict_put_in_range inventory p body :
  snd (put_item inventory p body) <> Raise "index out of range".
Proof.
  unfold put_item.
  destruct (findIndex _ inventory) as [k|] eqn:Hk; [|discriminate].
  destruct (findIndex_Some _ _ _ Hk) as (x & Hx & _). rewrite Hx.
  destruct (validateAndNormalizeItem body (Some x) false) as [[e|v]|e] eqn:Hv;
    try discriminate.
  apply strict_thrown in Hv. subst e. discriminate.
Qed.

End StrictFacts.


(* ===================================================================== *)
(** * Facts about dictionaries, sorting and the analytics                  *)
(* ===================================================================== *)


Module ObjFacts.
Import JS Obj.

Section Dictionary.
Context {V : Type}.
Implicit Types (o : object V) (k : string) (v : V).









End Dictionary.

(** ** Sorting *)

Section Sorting.
Context {A : Type} (compare : A -> A -> number).

Lemma sort_insert_perm x l : Permutation (sort_insert compare x l) (x :: l).
Proof.
  induction l as [|y r IH]; simpl; [reflexivity|].
  destruct (gt (compare x y) pos_zero); [|reflexivity].
  rewrite IH. apply perm_swap.
Qed.

Lemma sort_perm l : Permutation (sort compare l) l.
Proof.
  induction l as [|x r IH]; simpl; [reflexivity|].
  rewrite sort_insert_perm. now constructor.
Qed.

(** When, on the elements at hand, the comparison function orders by a
    transitive relation [R], the result is sorted by [R]. *)
Variable P : A -> Prop.
Variable R : A -> A -> Prop.
Hypothesis keep : forall x y,
    P x -> P y -> gt (compare x y) pos_zero = false -> R x y.
Hypothesis swap : forall x y,
    P x -> P y -> gt (compare x y) pos_zero = true -> R y x.
Hypothesis trans : forall x y z,
    P x -> P y -> P z -> R x y -> R y z -> R x z.

Lemma sort_insert_sorted x l :
  P x -> Forall P l -> StronglySorted R l ->
  StronglySorted R (sort_insert compare x l).
Proof.
  intros Hx Hl Hs. induction Hs as [|y r Hs IH Hy]; simpl.
  - constructor; constructor.
  - inversion Hl as [|? ? Py Pr]; subst.
    destruct (gt (compare x y) pos_zero) eqn:Hc.
    + constructor; [now apply IH|].
      apply (Permutation_Forall (Permutation_sym (sort_insert_perm x r))).
      constructor; [now apply swap|assumption].
    + constructor; [now constructor|].
      assert (Hxy : R x y) by now apply keep.
      constructor; [assumption|].
      rewrite Forall_forall in *. intros z Hz.
      apply (trans x y z); auto.
Qed.

Lemma sort_sorted l : Forall P l -> StronglySorted R (sort compare l).
Proof.
  induction 1 as [|x r Hx Hr IH]; simpl; [constructor|].
  apply sort_insert_sorted; [assumption| |assumption].
  now apply (Permutation_Forall (Permutation_sym (sort_perm r))).
Qed.

End Sorting.

End ObjFacts.


Module AppFacts.
Import JS Shape NumFacts RoundFacts OrderFacts App.

Lemma mapi_from_nth {A B} (f : A -> nat -> B) l k i :
  nth_error (Obj.mapi_from k f l) i
  = option_map (fun x => f x (k + i)%nat) (nth_error l i).
Proof.
  revert k i. induction l as [|x r IH]; intros k [|i]; simpl; try reflexivity.
  - now rewrite Nat.add_0_r.
  - rewrite IH. now rewrite Nat.add_succ_r.
Qed.

Lemma mapi_nth {A B} (f : A -> nat -> B) l i :
  nth_error (Obj.mapi f l) i = option_map (fun x => f x i) (nth_error l i).
Proof. unfold Obj.mapi. now rewrite mapi_from_nth. Qed.

Lemma mapi_from_length {A B} (f : A -> nat -> B) l k :
  List.length (Obj.mapi_from k f l) = List.length l.
Proof. revert k. induction l; simpl; auto. Qed.

Lemma fold_left_ext_in {A B} (f g : A -> B -> A) l a :
  (forall a x, In x l -> f a x = g a x) ->
  fold_left f l a = fold_left g l a.
Proof.
  revert a. induction l as [|x r IH]; intros a H; [reflexivity|].
  simpl. rewrite (H a x) by (left; reflexivity).
  apply IH. intros; apply H; right; assumption.
Qed.

Lemma projected_units item :
  stock_not_negative item ->
  Math_max [pos_zero; Math_round (mul (Number (stock item)) c0_28)]
  = Math_round (mul (Number (stock item)) c0_28).
Proof.
  intros H. apply Math_max_zero. apply Math_round_not_negative.
  apply mul_not_negative; [exact H|reflexivity].
Qed.

Lemma estimatedSales_spec items :
  Forall stock_not_negative items ->
  estimatedSales items = TrendSpec.estimated_sales items.
Proof.
  intros H. unfold estimatedSales, TrendSpec.estimated_sales.
  apply fold_left_ext_in. intros sum item Hin.
  rewrite projected_units; [reflexivity|].
  rewrite Forall_forall in H. now apply H.
Qed.

End AppFacts.


Module GroupFacts.

Import JS Shape NumFacts RoundFacts OrderFacts App AppFacts ObjFacts.

Lemma stock_summand item : stock_is_number item -> summand (Number (stock item)).
Proof. intros [H1 H2]. now apply valid_summand. Qed.











(** ** From entries to segments *)






End GroupFacts.

(* ===================================================================== *)
(** * The claims of the specification                                      *)
(* ===================================================================== *)

Import JS Shape Api NumFacts StoreFacts.

(** ** The validator and the item store *)







(** [src/server/index.js] does not look at the resolved minimum stock alert:
    it accepts one that is negative, and one that is not a number. *)
Example Server_stores_negative_alert :
  exists v,
    Server.validateAndNormalizeItem Sample.negative_alert None true = Valid v /\
    lt (n_minStockAlert v) pos_zero = true.
Proof. eexists. split; reflexivity. Qed.

Example Server_stores_NaN_alert :
  exists v,
    Server.validateAndNormalizeItem Sample.text_alert None true = Valid v /\
    n_minStockAlert v = NaN.
Proof. eexists. split; reflexivity. Qed.

(** A create whose body supplies no raw price, or neither a selling price
    nor a price, is never accepted: the validator returns an error, the
    answer has status 400 and the store is left as it was (in the second
    server file for bodies whose name, brand and category can be read).
    An accepted create therefore carries a raw price and a selling price
    or price. *)
Lemma create_without_prices_is_refused :
  (forall inventory body,
      price_missing body ->
      exists e,
        Server.validateAndNormalizeItem body None true = Invalid e /\
        Server.post_item inventory body
          = (inventory, Respond 400 (Json_error e)))
  /\
  (forall inventory body name brand category,
      ServerStrict.texts_of body None
        = ServerStrict.Done (name, brand, category) ->
      price_missing body ->
      exists e,
        ServerStrict.validateAndNormalizeItem body None true
          = ServerStrict.Done (Invalid e) /\
        ServerStrict.post_item inventory body
          = (inventory, Respond 400 (Json_error e)))
  /\
  (forall body v,
      Server.validateAndNormalizeItem body None true = Valid v ->
      ~ price_missing body)
  /\
  (forall body v,
      ServerStrict.validateAndNormalizeItem body None true
        = ServerStrict.Done (Valid v) ->
      ~ price_missing body).
Proof.
  repeat apply conj.
  - intros inventory body Hm.
    destruct (ServerFacts.server_missing_price body true Hm) as [e He].
    exists e. split; [exact He|]. unfold Server.post_item. now rewrite He.
  - intros inventory body name brand category Ht Hm.
    destruct (StrictFacts.strict_missing_price body true name brand category Hm)
      as [e He].
    assert (Hv : ServerStrict.validateAndNormalizeItem body None true
                 = ServerStrict.Done (Invalid e)).
    { unfold ServerStrict.validateAndNormalizeItem. now rewrite Ht, He. }
    exists e. split; [exact Hv|]. unfold ServerStrict.post_item.
    now rewrite Hv.
  - intros body v Hv Hm.
    destruct (ServerFacts.server_missing_price body true Hm) as [e He].
    congruence.
  - intros body v Hv Hm.
    apply StrictFacts.strict_validate_Valid in Hv.
    destruct Hv as (name & brand & category & _ & Hv).
    destruct (StrictFacts.strict_missing_price body true name brand category Hm)
      as [e He]. congruence.
Qed.

(** C3.  The check for missing prices does not fire where the specification expects it.  A
    create that supplies no price at all is answered with the error for an
    invalid number, in both servers, because a price that is not supplied
    converts to [NaN] and the checks of the numbers come first.  And
    [src/server/index.js] answers with the error for missing prices when
    the raw price and the alias [price] are supplied, where the second
    server file accepts the create. *)
Theorem C3_missing_prices_check_misses :
  (ServerStrict.post_item ServerStrict.inventory0 Sample.no_price
   = (ServerStrict.inventory0,
      Respond 400
        (Json_error "Raw price must be a valid non-negative number.")) /\
   ServerStrict.error_kind "Raw price must be a valid non-negative number."
   = Some InvalidNumber)
  /\
  (Server.post_item Server.inventory0 Sample.no_price
   = (Server.inventory0, Respond 400 (Json_error "Invalid numeric values."))
   /\ Server.error_kind "Invalid numeric values." = Some InvalidNumber)
  /\
  (Server.post_item Server.inventory0 raw_and_alias
   = (Server.inventory0,
      Respond 400 (Json_error "Raw price and selling price are required."))
   /\ Server.error_kind "Raw price and selling price are required."
      = Some MissingPriceOnCreate)
  /\
  (exists r,
      ServerStrict.post_item ServerStrict.inventory0 raw_and_alias
      = ((ServerStrict.inventory0
          ++ [{| id := 6; name := "Test"; brand := "B"; category := "C";
                 stock := of_Z 5; rawPrice := of_Z 10;
                 sellingPrice := of_Z 15; minStockAlert := of_Z 10 |}])%list,
         Respond 201 (Json_item r))).
Proof.
  repeat split. eexists. reflexivity.
Qed.

(** C4.  A valid create appends one item and answers 201 with it.  Its
    identifier is one more than the largest identifier in the store, or 1
    for an empty store, hence above every identifier in the store; the
    answer carries [profit = sellingPrice - rawPrice] and
    [price = sellingPrice], for the prices resolved from the body.  The
    identifiers of the store are positive integers below 2^53, the range in
    which the binary64 arithmetic of [nextId] is exact; the new identifier
    is at most 2^53. *)
Theorem C4_create_returns_next_id :
  forall inventory body v,
    Forall (fun it => 1 <= id it) inventory -> ids_exact inventory ->
    Server.validateAndNormalizeItem body None true = Valid v ->
    exists r,
      Server.post_item inventory body
        = ((inventory ++ [spread (nextId inventory) v])%list,
           Respond 201 (Json_item r)) /\
      one_above_ids inventory (r_id r) /\
      Forall (fun it => id it < r_id r) inventory /\
      1 <= r_id r <= 2 ^ 53 /\
      r_rawPrice r = Server.rawPrice_of body None /\
      r_sellingPrice r = Server.sellingPrice_of body None /\
      r_profit r = sub (r_sellingPrice r) (r_rawPrice r) /\
      r_price r = r_sellingPrice r.
Proof.
  intros inventory body v Hpos Hex Hv.
  exists (buildItemResponse (spread (nextId inventory) v)).
  split; [unfold Server.post_item; now rewrite Hv|].
  apply ServerFacts.server_validate_Valid in Hv.
  destruct Hv as (_ & _ & _ & _ & _ & _ & _ & _ & _ & _ & ->).
  cbn [buildItemResponse spread r_id r_rawPrice r_sellingPrice r_profit
       r_price n_id option_map id rawPrice sellingPrice toNumber Api.Number].
  split; [apply nextId_one_above|]. split; [apply nextId_above|].
  split; [|repeat split].
  pose proof (nextId_one_above inventory) as H1.
  unfold one_above_ids in H1. destruct inventory as [|it0 rest]; [lia|].
  destruct H1 as (it & Hin & -> & _).
  unfold ids_exact in Hex. rewrite Forall_forall in Hpos, Hex.
  specialize (Hpos it Hin). specialize (Hex it Hin). simpl in *. lia.
Qed.

Lemma C4_witness :
  exists r,
    Server.post_item Server.inventory0 Sample.test
      = ((Server.inventory0 ++ [Sample.test_item])%list,
         Respond 201 (Json_item r)) /\
    r_id r = 6 /\ r_profit r = of_Z 5 /\ r_price r = of_Z 15.
Proof.
  assert (Hpos : Forall (fun it => 1 <= id it) Server.inventory0)
    by (repeat constructor; simpl; lia).
  assert (Hex : ids_exact Server.inventory0)
    by (repeat constructor; simpl; lia).
  destruct (C4_create_returns_next_id Server.inventory0 Sample.test _
              Hpos Hex eq_refl)
    as (r & Hp & _ & _ & _ & Hr & Hs & Hprofit & Hprice).
  exists r. split; [exact Hp|].
  vm_compute in Hp. inversion Hp; subst r. repeat split.
Defined.

(** C5.  An update of an unknown identifier answers 404 and leaves the
    store as it was.  An update of an existing item either is refused (400,
    or in the second server file the exception raised on a null text) with
    the store left as it was, or replaces the item in place: it keeps its
    identifier and its position, every other element of the store is
    untouched, and every property the body does not supply keeps the value
    of the prior record. *)
Theorem C5_partial_update_keeps_the_rest :
  (forall inventory p body,
      (findIndex (id_is (Str.StringToNumber p)) inventory = None ->
       Server.put_item inventory p body
         = (inventory, Respond 404 (Json_error "Item not found.")))
      /\
      (forall index current,
          findIndex (id_is (Str.StringToNumber p)) inventory = Some index ->
          nth_error inventory index = Some current ->
          (exists e, Server.put_item inventory p body
                     = (inventory, Respond 400 (Json_error e)))
          \/
          (exists updated,
              Server.put_item inventory p body
                = (assign inventory index updated,
                   Respond 200 (Json_item (buildItemResponse updated))) /\
              keeps_unsupplied body current updated /\
              replaced_at inventory (assign inventory index updated)
                          index updated)))
  /\
  (forall inventory p body,
      (findIndex (id_is (Str.StringToNumber p)) inventory = None ->
       ServerStrict.put_item inventory p body
         = (inventory, Respond 404 (Json_error "Item not found.")))
      /\
      (forall index current,
          findIndex (id_is (Str.StringToNumber p)) inventory = Some index ->
          nth_error inventory index = Some current ->
          ServerStrict.put_item inventory p body
            = (inventory, Raise ServerStrict.type_error)
          \/
          (exists e, ServerStrict.put_item inventory p body
                     = (inventory, Respond 400 (Json_error e)))
          \/
          (exists updated,
              ServerStrict.put_item inventory p body
                = (assign inventory index updated,
                   Respond 200 (Json_item (buildItemResponse updated))) /\
              keeps_unsupplied body current updated /\
              replaced_at inventory (assign inventory index updated)
                          index updated))).
Proof.
  split; intros inventory p body; split.
  - intros H. unfold Server.put_item. now rewrite H.
  - intros index current Hi Hn. unfold Server.put_item. rewrite Hi, Hn.
    destruct (Server.validateAndNormalizeItem body (Some current) false)
      as [e|v] eqn:Hv.
    + left. eauto.
    + right. exists (spread (id current) v). split; [reflexivity|].
      split; [now apply ServerFacts.server_keeps|].
      eapply assign_replaced_at; eassumption.
  - intros H. unfold ServerStrict.put_item. now rewrite H.
  - intros index current Hi Hn. unfold ServerStrict.put_item. rewrite Hi, Hn.
    destruct (ServerStrict.validateAndNormalizeItem body (Some current) false)
      as [[e|v]|e] eqn:Hv.
    + right. left. eauto.
    + right. right. exists (spread (id current) v). split; [reflexivity|].
      split; [now apply StrictFacts.strict_keeps|].
      eapply assign_replaced_at; eassumption.
    + left. unfold ServerStrict.validateAndNormalizeItem in Hv.
      destruct (ServerStrict.texts_of body (Some current))
        as [[[n b] c]|e'] eqn:Ht; [discriminate|].
      inversion Hv; subst e'. f_equal. f_equal.
      unfold ServerStrict.texts_of, ServerStrict.text_or in Ht.
      destruct (b_name body); try (inversion Ht; reflexivity);
        destruct (b_brand body); try (inversion Ht; reflexivity);
        destruct (b_category body); inversion Ht; reflexivity.
Qed.

Lemma C5_witness :
  exists updated,
    Server.put_item (Server.inventory0 ++ [Sample.test_item])%list "6"
                    (Sample.only_stock 20)
      = (assign (Server.inventory0 ++ [Sample.test_item])%list 5 updated,
         Respond 200 (Json_item (buildItemResponse updated))) /\
    id updated = 6 /\
    name updated = "Test" /\
    rawPrice updated = of_Z 10 /\
    sellingPrice updated = of_Z 15 /\
    stock updated = of_Z 20.
Proof.
  destruct C5_partial_update_keeps_the_rest as [HA _].
  destruct (HA (Server.inventory0 ++ [Sample.test_item])%list "6"
               (Sample.only_stock 20)) as [_ H].
  destruct (H 5%nat Sample.test_item eq_refl eq_refl)
    as [[e He]|(updated & Hput & Hkeep & _)].
  - vm_compute in He. discriminate He.
  - exists updated. split; [exact Hput|].
    destruct Hkeep as (Hid & Hname & _ & _ & _ & Hraw & Hsell & _).
    rewrite Hid, Hname, Hraw, Hsell by reflexivity.
    repeat split.
    assert (E : match snd (Server.put_item
                             (Server.inventory0 ++ [Sample.test_item])%list
                             "6" (Sample.only_stock 20)) with
                | Respond _ (Json_item r) => r_stock r
                | _ => NaN
                end = of_Z 20) by reflexivity.
    rewrite Hput in E. exact E.
Defined.




(** C10.  When the converted path parameter equals the identifier of no
    stored item, and in particular when it converts to [NaN], both
    [PUT /api/items/:id] and [DELETE /api/items/:id] answer 404 without
    raising, and the store keeps its contents. *)
Theorem C10_unknown_id_is_not_found :
  (forall inventory p body,
      (forall it, In it inventory ->
                  id_is (Str.StringToNumber p) it = false) ->
      Server.put_item inventory p body
        = (inventory, Respond 404 (Json_error "Item not found.")) /\
      Server.delete_item inventory p
        = (inventory, Respond 404 (Json_error "Item not found.")))
  /\
  (forall inventory p body,
      isNaN (Str.StringToNumber p) = true ->
      Server.put_item inventory p body
        = (inventory, Respond 404 (Json_error "Item not found.")) /\
      Server.delete_item inventory p
        = (inventory, Respond 404 (Json_error "Item not found."))).
Proof.
  assert (main : forall inventory p body,
             (forall it, In it inventory ->
                         id_is (Str.StringToNumber p) it = false) ->
             Server.put_item inventory p body
               = (inventory, Respond 404 (Json_error "Item not found.")) /\
             Server.delete_item inventory p
               = (inventory, Respond 404 (Json_error "Item not found."))).
  { intros inventory p body H. split.
    - unfold Server.put_item.
      now rewrite (proj2 (findIndex_None _ inventory) H).
    - unfold Server.delete_item. rewrite (delete_unknown _ _ H).
      now rewrite Nat.eqb_refl. }
  split; [exact main|].
  intros inventory p body Hnan. apply main.
  intros it _. now apply id_is_NaN.
Qed.

Lemma C10_witness :
  (Server.put_item Server.inventory0 "99" Sample.test
     = (Server.inventory0, Respond 404 (Json_error "Item not found.")) /\
   Server.delete_item Server.inventory0 "99"
     = (Server.inventory0, Respond 404 (Json_error "Item not found.")))
  /\
  (Server.put_item Server.inventory0 "abc" Sample.test
     = (Server.inventory0, Respond 404 (Json_error "Item not found.")) /\
   Server.delete_item Server.inventory0 "abc"
     = (Server.inventory0, Respond 404 (Json_error "Item not found."))).
Proof.
  destruct C10_unknown_id_is_not_found as [H1 H2]. split.
  - apply H1. intros it Hin.
    repeat (destruct Hin as [<-|Hin]; [reflexivity|]). destruct Hin.
  - apply H2. reflexivity.
Defined.

(** ** The client *)

Import App AppFacts ObjFacts GroupFacts OrderFacts.



(** Items without a category are counted under "Uncategorized". *)
Example uncategorized_segment :
  map label
      (categorySegments
         [Sample.client_item EmptyString 4 180;
          Sample.client_item "Coils" 9 220])
  = ["Coils"; "Uncategorized"].
Proof. reflexivity. Qed.

(** C8.  For items whose stock is not negative, as is every stock the
    servers store and send, the estimated sales are the sum over all items
    of
    [sellingPrice * round(stock * 0.28)]; the month at an index of the six
    has the sales value [round((estimatedSales / 6) * (0.72 + index * 0.1))],
    the expense [round(salesValue * (0.56 + (index even ? 0.05 : 0.02)))]
    and the profit [max(0, sales - expense)]. *)
Theorem C8_monthly_trend_formula :
  forall items,
    Forall stock_not_negative items ->
    estimatedSales items = TrendSpec.estimated_sales items /\
    forall index name,
      nth_error monthLabels index = Some name ->
      let sales := TrendSpec.month_sales (estimatedSales items) index in
      let expense := TrendSpec.month_expense sales index in
      let months := salesByMonth (estimatedSales items) in
      nth_error months index
        = Some {| month := name; month_value := sales |} /\
      nth_error (expenseByMonth months) index = Some expense /\
      nth_error (profitByMonth months (expenseByMonth months)) index
        = Some (TrendSpec.month_profit sales expense).
Proof.
  intros items H. split; [now apply estimatedSales_spec|].
  intros index name Hl sales expense months.
  assert (Hm : nth_error months index
               = Some {| month := name; month_value := sales |}).
  { unfold months, salesByMonth. rewrite mapi_nth, Hl. reflexivity. }
  assert (He : nth_error (expenseByMonth months) index = Some expense).
  { unfold expenseByMonth. rewrite mapi_nth, Hm. reflexivity. }
  repeat split; [exact Hm|exact He|].
  unfold profitByMonth. rewrite mapi_nth, Hm. unfold at_index.
  cbn [option_map month_value]. now rewrite He.
Qed.

Lemma C8_witness :
  estimatedSales Sample.two_items = TrendSpec.estimated_sales Sample.two_items
  /\ estimatedSales Sample.two_items = of_Z 4670
  /\ nth_error (salesByMonth (estimatedSales Sample.two_items)) 2
     = Some {| month := "Mar";
               month_value :=
                 TrendSpec.month_sales (estimatedSales Sample.two_items) 2 |}.
Proof.
  destruct (C8_monthly_trend_formula Sample.two_items) as [H1 H2].
  - repeat constructor.
  - split; [exact H1|]. split; [reflexivity|].
    apply (H2 2%nat "Mar" eq_refl).
Defined.

(** The client never counts a negative number of projected units: for a
    stock of -10 at a unit price of 100, which no server sends, it would
    estimate no sales where the formula gives -300. *)
Example negative_stock_estimate :
  estimatedSales [Sample.client_item "Pods" (-10) 100] = pos_zero /\
  TrendSpec.estimated_sales [Sample.client_item "Pods" (-10) 100]
    = of_Z (-300).
Proof. split; reflexivity. Qed.

(** C9.  A sale whose quantity exceeds the stock of the selected item is
    refused on the spot: the only effect is a notification, no request is
    sent, and the state of the client (its items and their stock, its sales
    log) and the store of the server are what they were. *)
Theorem C9_oversized_sale_is_rejected :
  forall backend now isoString st srv item,
    selected st = Some item ->
    gt (Str.StringToNumber (quantity (saleForm st))) (Number (stock item))
      = true ->
    exists toast,
      onAddSaleSubmit backend now isoString st srv = (st, srv, [Fired toast]).
Proof.
  intros backend now isoString st srv item Hsel Hgt.
  unfold onAddSaleSubmit. unfold selected in Hsel. rewrite Hsel.
  destruct (negb (isFinite (Str.StringToNumber (quantity (saleForm st))))
            || le (Str.StringToNumber (quantity (saleForm st))) pos_zero);
    [eauto|].
  rewrite Hgt. eauto.
Qed.

Lemma C9_witness :
  exists toast,
    onAddSaleSubmit Server.handle Sample.clock Sample.clock_text
                    (Sample.sale_state "16") Server.inventory0
    = (Sample.sale_state "16", Server.inventory0, [Fired toast]).
Proof.
  eapply C9_oversized_sale_is_rejected; reflexivity.
Defined.

(** A sale within the stock does reach the API and the sales log. *)
Example sale_within_stock :
  let '(st, srv, effects) :=
    onAddSaleSubmit Server.handle Sample.clock Sample.clock_text
                    (Sample.sale_state "3") Server.inventory0 in
  List.length (salesLog st) = 1%nat /\
  map Api.stock srv = [of_Z 24; of_Z 12; of_Z 40; of_Z 28; of_Z 12] /\
  List.length effects = 3%nat.
Proof. vm_compute. repeat split. Qed.

(* ===================================================================== *)
(** * Further facts about numbers, texts and the stores                    *)
(* ===================================================================== *)

Local Close Scope string_scope.

Module ExactFacts.
Import JS Shape NumFacts RoundFacts OrderFacts.

(** A mantissa of full width is left as it is by rounding. *)
Lemma binary_round_aux_exact s m e :
  Zpos (digits2_pos m) = prec -> emin <= e -> e <= emax - prec ->
  binary_round_aux prec emax s (Zpos m) e loc_Exact = S754_finite s m e.
Proof.
  intros Hd He1 He2.
  assert (Hf : fexp prec emax (prec + e) - e = 0)
    by (unfold fexp; fold emin; lia).
  unfold binary_round_aux, shr_fexp. cbn [Zdigits2 shr_record_of_loc].
  rewrite Hd, Hf.
  cbn [shr shr_m loc_of_shr_record round_nearest_even shr_r shr_s
       Zdigits2 shr_record_of_loc].
  rewrite Hd, Hf. cbn [shr shr_m].
  apply Z.leb_le in He2. now rewrite He2.
Qed.

Lemma iter_xO_digits d m :
  Zpos (digits2_pos (Pos.iter xO m d)) = Zpos (digits2_pos m) + Zpos d.
Proof.
  induction d using Pos.peano_ind.
  - simpl. lia.
  - rewrite Pos.iter_succ. cbn [digits2_pos]. rewrite Pos2Z.inj_succ, IHd. lia.
Qed.

(** Integers below [2^53] in absolute value are binary64 values. *)
Lemma binary_round_small s p :
  Zpos p < 2 ^ prec ->
  exists m e,
    binary_round prec emax s p 0 = S754_finite s m e /\
    (- prec < e /\ e <= 0) /\ Zpos m = Zpos p * 2 ^ (- e).
Proof.
  intros Hp. unfold binary_round.
  pose proof (digits2_bounds p) as [Bl Bu].
  set (d := Zpos (digits2_pos p)) in *.
  assert (Hd : 0 < d <= prec).
  { split; [unfold d; lia|].
    destruct (Z.le_gt_cases d prec) as [L|G]; [exact L|].
    assert (2 ^ prec <= 2 ^ (d - 1)) by (apply Z.pow_le_mono_r; lia). lia. }
  assert (Hf : fexp prec emax (d + 0) = d - prec)
    by (unfold fexp, SpecFloat.emin, prec, emax in *; lia).
  rewrite Hf.
  pose proof (shl_align_value p 0 (d - prec)) as [Hv Hs].
  assert (Hdig : Zpos (digits2_pos (fst (shl_align p 0 (d - prec)))) = prec).
  { unfold shl_align. destruct (d - prec - 0) as [|k|k] eqn:Hk;
      cbn [fst]; fold d; try lia.
    rewrite iter_xO_digits. fold d. lia. }
  destruct (shl_align p 0 (d - prec)) as [mz ez]. cbn [fst snd] in *.
  exists mz, ez. split.
  - apply binary_round_aux_exact; [assumption| |];
      unfold emin, SpecFloat.emin, prec, emax in *; lia.
  - split; [lia|]. rewrite Hv. f_equal.
Qed.

Lemma of_Z_small n :
  0 < n < 2 ^ prec ->
  exists m e,
    of_Z n = S754_finite false m e /\
    (- prec < e /\ e <= 0) /\ Zpos m = n * 2 ^ (- e).
Proof.
  intros [H0 H1]. destruct n as [|p|p]; try lia.
  unfold of_Z, binary_normalize. now apply binary_round_small.
Qed.

(** On positive integers below [2^53] the conversion keeps the order. *)
Lemma compare_of_Z a b :
  0 < a < 2 ^ prec -> 0 < b < 2 ^ prec ->
  compare (of_Z a) (of_Z b) = Some (a ?= b).
Proof.
  intros Ha Hb.
  destruct (of_Z_small a Ha) as (ma & ea & -> & Hea & Va).
  destruct (of_Z_small b Hb) as (mb & eb & -> & Heb & Vb).
  cbn [compare]. f_equal. unfold compare_finite, aligned, signed.
  rewrite Va, Vb, <- !Z.mul_assoc, <- !Z.pow_add_r by lia.
  replace (- ea + (ea - Z.min ea eb)) with (- Z.min ea eb) by lia.
  replace (- eb + (eb - Z.min ea eb)) with (- Z.min ea eb) by lia.
  assert (P : 0 < 2 ^ (- Z.min ea eb)) by (apply Z.pow_pos_nonneg; lia).
  destruct (Z.compare_spec a b);
    [apply Z.compare_eq_iff|apply Z.compare_lt_iff|apply Z.compare_gt_iff];
    nia.
Qed.

Lemma strict_eq_of_Z a b :
  0 < a < 2 ^ prec -> 0 < b < 2 ^ prec ->
  strict_eq (of_Z a) (of_Z b) = (a =? b).
Proof.
  intros Ha Hb. unfold strict_eq. rewrite compare_of_Z by assumption.
  rewrite Z.eqb_compare. reflexivity.
Qed.

End ExactFacts.

Local Open Scope string_scope.

Module TextFacts.
Import JS Str.

(** ** [trim] *)

Lemma trimEnd_idem s : trimEnd (trimEnd s) = trimEnd s.
Proof.
  induction s as [|c s IH]; [reflexivity|]. cbn [trimEnd].
  destruct (is_white c && is_empty (trimEnd s)) eqn:E; [reflexivity|].
  cbn [trimEnd]. now rewrite IH, E.
Qed.

Lemma trimStart_clean s : starts_clean (trimStart s).
Proof.
  induction s as [|c s IH]; [exact I|]. cbn [trimStart].
  destruct (is_white c) eqn:E; [exact IH|exact E].
Qed.

Lemma trimEnd_clean s : starts_clean s -> starts_clean (trimEnd s).
Proof.
  destruct s as [|c s]; [trivial|]. cbn [starts_clean trimEnd].
  intros H. rewrite H. exact H.
Qed.

Lemma trimStart_of_clean s : starts_clean s -> trimStart s = s.
Proof. destruct s as [|c s]; [trivial|]. cbn. now intros ->. Qed.

Lemma trim_idem s : trim (trim s) = trim s.
Proof.
  unfold trim.
  rewrite (trimStart_of_clean (trimEnd (trimStart s))).
  - apply trimEnd_idem.
  - apply trimEnd_clean, trimStart_clean.
Qed.

(** ** Decimal numerals *)

Lemma take_digits_numeral d :
  take_digits 10 (NilEmpty.string_of_uint d) = (uint_digits d, EmptyString).
Proof.
  induction d as [|d IH|d IH|d IH|d IH|d IH|d IH|d IH|d IH|d IH|d IH];
    [reflexivity|..];
    cbn [NilEmpty.string_of_uint take_digits uint_digits];
    rewrite IH; reflexivity.
Qed.

Lemma trimEnd_numeral d :
  trimEnd (NilEmpty.string_of_uint d) = NilEmpty.string_of_uint d.
Proof.
  induction d as [|d IH|d IH|d IH|d IH|d IH|d IH|d IH|d IH|d IH|d IH];
    [reflexivity|..];
    cbn [NilEmpty.string_of_uint trimEnd]; rewrite IH; reflexivity.
Qed.

Lemma trim_numeral d :
  trim (NilEmpty.string_of_uint d) = NilEmpty.string_of_uint d.
Proof.
  unfold trim. rewrite trimStart_of_clean; [apply trimEnd_numeral|].
  destruct d; reflexivity.
Qed.

Lemma fold_digits_acc d acc :
  fold_left (fun a x => 10 * a + x)%Z (uint_digits d) (Zpos acc)
  = Zpos (Pos.of_uint_acc d acc).
Proof.
  revert acc.
  induction d as [|d IH|d IH|d IH|d IH|d IH|d IH|d IH|d IH|d IH|d IH];
    intros acc; [reflexivity|..];
    cbn [uint_digits fold_left Pos.of_uint_acc]; rewrite <- IH; f_equal; lia.
Qed.

Lemma digits_value_numeral d :
  digits_value 10 (uint_digits d) = Z.of_N (Pos.of_uint d).
Proof.
  unfold digits_value.
  induction d as [|d IH|d IH|d IH|d IH|d IH|d IH|d IH|d IH|d IH|d IH];
    [reflexivity|exact IH|..];
    cbn [uint_digits fold_left Pos.of_uint Z.of_N];
    rewrite <- fold_digits_acc; reflexivity.
Qed.

(** The decimal numeral of a positive integer converts back to it. *)
Lemma StringToNumber_numeral p :
  StringToNumber (NilEmpty.string_of_uint (Pos.to_uint p)) = of_Z (Zpos p).
Proof.
  pose proof (DecimalPos.Unsigned.to_uint_nonnil p) as Hnil.
  pose proof (DecimalPos.Unsigned.of_to p) as Hval.
  set (d := Pos.to_uint p) in *.
  unfold StringToNumber. rewrite trim_numeral.
  assert (Hrad : parse_radix (NilEmpty.string_of_uint d) = None).
  { destruct d as [|r|r|r|r|r|r|r|r|r|r]; try reflexivity.
    destruct r; reflexivity. }
  assert (Hne : is_empty (NilEmpty.string_of_uint d) = false)
    by (destruct d; [congruence|reflexivity..]).
  rewrite Hne, Hrad. unfold parse_decimal.
  assert (Hs : split_sign (NilEmpty.string_of_uint d)
               = (false, NilEmpty.string_of_uint d))
    by (destruct d; reflexivity).
  rewrite Hs.
  assert (Hi : String.eqb (NilEmpty.string_of_uint d) "Infinity" = false)
    by (destruct d; reflexivity).
  rewrite Hi, take_digits_numeral. rewrite app_nil_r.
  assert (Hd : uint_digits d <> []) by (destruct d; [congruence|discriminate..]).
  destruct (uint_digits d) as [|x xs] eqn:Ed; [congruence|].
  cbn [parse_exponent List.length Z.of_nat]. rewrite <- Ed.
  rewrite digits_value_numeral, Hval. cbn [Z.of_N].
  unfold decimal_to_number. cbn [Z.sub Z.opp Z.add Z.leb Z.compare].
  unfold of_Z. f_equal. cbn [signed]. lia.
Qed.

End TextFacts.

Module InvariantFacts.
Import JS Shape Api NumFacts StoreFacts TextFacts.

Lemma NoDup_map_filter {A B} (f : A -> B) (p : A -> bool) l :
  NoDup (map f l) -> NoDup (map f (filter p l)).
Proof.
  induction l as [|x r IH]; simpl; intros H; [constructor|].
  inversion H as [|? ? Hx Hr]; subst.
  destruct (p x); simpl; [|auto].
  constructor; [|auto]. intros Hin. apply Hx.
  apply in_map_iff in Hin. destruct Hin as (y & Hy & Hin).
  apply filter_In in Hin. apply in_map_iff. exists y. tauto.
Qed.

Lemma map_assign {A B} (f : A -> B) l k v x :
  nth_error l k = Some x -> f v = f x -> map f (assign l k v) = map f l.
Proof.
  revert k. induction l as [|y r IH]; intros [|k]; simpl; try discriminate.
  - intros H E. inversion H; subst. now rewrite E.
  - intros H E. f_equal. now apply IH.
Qed.

Lemma nextId_positive inventory :
  Forall (fun it => 1 <= id it) inventory -> 1 <= nextId inventory.
Proof.
  intros H. unfold nextId. destruct inventory as [|it r]; simpl; [lia|].
  inversion H as [|? ? Hit Hr]; subst.
  destruct (max_id_ge (id it) (map id r)) as [Hm _]. lia.
Qed.

(** ** Identifiers *)

Lemma ids_ok_filter p inventory :
  ids_ok inventory -> ids_ok (filter p inventory).
Proof.
  intros [Hn Hp]. split; [now apply NoDup_map_filter|now apply filter_Forall].
Qed.

Lemma ids_ok_push inventory v :
  n_id v = None -> ids_ok inventory ->
  ids_ok (inventory ++ [spread (nextId inventory) v])%list.
Proof.
  intros Hv [Hn Hp]. unfold ids_ok, spread. rewrite Hv, map_app. split.
  - simpl. apply NoDup_app_remove_l with (l := []). simpl.
    apply Permutation_NoDup with (l := nextId inventory :: map id inventory).
    + apply Permutation_cons_append.
    + constructor; [|assumption]. intros Hin.
      apply in_map_iff in Hin. destruct Hin as (it & Hi & Hin).
      pose proof (nextId_above inventory) as Ha.
      rewrite Forall_forall in Ha. specialize (Ha it Hin). lia.
  - apply Forall_app. split; [assumption|].
    constructor; [|constructor]. simpl. now apply nextId_positive.
Qed.

Lemma ids_ok_assign inventory k current v :
  nth_error inventory k = Some current -> n_id v = Some (id current) ->
  ids_ok inventory -> ids_ok (assign inventory k (spread (id current) v)).
Proof.
  intros Hk Hv [Hn Hp]. unfold ids_ok.
  assert (E : id (spread (id current) v) = id current)
    by (unfold spread; rewrite Hv; reflexivity).
  rewrite (map_assign id inventory k _ current Hk E). split; [assumption|].
  apply assign_Forall; [assumption|]. rewrite E.
  rewrite Forall_forall in Hp. apply Hp. eapply nth_error_In; eassumption.
Qed.

(** ** Texts *)

Lemma text_ok_trim s : Str.is_empty (Str.trim s) = false -> text_ok (Str.trim s).
Proof. intros H. split; [assumption|apply trim_idem]. Qed.

Lemma server_text_ok (f : field string) cur (get : Item -> string) :
  (forall it, cur = Some it -> text_ok (get it)) ->
  falsy_text (nullish (Server.trimmed f) (prop cur get)) = false ->
  text_ok (text (nullish (Server.trimmed f) (prop cur get))).
Proof.
  intros Hcur. destruct f as [| |s]; simpl.
  - destruct cur as [it|]; simpl; [auto|discriminate].
  - destruct cur as [it|]; simpl; [auto|discriminate].
  - apply text_ok_trim.
Qed.

Lemma strict_text_ok (f : field string) cur (get : Item -> string) t :
  (forall it, cur = Some it -> text_ok (get it)) ->
  ServerStrict.text_or f (prop cur get) = ServerStrict.Done t ->
  falsy_text t = false -> text_ok (text t).
Proof.
  intros Hcur. destruct f as [| |s]; simpl; intros H; inversion H; subst.
  - destruct cur as [it|]; simpl; [auto|discriminate].
  - simpl. apply text_ok_trim.
Qed.

Lemma finite_nonneg_intro x :
  isFinite x = true -> lt x pos_zero = false -> finite_nonneg x = true.
Proof. unfold finite_nonneg. now intros -> ->. Qed.

(** An operand that is not below a finite, non-negative one is not
    negative. *)
Lemma not_below_nonneg x y :
  isFinite x = true -> isFinite y = true ->
  lt y pos_zero = false -> lt x y = false -> lt x pos_zero = false.
Proof.
  intros Hx Hy Hy0 Hxy.
  destruct (lt x pos_zero) eqn:E; [|reflexivity].
  rewrite (lt_zero_trans x y E Hy Hy0) in Hxy. discriminate.
Qed.

(** ** What an accepted body leaves in the store *)

Lemma server_valid_stored_ok body cur isCreate v base :
  (forall it, cur = Some it -> stored_ok it) ->
  Server.validateAndNormalizeItem body cur isCreate = Valid v ->
  stored_ok (spread base v).
Proof.
  intros Hcur H. apply ServerFacts.server_validate_Valid in H.
  destruct H as (Hn & Hb & Hc & Fs & Fr & Fp & Ls & Lr & Lp & _ & ->).
  unfold stored_ok, spread. cbn.
  refine (conj _ (conj _ (conj _ (conj _ (conj _ _))))).
  - apply server_text_ok; [|exact Hn]. intros it E. now apply (Hcur it E).
  - apply server_text_ok; [|exact Hb]. intros it E. now apply (Hcur it E).
  - apply server_text_ok; [|exact Hc]. intros it E. now apply (Hcur it E).
  - now apply finite_nonneg_intro.
  - now apply finite_nonneg_intro.
  - apply finite_nonneg_intro; [assumption|].
    now apply (not_below_nonneg _ (Server.rawPrice_of body cur)).
Qed.

Lemma server_valid_id body cur isCreate v :
  Server.validateAndNormalizeItem body cur isCreate = Valid v ->
  n_id v = option_map id cur.
Proof.
  intros H. apply ServerFacts.server_validate_Valid in H.
  destruct H as (_ & _ & _ & _ & _ & _ & _ & _ & _ & _ & ->). reflexivity.
Qed.

Lemma strict_valid_stored_ok body cur isCreate v base :
  (forall it, cur = Some it -> stored_ok it) ->
  ServerStrict.validateAndNormalizeItem body cur isCreate
    = ServerStrict.Done (Valid v) ->
  stored_ok (spread base v) /\ alert_ok (spread base v).
Proof.
  intros Hcur H. apply StrictFacts.strict_validate_Valid in H.
  destruct H as (n & b & c & Ht & H).
  apply StrictFacts.strict_checked_Valid in H.
  destruct H as ((Hn & Hb & Hc) & (Fs & Ls) & (Fr & Lr) & (Fp & Lp) & _
                 & (Fa & La) & _ & ->).
  unfold ServerStrict.texts_of in Ht.
  destruct (ServerStrict.text_or (b_name body) (prop cur name))
    as [n'|] eqn:En; [|discriminate].
  destruct (ServerStrict.text_or (b_brand body) (prop cur brand))
    as [b'|] eqn:Eb; [|discriminate].
  destruct (ServerStrict.text_or (b_category body) (prop cur category))
    as [c'|] eqn:Ec; [|discriminate].
  inversion Ht; subst n' b' c'.
  unfold stored_ok, alert_ok, spread. cbn.
  refine (conj (conj _ (conj _ (conj _ (conj _ (conj _ _))))) _).
  - eapply strict_text_ok; [|exact En|exact Hn].
    intros it E. now apply (Hcur it E).
  - eapply strict_text_ok; [|exact Eb|exact Hb].
    intros it E. now apply (Hcur it E).
  - eapply strict_text_ok; [|exact Ec|exact Hc].
    intros it E. now apply (Hcur it E).
  - now apply finite_nonneg_intro.
  - now apply finite_nonneg_intro.
  - now apply finite_nonneg_intro.
  - now apply finite_nonneg_intro.
Qed.

Lemma strict_valid_id body cur isCreate v :
  ServerStrict.validateAndNormalizeItem body cur isCreate
    = ServerStrict.Done (Valid v) ->
  n_id v = option_map id cur.
Proof.
  intros H. apply StrictFacts.strict_validate_Valid in H.
  destruct H as (n & b & c & _ & H).
  apply StrictFacts.strict_checked_Valid in H.
  destruct H as (_ & _ & _ & _ & _ & _ & _ & ->). reflexivity.
Qed.

(** ** One request *)

Lemma server_handle_inv inventory r :
  server_inv inventory -> server_inv (fst (Server.handle inventory r)).
Proof.
  intros [Hi Hs]. destruct r as [q|body|p body|p]; simpl.
  - split; assumption.
  - unfold Server.post_item.
    destruct (Server.validateAndNormalizeItem body None true) as [e|v] eqn:Hv;
      simpl; [split; assumption|].
    split.
    + apply ids_ok_push; [|assumption].
      now rewrite (server_valid_id _ _ _ _ Hv).
    + apply Forall_app. split; [assumption|]. constructor; [|constructor].
      eapply server_valid_stored_ok; [|eassumption]. discriminate.
  - unfold Server.put_item.
    destruct (findIndex _ inventory) as [k|]; [|split; assumption].
    destruct (nth_error inventory k) as [cur|] eqn:Hk; [|split; assumption].
    destruct (Server.validateAndNormalizeItem body (Some cur) false)
      as [e|v] eqn:Hv; simpl; [split; assumption|].
    split.
    + apply ids_ok_assign; [assumption| |assumption].
      now rewrite (server_valid_id _ _ _ _ Hv).
    + apply assign_Forall; [assumption|].
      eapply server_valid_stored_ok; [|eassumption].
      intros it E. inversion E; subst it.
      rewrite Forall_forall in Hs. apply Hs.
      eapply nth_error_In; eassumption.
  - unfold Server.delete_item.
    match goal with |- context [if ?c then _ else _] => destruct c end;
      simpl; (split; [now apply ids_ok_filter|now apply filter_Forall]).
Qed.

Lemma strict_handle_inv inventory r :
  strict_inv inventory -> strict_inv (fst (ServerStrict.handle inventory r)).
Proof.
  intros (Hi & Hs & Ha). destruct r as [q|body|p body|p]; simpl.
  - unfold ServerStrict.get_items.
    match goal with |- context [if ?c then _ else _] => destruct c end;
      exact (conj Hi (conj Hs Ha)).
  - unfold ServerStrict.post_item.
    destruct (ServerStrict.validateAndNormalizeItem body None true)
      as [[e|v]|e] eqn:Hv; simpl; try exact (conj Hi (conj Hs Ha)).
    destruct (strict_valid_stored_ok body None true v (nextId inventory))
      as [S1 S2]; [discriminate|assumption|].
    refine (conj _ (conj _ _)).
    + apply ids_ok_push; [|assumption].
      now rewrite (strict_valid_id _ _ _ _ Hv).
    + apply Forall_app. split; [assumption|]. now constructor.
    + apply Forall_app. split; [assumption|]. now constructor.
  - unfold ServerStrict.put_item.
    destruct (findIndex _ inventory) as [k|]; [|exact (conj Hi (conj Hs Ha))].
    destruct (nth_error inventory k) as [cur|] eqn:Hk;
      [|exact (conj Hi (conj Hs Ha))].
    destruct (ServerStrict.validateAndNormalizeItem body (Some cur) false)
      as [[e|v]|e] eqn:Hv; simpl; try exact (conj Hi (conj Hs Ha)).
    destruct (strict_valid_stored_ok body (Some cur) false v (id cur))
      as [S1 S2]; [|assumption|].
    { intros it E. inversion E; subst it.
      rewrite Forall_forall in Hs. apply Hs.
      eapply nth_error_In; eassumption. }
    refine (conj _ (conj _ _)).
    + apply ids_ok_assign; [assumption| |assumption].
      now rewrite (strict_valid_id _ _ _ _ Hv).
    + now apply assign_Forall.
    + now apply assign_Forall.
  - unfold ServerStrict.delete_item.
    match goal with |- context [if ?c then _ else _] => destruct c end;
      simpl;
      (refine (conj _ (conj _ _));
       [now apply ids_ok_filter|now apply filter_Forall
        |now apply filter_Forall]).
Qed.

Lemma server_inventory0_inv : server_inv Server.inventory0.
Proof.
  split.
  - split.
    + simpl. repeat constructor; simpl; intuition discriminate.
    + repeat constructor; simpl; lia.
  - repeat constructor.
Qed.

Lemma strict_inventory0_inv : strict_inv ServerStrict.inventory0.
Proof.
  refine (conj (conj _ _) (conj _ _)).
  - simpl. repeat constructor; simpl; intuition discriminate.
  - repeat constructor; simpl; lia.
  - repeat constructor.
  - repeat constructor.
Qed.

Lemma server_reachable_inv inventory :
  Server.reachable inventory -> server_inv inventory.
Proof.
  induction 1; [apply server_inventory0_inv|now apply server_handle_inv].
Qed.

Lemma strict_reachable_inv inventory :
  ServerStrict.reachable inventory -> strict_inv inventory.
Proof.
  induction 1; [apply strict_inventory0_inv|now apply strict_handle_inv].
Qed.

End InvariantFacts.

Local Close Scope string_scope.

Module RouteFacts.
Import JS Shape Api NumFacts RoundFacts OrderFacts StoreFacts.
Import TextFacts ExactFacts InvariantFacts.

(** ** Identifiers in requests *)

Lemma id_is_exact k it :
  0 < k < 2 ^ 53 -> 0 < id it < 2 ^ 53 -> id_is (of_Z k) it = (id it =? k)%Z.
Proof. intros Hk Hi. unfold id_is. now apply strict_eq_of_Z. Qed.

Lemma ids_in_range inventory it :
  ids_ok inventory -> ids_exact inventory -> In it inventory ->
  0 < id it < 2 ^ 53.
Proof.
  intros [_ Hp] He Hin. unfold ids_exact in He.
  rewrite Forall_forall in Hp, He.
  specialize (Hp it Hin). specialize (He it Hin). simpl in *. lia.
Qed.

Lemma delete_filter inventory n k :
  (forall it, In it inventory -> id_is n it = (id it =? k)%Z) ->
  filter (fun i => negb (id_is n i)) inventory = without_id k inventory.
Proof.
  intros H. apply filter_ext_in. intros a Ha. now rewrite (H a Ha).
Qed.

Lemma without_id_split inventory it :
  NoDup (map id inventory) -> In it inventory ->
  exists before behind,
    inventory = (before ++ it :: behind)%list /\
    without_id (id it) inventory = (before ++ behind)%list.
Proof.
  intros Hn Hin. destruct (in_split _ _ Hin) as (l1 & l2 & ->).
  exists l1, l2. split; [reflexivity|].
  unfold without_id. rewrite filter_app. simpl. rewrite Z.eqb_refl. simpl.
  rewrite map_app in Hn. simpl in Hn. apply NoDup_remove in Hn.
  destruct Hn as [_ Hnot].
  f_equal; apply filter_all; intros x Hx; apply negb_true_iff, Z.eqb_neq;
    intros E; apply Hnot; rewrite <- E; apply in_or_app;
    [left|right]; now apply in_map.
Qed.

Lemma without_id_absent k inventory :
  forall it, In it (without_id k inventory) -> id it <> k.
Proof.
  intros it Hin. apply filter_In in Hin. destruct Hin as [_ H].
  apply negb_true_iff in H. now apply Z.eqb_neq.
Qed.

(** ** The checks, passed *)

Lemma server_accepts body cur isCreate :
  falsy_text (Server.name_of body cur) = false ->
  falsy_text (Server.brand_of body cur) = false ->
  falsy_text (Server.category_of body cur) = false ->
  finite_nonneg (Server.stock_of body cur) = true ->
  finite_nonneg (Server.rawPrice_of body cur) = true ->
  isFinite (Server.sellingPrice_of body cur) = true ->
  lt (Server.sellingPrice_of body cur) (Server.rawPrice_of body cur) = false ->
  isCreate && (Server.is_undefined (b_rawPrice body)
               || Server.is_undefined (b_sellingPrice body)) = false ->
  Server.validateAndNormalizeItem body cur isCreate
  = Valid {| n_id := option_map id cur;
             n_name := text (Server.name_of body cur);
             n_brand := text (Server.brand_of body cur);
             n_category := text (Server.category_of body cur);
             n_stock := Server.stock_of body cur;
             n_rawPrice := Server.rawPrice_of body cur;
             n_sellingPrice := Server.sellingPrice_of body cur;
             n_minStockAlert := Server.minStockAlert_of body cur |}.
Proof.
  intros Hn Hb Hc Hs Hr Hp Hl Hcr. unfold Server.validateAndNormalizeItem.
  unfold finite_nonneg in Hs, Hr. bools.
  rewrite Hn, Hb, Hc. cbn [orb].
  repeat match goal with H : isFinite _ = true |- _ => rewrite H; clear H end.
  repeat match goal with H : lt _ _ = false |- _ => rewrite H; clear H end.
  cbn [negb orb]. rewrite Hcr. reflexivity.
Qed.

Lemma strict_accepts body cur isCreate name brand category :
  falsy_text name = false -> falsy_text brand = false ->
  falsy_text category = false ->
  finite_nonneg (ServerStrict.stock_of body cur) = true ->
  finite_nonneg (ServerStrict.rawPrice_of body cur) = true ->
  finite_nonneg (ServerStrict.sellingPrice_of body cur) = true ->
  lt (ServerStrict.sellingPrice_of body cur)
     (ServerStrict.rawPrice_of body cur) = false ->
  finite_nonneg (ServerStrict.minStockAlert_of body cur) = true ->
  isCreate && (ServerStrict.is_undefined (b_rawPrice body)
               || (ServerStrict.is_undefined (b_sellingPrice body)
                   && ServerStrict.is_undefined (b_price body))) = false ->
  ServerStrict.checked body cur isCreate name brand category
  = Valid {| n_id := option_map id cur;
             n_name := text name; n_brand := text brand;
             n_category := text category;
             n_stock := ServerStrict.stock_of body cur;
             n_rawPrice := ServerStrict.rawPrice_of body cur;
             n_sellingPrice := ServerStrict.sellingPrice_of body cur;
             n_minStockAlert := ServerStrict.minStockAlert_of body cur |}.
Proof.
  intros Hn Hb Hc Hs Hr Hp Hl Ha Hcr. unfold ServerStrict.checked.
  unfold finite_nonneg in Hs, Hr, Hp, Ha. bools.
  rewrite Hn, Hb, Hc. cbn [orb].
  repeat match goal with H : isFinite _ = true |- _ => rewrite H; clear H end.
  repeat match goal with H : lt _ _ = false |- _ => rewrite H; clear H end.
  cbn [negb orb]. rewrite Hcr. reflexivity.
Qed.

(** ** Signs of differences *)

Lemma not_negative_lt x : not_negative x = true -> lt x pos_zero = false.
Proof. destruct x as [[]|[]| |[] m e]; simpl; try discriminate; reflexivity. Qed.

Lemma shr_fexp_nonneg m e l :
  0 <= m -> 0 <= shr_m (fst (shr_fexp prec emax m e l)).
Proof.
  intros Hm. unfold shr_fexp, shr.
  destruct (fexp prec emax (Zdigits2 m + e) - e) as [|n|n]; cbn [fst];
    rewrite ?shr_record_of_loc_m; try assumption.
  rewrite iter_shr_m by (rewrite shr_record_of_loc_m; assumption).
  rewrite shr_record_of_loc_m. apply Z.div_pos; [assumption|].
  apply Z.pow_pos_nonneg; lia.
Qed.

Lemma round_nearest_even_nonneg m l : 0 <= m -> 0 <= round_nearest_even m l.
Proof.
  intros H. destruct l as [|[]]; simpl; try lia.
  destruct (Z.even m); lia.
Qed.

Lemma binary_round_aux_number s m e l :
  0 <= m -> isNaN (binary_round_aux prec emax s m e l) = false.
Proof.
  intros Hm. unfold binary_round_aux.
  pose proof (shr_fexp_nonneg m e l Hm) as H1.
  destruct (shr_fexp prec emax m e l) as [mrs' e']. cbn [fst] in H1.
  pose proof (round_nearest_even_nonneg _ (loc_of_shr_record mrs') H1) as H2.
  pose proof (shr_fexp_nonneg _ e' loc_Exact H2) as H3.
  destruct (shr_fexp prec emax _ e' loc_Exact) as [mrs'' e'']. cbn [fst] in H3.
  destruct (shr_m mrs'') as [|p|p]; [reflexivity| |lia].
  destruct (e'' <=? emax - prec)%Z; reflexivity.
Qed.

Lemma binary_round_sign m e :
  not_negative (binary_round prec emax false m e) = true /\
  isNaN (binary_round prec emax false m e) = false.
Proof.
  unfold binary_round. destruct (shl_align m e _) as [mz ez]. split.
  - apply binary_round_aux_sign.
  - apply binary_round_aux_number. lia.
Qed.

(** The difference of two finite numbers is a number, and it is not below
    zero when the first operand is not below the second. *)
Lemma sub_not_below a b :
  isFinite a = true -> isFinite b = true -> lt a b = false ->
  lt (sub a b) pos_zero = false /\ isNaN (sub a b) = false.
Proof.
  destruct a as [sa|sa| |sa ma ea], b as [sb|sb| |sb mb eb];
    try discriminate; intros _ _.
  - destruct sa, sb; split; reflexivity.
  - destruct sb; [split; reflexivity|discriminate].
  - destruct sa; [discriminate|split; reflexivity].
  - unfold sub, SFsub, lt. cbv beta iota zeta delta [compare].
    destruct (shl_align_value ma ea (Z.min ea eb)) as [Va Sa].
    destruct (shl_align_value mb eb (Z.min ea eb)) as [Vb Sb].
    replace (cond_Zopp sa (Zpos (fst (shl_align ma ea (Z.min ea eb)))))
      with (aligned sa ma ea (Z.min ea eb)).
    2:{ unfold aligned, signed, cond_Zopp. rewrite Va, Sa.
        replace (Z.min ea (Z.min ea eb)) with (Z.min ea eb) by lia.
        destruct sa; [|reflexivity]. now rewrite <- Z.mul_opp_l. }
    replace (cond_Zopp sb (Zpos (fst (shl_align mb eb (Z.min ea eb)))))
      with (aligned sb mb eb (Z.min ea eb)).
    2:{ unfold aligned, signed, cond_Zopp. rewrite Vb, Sb.
        replace (Z.min eb (Z.min ea eb)) with (Z.min ea eb) by lia.
        destruct sb; [|reflexivity]. now rewrite <- Z.mul_opp_l. }
    unfold compare_finite.
    set (A := aligned sa ma ea (Z.min ea eb)).
    set (B := aligned sb mb eb (Z.min ea eb)).
    intros H.
    destruct (A - B) as [|p|p] eqn:HD; unfold binary_normalize.
    + split; reflexivity.
    + destruct (binary_round_sign p (Z.min ea eb)) as [H1 H2].
      split; [now apply not_negative_lt|exact H2].
    + exfalso.
      replace (A ?= B) with Lt in H
        by (symmetry; apply Z.compare_lt_iff; lia).
      discriminate.
Qed.

(** ** Text search *)

Lemma starts_with_refl s : Str.starts_with s s = true.
Proof.
  induction s as [|c s IH]; [reflexivity|].
  simpl. now rewrite Ascii.eqb_refl, IH.
Qed.

Lemma includes_refl s : Str.includes s s = true.
Proof. destruct s; simpl; [reflexivity|]. now rewrite Ascii.eqb_refl, starts_with_refl. Qed.

End RouteFacts.

Local Open Scope string_scope.

Module RequestFacts.
Import JS Shape Api NumFacts StoreFacts.
Import TextFacts ExactFacts InvariantFacts RouteFacts.

Lemma le_not_lt x y : le x y = true -> lt y x = false.
Proof.
  unfold le, lt. rewrite (compare_antisym x y).
  destruct (compare x y) as [[]|]; simpl; congruence.
Qed.

Lemma findIndex_known {A} (p : A -> bool) l :
  (exists x, In x l /\ p x = true) ->
  exists k x, findIndex p l = Some k /\ nth_error l k = Some x /\ p x = true.
Proof.
  intros (x & Hin & Hp).
  destruct (findIndex p l) as [k|] eqn:E.
  - destruct (findIndex_Some _ _ _ E) as (y & Hy & Hpy). eauto.
  - rewrite findIndex_None in E. rewrite (E x Hin) in Hp. discriminate.
Qed.

(** ** [null] in the first server *)

Lemma server_name_nulls body cur :
  Server.name_of (without_nulls body) cur = Server.name_of body cur.
Proof. unfold Server.name_of. simpl. now destruct (b_name body). Qed.

Lemma server_brand_nulls body cur :
  Server.brand_of (without_nulls body) cur = Server.brand_of body cur.
Proof. unfold Server.brand_of. simpl. now destruct (b_brand body). Qed.

Lemma server_category_nulls body cur :
  Server.category_of (without_nulls body) cur = Server.category_of body cur.
Proof. unfold Server.category_of. simpl. now destruct (b_category body). Qed.

Lemma server_stock_nulls body cur :
  Server.stock_of (without_nulls body) cur = Server.stock_of body cur.
Proof. unfold Server.stock_of. simpl. now destruct (b_stock body). Qed.

Lemma server_rawPrice_nulls body cur :
  Server.rawPrice_of (without_nulls body) cur = Server.rawPrice_of body cur.
Proof. unfold Server.rawPrice_of. simpl. now destruct (b_rawPrice body). Qed.

Lemma server_sellingPrice_nulls body cur :
  Server.sellingPrice_of (without_nulls body) cur
  = Server.sellingPrice_of body cur.
Proof.
  unfold Server.sellingPrice_of. simpl.
  now destruct (b_sellingPrice body), (b_price body).
Qed.

Lemma server_minStockAlert_nulls body cur :
  Server.minStockAlert_of (without_nulls body) cur
  = Server.minStockAlert_of body cur.
Proof.
  unfold Server.minStockAlert_of. simpl. now destruct (b_minStockAlert body).
Qed.

Lemma server_update_nulls body cur :
  Server.validateAndNormalizeItem (without_nulls body) cur false
  = Server.validateAndNormalizeItem body cur false.
Proof.
  unfold Server.validateAndNormalizeItem.
  now rewrite server_name_nulls, server_brand_nulls, server_category_nulls,
    server_stock_nulls, server_rawPrice_nulls, server_sellingPrice_nulls,
    server_minStockAlert_nulls.
Qed.

(** ** Texts that are missing or blank *)






Lemma strict_null_throws body cur isCreate :
  b_name body = Null \/ b_brand body = Null \/ b_category body = Null ->
  ServerStrict.validateAndNormalizeItem body cur isCreate
  = ServerStrict.Thrown ServerStrict.type_error.
Proof.
  unfold ServerStrict.validateAndNormalizeItem, ServerStrict.texts_of,
    ServerStrict.text_or.
  intros [H|[H|H]]; rewrite H.
  - reflexivity.
  - destruct (b_name body); reflexivity.
  - destruct (b_name body); try reflexivity;
      destruct (b_brand body); reflexivity.
Qed.

End RequestFacts.

Module UpdateFacts.
Import JS Shape Api NumFacts StoreFacts.
Import TextFacts ExactFacts InvariantFacts RouteFacts RequestFacts.

Lemma filter_length_eq {A} (p : A -> bool) l :
  List.length (filter p l) = List.length l -> filter p l = l.
Proof.
  induction l as [|x r IH]; simpl; [reflexivity|].
  destruct (p x); simpl; intros H.
  - f_equal. apply IH. lia.
  - pose proof (filter_length_le p r). lia.
Qed.

Lemma assign_same {A} (l : list A) k x :
  nth_error l k = Some x -> assign l k x = l.
Proof.
  revert k. induction l as [|y r IH]; intros [|k]; simpl; try discriminate.
  - intros H. now inversion H.
  - intros H. f_equal. now apply IH.
Qed.

Lemma assign_assign {A} (l : list A) k x y :
  assign (assign l k x) k y = assign l k y.
Proof.
  revert k. induction l as [|z r IH]; intros [|k]; simpl; try reflexivity.
  f_equal. apply IH.
Qed.

Lemma findIndex_assign {A} (p : A -> bool) l k x y :
  nth_error l k = Some x -> p y = p x ->
  findIndex p (assign l k y) = findIndex p l.
Proof.
  revert k. induction l as [|z r IH]; intros [|k]; simpl; try discriminate.
  - intros H E. inversion H; subst. now rewrite E.
  - intros H E. now rewrite (IH k H E).
Qed.

(** ** Validating again after an update *)

Lemma server_again body cur v :
  Server.validateAndNormalizeItem body (Some cur) false = Valid v ->
  Server.validateAndNormalizeItem body (Some (spread (id cur) v)) false
  = Valid v.
Proof.
  intros H. pose proof H as H0. apply ServerFacts.server_validate_Valid in H.
  destruct H as (_ & _ & _ & _ & _ & _ & _ & _ & _ & _ & E).
  rewrite <- H0. unfold Server.validateAndNormalizeItem.
  assert (E1 : Server.name_of body (Some (spread (id cur) v))
               = Server.name_of body (Some cur)).
  { subst v. unfold Server.name_of. now destruct (b_name body). }
  assert (E2 : Server.brand_of body (Some (spread (id cur) v))
               = Server.brand_of body (Some cur)).
  { subst v. unfold Server.brand_of. now destruct (b_brand body). }
  assert (E3 : Server.category_of body (Some (spread (id cur) v))
               = Server.category_of body (Some cur)).
  { subst v. unfold Server.category_of. now destruct (b_category body). }
  assert (E4 : Server.stock_of body (Some (spread (id cur) v))
               = Server.stock_of body (Some cur)).
  { subst v. unfold Server.stock_of. now destruct (b_stock body). }
  assert (E5 : Server.rawPrice_of body (Some (spread (id cur) v))
               = Server.rawPrice_of body (Some cur)).
  { subst v. unfold Server.rawPrice_of. now destruct (b_rawPrice body). }
  assert (E6 : Server.sellingPrice_of body (Some (spread (id cur) v))
               = Server.sellingPrice_of body (Some cur)).
  { subst v. unfold Server.sellingPrice_of.
    now destruct (b_sellingPrice body), (b_price body). }
  assert (E7 : Server.minStockAlert_of body (Some (spread (id cur) v))
               = Server.minStockAlert_of body (Some cur)).
  { subst v. unfold Server.minStockAlert_of.
    now destruct (b_minStockAlert body). }
  rewrite E1, E2, E3, E4, E5, E6, E7.
  replace (option_map id (Some (spread (id cur) v)))
    with (option_map id (Some cur)); [reflexivity|].
  subst v. reflexivity.
Qed.

Lemma strict_again body cur v :
  ServerStrict.validateAndNormalizeItem body (Some cur) false
    = ServerStrict.Done (Valid v) ->
  ServerStrict.validateAndNormalizeItem body (Some (spread (id cur) v)) false
  = ServerStrict.Done (Valid v).
Proof.
  intros H. pose proof H as H0.
  apply StrictFacts.strict_validate_Valid in H.
  destruct H as (n & b & c & Ht & H).
  apply StrictFacts.strict_checked_Valid in H.
  destruct H as (_ & _ & _ & _ & _ & _ & _ & E).
  rewrite <- H0. unfold ServerStrict.validateAndNormalizeItem.
  assert (T : ServerStrict.texts_of body (Some (spread (id cur) v))
              = ServerStrict.texts_of body (Some cur)).
  { rewrite Ht. subst v. unfold ServerStrict.texts_of in *.
    destruct (b_name body); simpl in *; try discriminate;
      destruct (b_brand body); simpl in *; try discriminate;
      destruct (b_category body); simpl in *; try discriminate;
      inversion Ht; subst; reflexivity. }
  rewrite T, Ht. f_equal. unfold ServerStrict.checked.
  assert (E4 : ServerStrict.stock_of body (Some (spread (id cur) v))
               = ServerStrict.stock_of body (Some cur)).
  { subst v. unfold ServerStrict.stock_of, ServerStrict.stockSource.
    now destruct (b_stock body). }
  assert (E5 : ServerStrict.rawPrice_of body (Some (spread (id cur) v))
               = ServerStrict.rawPrice_of body (Some cur)).
  { subst v. unfold ServerStrict.rawPrice_of, ServerStrict.rawPriceSource.
    now destruct (b_rawPrice body). }
  assert (E6 : ServerStrict.sellingPrice_of body (Some (spread (id cur) v))
               = ServerStrict.sellingPrice_of body (Some cur)).
  { subst v.
    unfold ServerStrict.sellingPrice_of, ServerStrict.sellingPriceSource.
    now destruct (b_sellingPrice body), (b_price body). }
  assert (E7 : ServerStrict.minStockAlert_of body (Some (spread (id cur) v))
               = ServerStrict.minStockAlert_of body (Some cur)).
  { subst v.
    unfold ServerStrict.minStockAlert_of, ServerStrict.minStockAlertSource.
    now destruct (b_minStockAlert body). }
  rewrite E4, E5, E6, E7.
  replace (option_map id (Some (spread (id cur) v)))
    with (option_map id (Some cur)); [reflexivity|].
  subst v. reflexivity.
Qed.

Lemma spread_id base v i : n_id v = Some i -> id (spread base v) = i.
Proof. unfold spread. now intros ->. Qed.

End UpdateFacts.

Local Close Scope string_scope.

Module OrdinaryFacts.
Import JS Shape NumFacts RoundFacts OrderFacts RouteFacts.

Lemma ordinary_regular x : ordinary x -> regular (unsigned_zero x).
Proof. destruct x as [[]|[]| |[] m e]; simpl; auto. Qed.

Lemma regular_ordinary x : regular x -> ordinary x.
Proof. destruct x as [[]|[]| |[] m e]; simpl; auto. Qed.

Lemma summand_ordinary x : summand x -> ordinary x.
Proof. destruct x as [[]|[]| |[] m e]; simpl; auto. Qed.

Lemma ordinary_not_NaN x : ordinary x -> isNaN x = false.
Proof. destruct x; simpl; intros H; auto; destruct H. Qed.

Lemma compare_unsigned_l x y : compare (unsigned_zero x) y = compare x y.
Proof. destruct x as [[]|[]| |[] m e], y as [[]|[]| |[] m' e']; reflexivity. Qed.

Lemma compare_unsigned_r x y : compare x (unsigned_zero y) = compare x y.
Proof. destruct x as [[]|[]| |[] m e], y as [[]|[]| |[] m' e']; reflexivity. Qed.

Lemma le_unsigned x y : le (unsigned_zero x) (unsigned_zero y) = le x y.
Proof. unfold le. now rewrite compare_unsigned_l, compare_unsigned_r. Qed.

Lemma lt_unsigned x y : lt (unsigned_zero x) (unsigned_zero y) = lt x y.
Proof. unfold lt. now rewrite compare_unsigned_l, compare_unsigned_r. Qed.

Lemma sub_unsigned a b :
  gt (sub (unsigned_zero b) (unsigned_zero a)) pos_zero
  = gt (sub b a) pos_zero.
Proof.
  destruct a as [[]|[]| |[] ma ea], b as [[]|[]| |[] mb eb]; reflexivity.
Qed.

(** [<=] is transitive on ordinary numbers. *)
Lemma ord_le_trans x y z :
  ordinary x -> ordinary y -> ordinary z ->
  le x y = true -> le y z = true -> le x z = true.
Proof.
  intros Hx Hy Hz. rewrite <- (le_unsigned x y), <- (le_unsigned y z),
    <- (le_unsigned x z).
  apply num_le_trans; now apply ordinary_regular.
Qed.

(** The sign of a difference of ordinary numbers tells which is larger. *)
Lemma ord_sub_positive a b :
  ordinary a -> ordinary b -> gt (sub b a) pos_zero = lt a b.
Proof.
  intros Ha Hb. rewrite <- sub_unsigned, <- lt_unsigned.
  apply sub_positive; now apply ordinary_regular.
Qed.

(** ** Products *)

Lemma shr_fexp_exponent m e l : emin <= snd (shr_fexp prec emax m e l).
Proof.
  unfold shr_fexp, shr.
  pose proof (fexp_ge_emin (Zdigits2 m + e)) as H.
  destruct (fexp prec emax (Zdigits2 m + e) - e) as [|n|n] eqn:Hn;
    cbn [snd]; lia.
Qed.

Lemma binary_round_aux_ordinary s m e l :
  0 <= m -> ordinary (binary_round_aux prec emax s m e l).
Proof.
  intros Hm. pose proof (binary_round_aux_number s m e l Hm) as Hnan.
  unfold binary_round_aux in *.
  destruct (shr_fexp prec emax m e l) as [mrs' e'].
  pose proof (shr_fexp_exponent
                (round_nearest_even (shr_m mrs') (loc_of_shr_record mrs'))
                e' loc_Exact) as He.
  destruct (shr_fexp prec emax _ e' loc_Exact) as [mrs'' e'']. cbn [snd] in He.
  destruct (shr_m mrs'') as [|p|p]; [exact I| |discriminate].
  destruct (e'' <=? emax - prec); [exact He|exact I].
Qed.

Lemma mul_ordinary a b :
  isFinite a = true -> isFinite b = true -> ordinary (mul a b).
Proof.
  destruct a as [sa|sa| |sa ma ea], b as [sb|sb| |sb mb eb];
    try discriminate; intros _ _; try exact I.
  unfold mul, SFmul. apply binary_round_aux_ordinary. lia.
Qed.

Lemma sub_ordinary a b : ordinary a -> ordinary b ->
  isFinite a = true -> isFinite b = true -> ordinary (sub a b).
Proof.
  destruct a as [sa|sa| |sa ma ea], b as [sb|sb| |sb mb eb];
    try discriminate; intros Ha Hb _ _; simpl in Ha, Hb.
  - destruct sa, sb; exact I.
  - exact Hb.
  - exact Ha.
  - unfold sub, SFsub. cbv zeta. apply regular_ordinary.
    apply binary_normalize_regular. lia.
Qed.

End OrdinaryFacts.

Local Open Scope string_scope.

Local Close Scope string_scope.

Module FiniteFacts.
Import JS Shape NumFacts RoundFacts OrderFacts.
Import RouteFacts.

Lemma digits2_le m k : 0 <= m -> 0 <= k -> m < 2 ^ k -> Zdigits2 m <= k.
Proof.
  intros Hm Hk H. destruct m as [|p|p]; [simpl; lia| |lia].
  cbn [Zdigits2]. pose proof (digits2_bounds p) as [Bl _].
  destruct (Z.le_gt_cases (Zpos (digits2_pos p)) k) as [L|G]; [exact L|].
  assert (2 ^ k <= 2 ^ (Zpos (digits2_pos p) - 1))
    by (apply Z.pow_le_mono_r; lia).
  lia.
Qed.

Lemma digits2_lt m : 0 <= m -> m < 2 ^ Zdigits2 m.
Proof.
  intros Hm. destruct m as [|p|p]; [reflexivity| |lia].
  apply digits2_bounds.
Qed.

Lemma round_nearest_even_le m l : round_nearest_even m l <= m + 1.
Proof. destruct l as [|[]]; simpl; try lia. destruct (Z.even m); lia. Qed.

(** What the first shift of a rounding leaves: a mantissa of at most
    [prec] digits, at an exponent that stays within the range as long as
    the value does. *)
Lemma shr_fexp_bounds m e l :
  0 <= m -> e <= emax - prec ->
  m < (2 ^ prec - 1) * 2 ^ (emax - prec - e) ->
  let '(mrs, e') := shr_fexp prec emax m e l in
  0 <= shr_m mrs /\ shr_m mrs < 2 ^ prec /\ e' <= emax - prec /\
  (e' = emax - prec -> shr_m mrs < 2 ^ prec - 1).
Proof.
  intros Hm He Hb. unfold shr_fexp, shr.
  pose proof (digits2_lt m Hm) as Hd.
  assert (P : 0 < 2 ^ (emax - prec - e)) by (apply Z.pow_pos_nonneg; lia).
  assert (Hdig : Zdigits2 m <= prec + (emax - prec - e)).
  { apply digits2_le; [assumption|unfold prec, emax in *; lia|].
    rewrite Z.pow_add_r by (unfold prec, emax in *; lia).
    assert (2 ^ prec - 1 < 2 ^ prec) by lia. nia. }
  assert (D0 : 0 <= Zdigits2 m) by (destruct m; simpl; lia).
  set (d := Zdigits2 m) in *.
  destruct (fexp prec emax (d + e) - e) as [|n|n] eqn:Hn; cbn [fst snd].
  - rewrite shr_record_of_loc_m. split; [assumption|].
    assert (Hp : d <= prec) by (unfold fexp in Hn; lia).
    split.
    + apply Z.lt_le_trans with (2 ^ d); [assumption|].
      apply Z.pow_le_mono_r; lia.
    + split; [assumption|]. intros ->.
      replace (emax - prec - (emax - prec)) with 0 in Hb by lia.
      rewrite Z.pow_0_r, Z.mul_1_r in Hb. exact Hb.
  - rewrite iter_shr_m by (rewrite shr_record_of_loc_m; assumption).
    rewrite shr_record_of_loc_m.
    assert (Pn : 0 < 2 ^ Zpos n) by (apply Z.pow_pos_nonneg; lia).
    assert (Hf : fexp prec emax (d + e) = e + Zpos n) by lia.
    assert (Hle : e + Zpos n <= emax - prec).
    { rewrite <- Hf. unfold fexp, SpecFloat.emin, prec, emax in *. lia. }
    split; [apply Z.div_pos; lia|]. split.
    + apply Z.div_lt_upper_bound; [assumption|].
      rewrite <- Z.pow_add_r by (unfold prec; lia).
      apply Z.lt_le_trans with (2 ^ d); [assumption|].
      apply Z.pow_le_mono_r; [lia|].
      unfold fexp in Hf. lia.
    + split; [assumption|]. intros E.
      apply Z.div_lt_upper_bound; [assumption|].
      replace (emax - prec - e) with (Zpos n) in Hb by lia. lia.
  - rewrite shr_record_of_loc_m. split; [assumption|].
    assert (Hp : d <= prec) by (unfold fexp in Hn; lia).
    split.
    + apply Z.lt_le_trans with (2 ^ d); [assumption|].
      apply Z.pow_le_mono_r; lia.
    + split; [assumption|]. intros ->.
      replace (emax - prec - (emax - prec)) with 0 in Hb by lia.
      rewrite Z.pow_0_r, Z.mul_1_r in Hb. exact Hb.
Qed.

(** Rounding a value below the largest binary64 number gives a finite
    number. *)
Lemma binary_round_aux_finite s m e l :
  0 <= m -> e <= emax - prec ->
  m < (2 ^ prec - 1) * 2 ^ (emax - prec - e) ->
  isFinite (binary_round_aux prec emax s m e l) = true.
Proof.
  intros Hm He Hb. pose proof (shr_fexp_bounds m e l Hm He Hb) as H1.
  unfold binary_round_aux.
  destruct (shr_fexp prec emax m e l) as [mrs' e'].
  destruct H1 as (M0 & M1 & E1 & E2).
  set (m2 := round_nearest_even (shr_m mrs') (loc_of_shr_record mrs')).
  assert (N0 : 0 <= m2) by (apply round_nearest_even_nonneg; assumption).
  assert (N1 : m2 <= shr_m mrs' + 1) by apply round_nearest_even_le.
  pose proof (shr_fexp_nonneg m2 e' loc_Exact N0) as H3.
  assert (H4 : snd (shr_fexp prec emax m2 e' loc_Exact) <= emax - prec).
  { unfold shr_fexp, shr.
    destruct (fexp prec emax (Zdigits2 m2 + e') - e') as [|n|n] eqn:Hn;
      cbn [snd]; try assumption.
    assert (Hdig : Zdigits2 m2 + e' - prec <= emax - prec).
    { destruct (Z.eq_dec e' (emax - prec)) as [E|E].
      - specialize (E2 E).
        assert (Zdigits2 m2 <= prec)
          by (apply digits2_le; [assumption|unfold prec; lia|lia]).
        lia.
      - assert (Zdigits2 m2 <= prec + 1).
        { apply digits2_le; [assumption|unfold prec; lia|].
          rewrite Z.pow_add_r by (unfold prec; lia). simpl (2 ^ 1). lia. }
        lia. }
    unfold fexp, SpecFloat.emin, prec, emax in *. lia. }
  destruct (shr_fexp prec emax m2 e' loc_Exact) as [mrs'' e''].
  cbn [fst snd] in H3, H4.
  destruct (shr_m mrs'') as [|p|p]; [reflexivity| |lia].
  apply Z.leb_le in H4. now rewrite H4.
Qed.

(** The difference of a binary64 value and a smaller one that is not
    negative is finite. *)
Lemma sub_finite a b :
  valid_binary prec emax a = true ->
  isFinite a = true -> isFinite b = true ->
  lt b pos_zero = false -> lt a b = false ->
  isFinite (sub a b) = true.
Proof.
  destruct a as [sa|sa| |sa ma ea], b as [sb|sb| |sb mb eb];
    try discriminate; intros Hv _ _ Hb Hab.
  - destruct sa, sb; reflexivity.
  - destruct sb; discriminate.
  - reflexivity.
  - destruct sb; [discriminate|].
    unfold lt in Hab. cbv beta iota zeta delta [compare] in Hab.
    destruct sa; [now rewrite compare_finite_signs in Hab|].
    cbn [valid_binary] in Hv. pose proof (canonical_digits ma ea Hv) as Hc.
    unfold bounded in Hv. apply andb_true_iff in Hv.
    destruct Hv as [_ Hea]. apply Z.leb_le in Hea.
    unfold compare_finite in Hab.
    unfold sub, SFsub. cbv zeta. cbn [cond_Zopp].
    destruct (shl_align_value ma ea (Z.min ea eb)) as [Va Sa].
    destruct (shl_align_value mb eb (Z.min ea eb)) as [Vb Sb].
    replace (snd (shl_align ma ea (Z.min ea eb))) with (Z.min ea eb) in Va
      by lia.
    replace (snd (shl_align mb eb (Z.min ea eb))) with (Z.min ea eb) in Vb
      by lia.
    assert (Hez' : Z.min ea eb <= ea) by lia.
    set (ez := Z.min ea eb) in *.
    set (A := Zpos (fst (shl_align ma ea ez))) in *.
    set (B := Zpos (fst (shl_align mb eb ez))) in *.
    assert (HB : 0 < B) by (unfold B; lia).
    assert (HAB : B <= A).
    { unfold aligned, signed in Hab. rewrite <- Va, <- Vb in Hab.
      destruct (Z.compare_spec A B) as [E|L|G]; try discriminate; lia. }
    destruct (A - B) as [|p|p] eqn:HD; unfold binary_normalize;
      [reflexivity| |lia].
    unfold binary_round.
    destruct (shl_align_value p ez
                (fexp prec emax (Zpos (digits2_pos p) + ez))) as [Vp Sp].
    destruct (shl_align p ez (fexp prec emax (Zpos (digits2_pos p) + ez)))
      as [mz e0].
    cbn [fst snd] in Vp, Sp.
    assert (He0 : e0 <= ez) by lia.
    apply binary_round_aux_finite; [lia|lia|].
    rewrite Vp.
    assert (Hma : Zpos ma < 2 ^ prec).
    { pose proof (digits2_bounds ma) as [_ Bu].
      apply Z.lt_le_trans with (2 ^ Zpos (digits2_pos ma)); [assumption|].
      apply Z.pow_le_mono_r; lia. }
    assert (Hp : Zpos p < Zpos ma * 2 ^ (ea - ez)) by lia.
    assert (P1 : 0 < 2 ^ (ez - e0)) by (apply Z.pow_pos_nonneg; lia).
    assert (P2 : 0 < 2 ^ (ea - ez)) by (apply Z.pow_pos_nonneg; lia).
    assert (P3 : 0 < 2 ^ (emax - prec - ea)) by (apply Z.pow_pos_nonneg; lia).
    replace (emax - prec - e0)
      with ((emax - prec - ea) + ((ea - ez) + (ez - e0))) by lia.
    rewrite !Z.pow_add_r by lia.
    assert (Zpos p * 2 ^ (ez - e0)
            < Zpos ma * 2 ^ (ea - ez) * 2 ^ (ez - e0)) by nia.
    assert (Zpos ma * (2 ^ (ea - ez) * 2 ^ (ez - e0))
            <= (2 ^ prec - 1) * (2 ^ (ea - ez) * 2 ^ (ez - e0))) by nia.
    assert (0 < 2 ^ (ea - ez) * 2 ^ (ez - e0)) by nia.
    nia.
Qed.

End FiniteFacts.

Local Open Scope string_scope.

Module DashFacts.
Import JS Shape NumFacts OrderFacts App Dashboard.
Import ObjFacts AppFacts GroupFacts RouteFacts OrdinaryFacts.

(** ** Lists *)




Lemma sorted_app_inv {A} (R : A -> A -> Prop) l1 l2 :
  StronglySorted R (l1 ++ l2)%list ->
  StronglySorted R l1 /\ forall a b, In a l1 -> In b l2 -> R a b.
Proof.
  induction l1 as [|x r IH]; simpl; intros H.
  - split; [constructor|]. intros a b [].
  - inversion H as [|? ? Hs Hx]; subst. destruct (IH Hs) as [S1 S2].
    rewrite Forall_forall in Hx. split.
    + constructor; [assumption|]. rewrite Forall_forall.
      intros y Hy. apply Hx. apply in_or_app. now left.
    + intros a b [<-|Ha] Hb.
      * apply Hx. apply in_or_app. now right.
      * now apply S2.
Qed.

(** ** Sorting by a numeric key *)

Section Keys.
Context {A : Type} (key : A -> number).

Lemma sort_descending l :
  Forall (fun x => ordinary (key x)) l ->
  StronglySorted (fun a b => ge (key a) (key b) = true)
                 (Obj.sort (fun a b => sub (key b) (key a)) l).
Proof.
  apply (sort_sorted _ (fun x => ordinary (key x))).
  - intros x y Hx Hy Hc. rewrite ord_sub_positive in Hc by assumption.
    unfold ge. apply lt_false_le; auto using ordinary_not_NaN.
  - intros x y Hx Hy Hc. rewrite ord_sub_positive in Hc by assumption.
    unfold ge. now apply num_lt_le.
  - intros x y z Hx Hy Hz Hxy Hyz. unfold ge in *.
    apply (ord_le_trans (key z) (key y) (key x)); auto.
Qed.

Lemma sort_ascending l :
  Forall (fun x => ordinary (key x)) l ->
  StronglySorted (fun a b => le (key a) (key b) = true)
                 (Obj.sort (fun a b => sub (key a) (key b)) l).
Proof.
  apply (sort_sorted _ (fun x => ordinary (key x))).
  - intros x y Hx Hy Hc. rewrite ord_sub_positive in Hc by assumption.
    apply lt_false_le; auto using ordinary_not_NaN.
  - intros x y Hx Hy Hc. rewrite ord_sub_positive in Hc by assumption.
    now apply num_lt_le.
  - intros x y z Hx Hy Hz Hxy Hyz.
    apply (ord_le_trans (key x) (key y) (key z)); auto.
Qed.

Lemma firstn_largest k l :
  Forall (fun x => ordinary (key x)) l ->
  largest key k l (firstn k (Obj.sort (fun a b => sub (key b) (key a)) l)).
Proof.
  intros Hl.
  set (sorted := Obj.sort (fun a b => sub (key b) (key a)) l).
  exists (skipn k sorted).
  pose proof (sort_descending l Hl) as Hs. fold sorted in Hs.
  rewrite <- (firstn_skipn k sorted) in Hs.
  destruct (sorted_app_inv _ _ _ Hs) as [S1 S2].
  split; [|split; [|split]].
  - rewrite firstn_skipn. apply sort_perm.
  - rewrite length_firstn. f_equal.
    apply Permutation_length. apply sort_perm.
  - exact S1.
  - exact S2.
Qed.

End Keys.

(** ** The numbers of an item *)

Lemma is_number_or v d :
  is_number v -> summand d -> isFinite d = true ->
  summand (number_or v d) /\ isFinite (number_or v d) = true.
Proof.
  destruct v as [| |x]; simpl; intros H Hd Fd; try (split; assumption).
  destruct H as [H1 H2]. split; [now apply valid_summand|assumption].
Qed.

Lemma sellingPriceOf_number item :
  numbers_ok item ->
  summand (sellingPriceOf item) /\ isFinite (sellingPriceOf item) = true.
Proof.
  intros (_ & _ & Hs & Hp & _). unfold sellingPriceOf.
  apply is_number_or; [|exact I|reflexivity].
  destruct (sellingPrice item); simpl; assumption.
Qed.

Lemma rawPriceOf_number item :
  numbers_ok item ->
  summand (rawPriceOf item) /\ isFinite (rawPriceOf item) = true.
Proof.
  intros (_ & Hr & _). unfold rawPriceOf.
  apply is_number_or; [assumption|exact I|reflexivity].
Qed.

Lemma stock_number item :
  numbers_ok item ->
  summand (Number (stock item)) /\ isFinite (Number (stock item)) = true.
Proof.
  intros ([H1 H2] & _). split; [now apply valid_summand|assumption].
Qed.

Lemma valued_ordinary item : numbers_ok item -> ordinary (v_value (valued item)).
Proof.
  intros H. simpl. apply mul_ordinary.
  - apply (stock_number item H).
  - apply (sellingPriceOf_number item H).
Qed.

Lemma profit_ordinary item :
  numbers_ok item -> ordinary (profitPerUnit (profit_row item)).
Proof.
  intros H. simpl. unfold profitPerUnitOf.
  destruct (sellingPriceOf_number item H) as [S1 S2].
  destruct (rawPriceOf_number item H) as [R1 R2].
  destruct H as (_ & _ & _ & _ & Hf & _).
  destruct (profit item) as [| |x]; simpl.
  - apply sub_ordinary; auto using summand_ordinary.
  - apply sub_ordinary; auto using summand_ordinary.
  - destruct Hf as [H1 H2]. apply summand_ordinary. now apply valid_summand.
Qed.

(** ** Stock states *)







End DashFacts.

Module ScreenFacts.
Import JS Shape NumFacts App Screen.
Import AppFacts.

Lemma filteri_from_all {A} (l : list A) k index :
  (index < k)%nat ->
  filteri_from k (fun _ entryIndex => negb (Nat.eqb entryIndex index)) l = l.
Proof.
  revert k. induction l as [|x r IH]; intros k Hk; simpl; [reflexivity|].
  destruct (Nat.eqb_spec k index) as [E|E]; [lia|]. simpl.
  f_equal. apply IH. lia.
Qed.

(** Filtering out one position drops the element at that position. *)
Lemma filteri_from_drop {A} (l : list A) k index :
  filteri_from k (fun _ entryIndex => negb (Nat.eqb entryIndex (k + index))) l
  = (firstn index l ++ skipn (S index) l)%list.
Proof.
  revert k index. induction l as [|x r IH]; intros k index; simpl.
  - now destruct index.
  - destruct index as [|index].
    + rewrite Nat.add_0_r, Nat.eqb_refl. simpl.
      apply filteri_from_all. lia.
    + destruct (Nat.eqb_spec k (k + S index)) as [E|E]; [lia|]. simpl.
      f_equal. replace (k + S index)%nat with (S k + index)%nat by lia.
      apply IH.
Qed.

Lemma positive_is_truthy q :
  isFinite q = true -> le q pos_zero = false -> truthy q = true.
Proof. destruct q as [[]|[]| |[] m e]; simpl; try discriminate; reflexivity. Qed.

(** ** Loading the list *)

Lemma loadItems_keeps backend st srv query :
  let '(st', srv', effects) := App.loadItems backend st srv query in
  salesLog st' = salesLog st /\ saleForm st' = saleForm st /\
  isSaleModalOpen st' = isSaleModalOpen st /\ search st' = search st /\
  loading st' = false /\
  effects = [Fetched (Api.GET_items
                        (if Str.is_empty query then None else Some query))] /\
  (srv', snd (backend srv (Api.GET_items
                             (if Str.is_empty query then None
                              else Some query))))
  = backend srv (Api.GET_items
                   (if Str.is_empty query then None else Some query)).
Proof.
  unfold App.loadItems.
  destruct (backend srv _) as [srv' [status p|e]]; cbn.
  - destruct p; destruct (ok status); cbn; repeat split; reflexivity.
  - repeat split; reflexivity.
Qed.

End ScreenFacts.

Module FormFacts.
Import JS Shape NumFacts Api.
Import TextFacts InvariantFacts RouteFacts RequestFacts OrdinaryFacts.
Import ScreenFacts.
Import App Screen.

Lemma check_passed x :
  negb (isFinite x) || lt x pos_zero = false -> finite_nonneg x = true.
Proof.
  intros H. apply orb_false_iff in H. destruct H as [H1 H2].
  apply negb_false_iff in H1. unfold finite_nonneg. now rewrite H1, H2.
Qed.

Lemma finite_nonneg_unsigned x :
  finite_nonneg (unsigned_zero x) = finite_nonneg x.
Proof. destruct x as [[]|[]| |[] m e]; reflexivity. Qed.

Lemma json_scalar_finite x :
  finite_nonneg x = true -> json_scalar x = Given (SNum (unsigned_zero x)).
Proof. destruct x as [[]|[]| |[] m e]; try discriminate; reflexivity. Qed.

Lemma text_ok_trimmed s : Str.is_empty (Str.trim s) = false -> text_ok (Str.trim s).
Proof. apply text_ok_trim. Qed.

(** ** What the checks establish *)

Lemma rejection_None st :
  rejection st = None ->
  text_ok (p_brand (payload_of (form st))) /\
  text_ok (p_category (payload_of (form st))) /\
  (isEditing st = false -> allowMultipleNames st = true ->
   multiEntries st <> [] /\
   Forall (fun e => finite_nonneg (e_stock e) = true) (multiEntries st)) /\
  (isEditing st = false -> allowMultipleNames st = false ->
   Str.is_empty (Str.trim (f_name (form st))) = false) /\
  (allowMultipleNames st = false \/ isEditing st = true ->
   finite_nonneg (p_stock (payload_of (form st))) = true) /\
  finite_nonneg (p_rawPrice (payload_of (form st))) = true /\
  finite_nonneg (p_sellingPrice (payload_of (form st))) = true /\
  lt (p_sellingPrice (payload_of (form st)))
     (p_rawPrice (payload_of (form st))) = false /\
  finite_nonneg (p_minStockAlert (payload_of (form st))) = true.
Proof.
  unfold rejection. cbv zeta. intros H.
  match type of H with (if ?c then _ else _) = None =>
    destruct c eqn:C1; [discriminate|] end.
  match type of H with (if ?c then _ else _) = None =>
    destruct c eqn:C2; [discriminate|] end.
  match type of H with (if ?c then _ else _) = None =>
    destruct c eqn:C3; [discriminate|] end.
  match type of H with (if ?c then _ else _) = None =>
    destruct c eqn:C4; [discriminate|] end.
  match type of H with (if ?c then _ else _) = None =>
    destruct c eqn:C5; [discriminate|] end.
  match type of H with (if ?c then _ else _) = None =>
    destruct c eqn:C6; [discriminate|] end.
  match type of H with (if ?c then _ else _) = None =>
    destruct c eqn:C7; [discriminate|] end.
  match type of H with (if ?c then _ else _) = None =>
    destruct c eqn:C8; [discriminate|] end.
  match type of H with (if ?c then _ else _) = None =>
    destruct c eqn:C9; [discriminate|] end.
  clear H.
  apply check_passed in C6, C7, C9.
  apply orb_false_iff in C1. destruct C1 as [Hb Hc].
  split; [now apply text_ok_trimmed|]. split; [now apply text_ok_trimmed|].
  split.
  { intros He Ha. rewrite He, Ha in C2, C5. cbn [negb andb orb] in C2, C5.
    split.
    - intros Hnil. rewrite Hnil in C2. discriminate.
    - apply Forall_forall. intros e Hin. apply check_passed.
      destruct (negb (isFinite (e_stock e)) || lt (e_stock e) pos_zero)
        eqn:E; [|reflexivity].
      rewrite <- C5. symmetry. apply existsb_exists. eauto. }
  split.
  { intros He Ha. rewrite He, Ha in C3.
    cbn [negb andb orb nth itemList] in C3. assumption. }
  split.
  { intros Hor. apply check_passed.
    destruct Hor as [E|E]; rewrite E in C4; rewrite ?orb_true_r in C4;
      cbn [negb andb orb] in C4; assumption. }
  repeat split; assumption.
Qed.

(** ** The bodies the form sends *)

Lemma body_of_sound payload name stock :
  Str.trim name = name ->
  text_ok (p_brand payload) -> text_ok (p_category payload) ->
  finite_nonneg stock = true ->
  finite_nonneg (p_rawPrice payload) = true ->
  finite_nonneg (p_sellingPrice payload) = true ->
  lt (p_sellingPrice payload) (p_rawPrice payload) = false ->
  finite_nonneg (p_minStockAlert payload) = true ->
  sound_body (body_of payload name stock).
Proof.
  intros Hn Hb Hc Hs Hr Hp Hl Ha.
  exists name, (p_brand payload), (p_category payload), (unsigned_zero stock),
    (unsigned_zero (p_rawPrice payload)),
    (unsigned_zero (p_sellingPrice payload)),
    (unsigned_zero (p_minStockAlert payload)).
  unfold body_of. rewrite !json_scalar_finite by assumption.
  rewrite !finite_nonneg_unsigned, lt_unsigned.
  split; [reflexivity|]. repeat (split; [assumption|]). assumption.
Qed.

Lemma entries_ok st :
  rejection st = None -> editingId st = None ->
  entriesToCreate st <> [] /\ Forall entry_ok (entriesToCreate st).
Proof.
  intros R E. apply rejection_None in R.
  destruct R as (_ & _ & Hm & Hs & Hst & _).
  assert (Ed : isEditing st = false) by (unfold isEditing; now rewrite E).
  unfold entriesToCreate. destruct (allowMultipleNames st) eqn:Ha.
  - destruct (Hm Ed eq_refl) as [Hne Hf]. split; [assumption|].
    rewrite Forall_forall in *. intros e Hin. split; [|now apply Hf].
    unfold multiEntries in Hin. rewrite Ha in Hin.
    apply filter_In in Hin. destruct Hin as [Hin Hn].
    apply in_map_iff in Hin. destruct Hin as (v & <- & _).
    cbn [e_name] in *. apply text_ok_trimmed. now apply negb_true_iff in Hn.
  - split; [discriminate|]. constructor; [|constructor]. split.
    + cbn [e_name nth itemList]. apply text_ok_trimmed. now apply Hs.
    + cbn [e_stock]. apply Hst. now left.
Qed.

Lemma create_entries_sent backend payload srv entries count :
  forall request,
    In (Fetched request)
       (snd (fst (create_entries backend payload srv entries count))) ->
    exists entry,
      In entry entries /\
      request = POST_item (body_of payload (e_name entry) (e_stock entry)).
Proof.
  revert srv count. induction entries as [|entry rest IH];
    intros srv count request; cbn [create_entries].
  - intros [].
  - destruct (backend srv _) as [srv1 reply]. destruct (is_ok reply).
    + specialize (IH srv1 (S count) request).
      destruct (create_entries backend payload srv1 rest (S count))
        as [[srv2 sent] result]. cbn [fst snd] in *.
      intros [H|H].
      * inversion H. exists entry. split; [now left|reflexivity].
      * destruct (IH H) as (e & He & Hr). exists e. split; [now right|exact Hr].
    + cbn [fst snd]. intros [H|[]]. inversion H.
      exists entry. split; [now left|reflexivity].
Qed.

(** ** The servers accept what the form sends *)

Lemma server_post_sound payload entry inventory :
  entry_ok entry ->
  text_ok (p_brand payload) -> text_ok (p_category payload) ->
  finite_nonneg (p_rawPrice payload) = true ->
  finite_nonneg (p_sellingPrice payload) = true ->
  lt (p_sellingPrice payload) (p_rawPrice payload) = false ->
  finite_nonneg (p_minStockAlert payload) = true ->
  Server.post_item inventory
    (body_of payload (e_name entry) (e_stock entry))
  = ((inventory ++ [stored_for payload (nextId inventory) entry])%list,
     Respond 201
       (Json_item
          (buildItemResponse (stored_for payload (nextId inventory) entry)))).
Proof.
  intros [[Hne Ht] Hs] [Hbe Hbt] [Hce Hct] Hr Hp Hl Ha.
  unfold Server.post_item, body_of.
  rewrite !json_scalar_finite by assumption.
  rewrite server_accepts.
  - unfold Server.name_of, Server.brand_of, Server.category_of.
    cbn. rewrite Ht, Hbt, Hct. reflexivity.
  - unfold Server.name_of. cbn. now rewrite Ht.
  - unfold Server.brand_of. cbn. now rewrite Hbt.
  - unfold Server.category_of. cbn. now rewrite Hct.
  - cbn. now rewrite finite_nonneg_unsigned.
  - cbn. now rewrite finite_nonneg_unsigned.
  - cbn. rewrite <- finite_nonneg_unsigned in Hp.
    unfold finite_nonneg in Hp. now bools.
  - cbn. now rewrite lt_unsigned.
  - reflexivity.
Qed.

Lemma strict_post_sound payload entry inventory :
  entry_ok entry ->
  text_ok (p_brand payload) -> text_ok (p_category payload) ->
  finite_nonneg (p_rawPrice payload) = true ->
  finite_nonneg (p_sellingPrice payload) = true ->
  lt (p_sellingPrice payload) (p_rawPrice payload) = false ->
  finite_nonneg (p_minStockAlert payload) = true ->
  ServerStrict.post_item inventory
    (body_of payload (e_name entry) (e_stock entry))
  = ((inventory ++ [stored_for payload (nextId inventory) entry])%list,
     Respond 201
       (Json_item
          (buildItemResponse (stored_for payload (nextId inventory) entry)))).
Proof.
  intros [[Hne Ht] Hs] [Hbe Hbt] [Hce Hct] Hr Hp Hl Ha.
  unfold ServerStrict.post_item, body_of,
    ServerStrict.validateAndNormalizeItem.
  rewrite !json_scalar_finite by assumption.
  cbn [ServerStrict.texts_of ServerStrict.text_or b_name b_brand b_category].
  rewrite strict_accepts.
  - cbn. rewrite Ht, Hbt, Hct. reflexivity.
  - cbn. now rewrite Ht.
  - cbn. now rewrite Hbt.
  - cbn. now rewrite Hct.
  - cbn. now rewrite finite_nonneg_unsigned.
  - cbn. now rewrite finite_nonneg_unsigned.
  - cbn. now rewrite finite_nonneg_unsigned.
  - cbn. now rewrite lt_unsigned.
  - cbn. now rewrite finite_nonneg_unsigned.
  - reflexivity.
Qed.

Section Loop.
Variable backend : list Api.Item -> Api.request -> list Api.Item * Api.reply.
Variable payload : Payload.
Hypothesis accepted : forall inventory entry,
    entry_ok entry ->
    backend inventory
      (POST_item (body_of payload (e_name entry) (e_stock entry)))
    = ((inventory ++ [stored_for payload (nextId inventory) entry])%list,
       Respond 201
         (Json_item
            (buildItemResponse
               (stored_for payload (nextId inventory) entry)))).

Lemma create_entries_accepted entries srv count :
  Forall entry_ok entries ->
  create_entries backend payload srv entries count
  = ((srv ++ created_from payload srv entries)%list,
     posts payload entries,
     Created (count + List.length entries)).
Proof.
  intros H. revert srv count.
  induction H as [|entry rest He Hr IH]; intros srv count;
    cbn [create_entries created_from posts map List.length].
  - now rewrite app_nil_r, Nat.add_0_r.
  - rewrite (accepted srv entry He). cbn [is_ok]. 
    change (ok 201) with true. cbv iota.
    rewrite IH. rewrite <- app_assoc. cbn [app].
    replace (count + S (List.length rest))%nat
      with (S count + List.length rest)%nat by lia.
    reflexivity.
Qed.

End Loop.

(** ** The end of a submission *)

Lemma saved_effects backend st srv1 sent count :
  snd (saved backend st srv1 sent count)
  = (sent ++ [reload (search (core st));
              Fired {| icon := "success"; title := saved_title st count;
                       text := [] |}])%list.
Proof.
  unfold saved, Screen.loadItems. cbv zeta.
  match goal with
  | |- context [App.loadItems backend ?s ?v ?x] =>
      pose proof (loadItems_keeps backend s v x) as Hl;
      destruct (App.loadItems backend s v x) as [[c srv2] loaded]
  end.
  destruct Hl as (_ & _ & _ & _ & _ & -> & _). reflexivity.
Qed.

Lemma save_failed_effects st srv1 sent message :
  snd (save_failed st srv1 sent message)
  = (sent ++ [Fired {| icon := "error"; title := "Save failed";
                       text := [Lit (or_text message
                                       "Could not save inventory item.")] |}])%list.
Proof. reflexivity. Qed.

End FormFacts.

Module LoadFacts.
Import JS Shape NumFacts Api.
Import ScreenFacts FormFacts.
Import App Screen.

(** Both servers answer a [GET] with stored items, and keep the store. *)
Lemma served_get backend srv q :
  served backend ->
  exists data,
    backend srv (GET_items q)
    = (srv, Respond 200 (Json_items (map buildItemResponse data))) /\
    incl data srv /\ (q = None -> data = srv).
Proof.
  intros [-> | ->]; cbn [Server.handle ServerStrict.handle].
  - unfold Server.get_items.
    destruct (negb (Str.is_empty (Str.toLowerCase _))) eqn:E.
    + eexists. split; [reflexivity|]. split; [apply incl_filter|].
      intros ->. discriminate.
    + exists srv. split; [reflexivity|]. split; [apply incl_refl|reflexivity].
  - unfold ServerStrict.get_items.
    destruct (Str.is_empty (Str.toLowerCase _)) eqn:E.
    + exists srv. split; [reflexivity|]. split; [apply incl_refl|reflexivity].
    + eexists. split; [reflexivity|]. split; [apply incl_filter|].
      intros ->. discriminate.
Qed.

Lemma loadItems_served backend c srv query :
  served backend ->
  exists data,
    App.loadItems backend c srv query
    = ({| items := map of_response (map buildItemResponse data);
          search := search c; saleForm := saleForm c;
          isSaleModalOpen := isSaleModalOpen c; salesLog := salesLog c;
          loading := false; error := EmptyString |},
       srv, [reload query]) /\
    incl data srv /\ (Str.is_empty query = true -> data = srv).
Proof.
  intros Hb. unfold App.loadItems, reload.
  destruct (served_get backend srv
              (if Str.is_empty query then None else Some query) Hb)
    as (data & -> & Hincl & Hall).
  exists data. split; [reflexivity|]. split; [exact Hincl|].
  intros E. apply Hall. now rewrite E.
Qed.

(** Both servers store what the checked form sends. *)
Lemma served_post backend st :
  served backend -> rejection st = None ->
  forall inventory entry,
    entry_ok entry ->
    backend inventory
      (POST_item (body_of (payload_of (form st)) (e_name entry)
                          (e_stock entry)))
    = ((inventory
        ++ [stored_for (payload_of (form st)) (nextId inventory) entry])%list,
       Respond 201
         (Json_item
            (buildItemResponse
               (stored_for (payload_of (form st)) (nextId inventory)
                           entry)))).
Proof.
  intros Hb R inventory entry He.
  destruct (rejection_None st R) as (Hbr & Hc & _ & _ & _ & Hr & Hp & Hl & Ha).
  destruct Hb as [-> | ->]; cbn [Server.handle ServerStrict.handle].
  - now apply server_post_sound.
  - now apply strict_post_sound.
Qed.

(** ** Identifiers in the path of a request *)

Lemma String_of_number k :
  0 < k -> Str.StringToNumber (String_of k) = of_Z k.
Proof.
  intros Hk. destruct k as [|p|p]; try lia.
  unfold String_of. cbn [Z.to_int NilZero.string_of_int].
  pose proof (DecimalPos.Unsigned.to_uint_nonnil p) as Hnil.
  pose proof (TextFacts.StringToNumber_numeral p) as H.
  unfold NilZero.string_of_uint.
  destruct (Pos.to_uint p); [congruence|exact H..].
Qed.

(** Deleting a stored item, in both servers. *)
Lemma delete_known inventory p it :
  ids_ok inventory -> ids_exact inventory ->
  In it inventory ->
  Str.StringToNumber p = of_Z (Api.id it) ->
  exists before behind,
    inventory = (before ++ it :: behind)%list /\
    without_id (Api.id it) inventory = (before ++ behind)%list /\
    Server.delete_item inventory p
    = ((before ++ behind)%list, Respond 204 Empty_body) /\
    ServerStrict.delete_item inventory p
    = ((before ++ behind)%list, Respond 204 Empty_body) /\
    Server.delete_item (before ++ behind)%list p
    = ((before ++ behind)%list, Respond 404 (Json_error "Item not found.")) /\
    ServerStrict.delete_item (before ++ behind)%list p
    = ((before ++ behind)%list, Respond 404 (Json_error "Item not found.")).
Proof.
  intros Hok Hex Hin Hp.
  pose proof (RouteFacts.ids_in_range inventory it Hok Hex Hin) as Hk.
  assert (Hf : filter (fun i => negb (id_is (of_Z (Api.id it)) i)) inventory
               = without_id (Api.id it) inventory).
  { apply RouteFacts.delete_filter. intros other Ho.
    apply RouteFacts.id_is_exact; [assumption|].
    now apply (RouteFacts.ids_in_range inventory). }
  destruct (RouteFacts.without_id_split inventory it (proj1 Hok) Hin)
    as (before & behind & E & Hw).
  exists before, behind. split; [exact E|]. split; [exact Hw|].
  assert (Hlen : Nat.eqb (List.length (before ++ behind)%list)
                         (List.length inventory) = false).
  { apply Nat.eqb_neq. rewrite E, !length_app. simpl. lia. }
  assert (Hf' : filter (fun i => negb (id_is (of_Z (Api.id it)) i))
                       (before ++ behind)%list
                = (before ++ behind)%list).
  { rewrite <- Hw. apply filter_all. intros x Hx.
    pose proof (RouteFacts.without_id_absent _ _ _ Hx) as Hne.
    apply filter_In in Hx. destruct Hx as [Hx _].
    rewrite RouteFacts.id_is_exact;
      [|assumption|now apply (RouteFacts.ids_in_range inventory)].
    now apply negb_true_iff, Z.eqb_neq. }
  unfold Server.delete_item, ServerStrict.delete_item.
  rewrite Hp, Hf, Hw, Hlen, Hf', Nat.eqb_refl. repeat split.
Qed.

End LoadFacts.

Module StockFacts.
Import JS Shape NumFacts Api.
Import TextFacts ExactFacts InvariantFacts RouteFacts RequestFacts.
Import OrdinaryFacts ScreenFacts FormFacts LoadFacts.
Import App Screen.

(** ** Finding a stored item by its identifier *)

Lemma same_id (inventory : list Api.Item) a b :
  NoDup (map Api.id inventory) -> In a inventory -> In b inventory ->
  Api.id a = Api.id b -> a = b.
Proof.
  induction inventory as [|x r IH]; [intros _ []|].
  cbn [map]. intros Hn Ha Hb E. inversion Hn as [|? ? Hx Hr]; subst.
  destruct Ha as [<-|Ha], Hb as [<-|Hb]; [reflexivity| | |now apply IH].
  - exfalso. apply Hx. rewrite E. now apply in_map.
  - exfalso. apply Hx. rewrite <- E. now apply in_map.
Qed.

Lemma findIndex_stored inventory it :
  ids_ok inventory -> ids_exact inventory -> In it inventory ->
  exists k,
    findIndex (id_is (of_Z (Api.id it))) inventory = Some k /\
    nth_error inventory k = Some it.
Proof.
  intros Hok Hex Hin.
  pose proof (ids_in_range inventory it Hok Hex Hin) as Hk.
  destruct (findIndex_known (id_is (of_Z (Api.id it))) inventory)
    as (k & x & Hf & Hn & Hp).
  { exists it. split; [assumption|]. rewrite id_is_exact by assumption.
    apply Z.eqb_refl. }
  exists k. split; [exact Hf|]. rewrite Hn. f_equal.
  pose proof (nth_error_In _ _ Hn) as Hx.
  rewrite id_is_exact in Hp;
    [|assumption|now apply (ids_in_range inventory)].
  apply Z.eqb_eq in Hp. now apply (same_id inventory); [apply Hok|..].
Qed.

Lemma assign_split {A} (l : list A) k x :
  nth_error l k = Some x ->
  exists before behind,
    l = (before ++ x :: behind)%list /\
    forall y, assign l k y = (before ++ y :: behind)%list.
Proof.
  revert k. induction l as [|z r IH]; intros [|k]; simpl; try discriminate.
  - intros H. inversion H; subst. now exists [], r.
  - intros H. destruct (IH k H) as (before & behind & -> & Ha).
    exists (z :: before), behind. split; [reflexivity|].
    intros y. simpl. now rewrite Ha.
Qed.

(** ** What the client reads of a stored item *)

Lemma json_number_finite x :
  isFinite x = true -> json_number x = Given (unsigned_zero x).
Proof. destruct x as [[]|[]| |[] m e]; try discriminate; reflexivity. Qed.

Lemma unsigned_idem x : unsigned_zero (unsigned_zero x) = unsigned_zero x.
Proof. now destruct x. Qed.

Lemma finite_nonneg_finite x : finite_nonneg x = true -> isFinite x = true.
Proof. unfold finite_nonneg. intros H. now bools. Qed.

Lemma shown_numbers it :
  stored_ok it -> alert_ok it ->
  Number (stock (shown it)) = unsigned_zero (Api.stock it) /\
  rawPriceOf (shown it) = unsigned_zero (Api.rawPrice it) /\
  sellingPriceOf (shown it) = unsigned_zero (Api.sellingPrice it) /\
  minStockAlertOf (shown it) = unsigned_zero (Api.minStockAlert it).
Proof.
  intros (_ & _ & _ & Hs & Hr & Hp) Ha.
  apply finite_nonneg_finite in Hs, Hr, Hp, Ha.
  unfold shown, rawPriceOf, sellingPriceOf, minStockAlertOf, of_response,
    buildItemResponse.
  cbn [stock rawPrice sellingPrice price minStockAlert r_stock r_rawPrice
       r_sellingPrice r_price r_minStockAlert toNumber Api.Number].
  rewrite !json_number_finite by assumption. repeat split.
Qed.

(** A sum of a number that is not negative and a number above zero is not
    negative, and the sign of a zero does not matter for it. *)
Lemma add_nonneg a q :
  finite_nonneg a = true -> isFinite q = true -> le q pos_zero = false ->
  lt (add a q) pos_zero = false /\ add (unsigned_zero a) q = add a q.
Proof.
  destruct a as [[]|[]| |[] ma ea], q as [[]|[]| |[] mq eq];
    try discriminate; intros _ _ _; try (split; reflexivity).
  split; [|reflexivity].
  unfold add, SFadd. cbn [cond_Zopp Z.add].
  unfold binary_normalize.
  apply not_negative_lt. apply binary_round_sign.
Qed.

(** ** Both servers accept an item sent back with another stock *)

Lemma served_put_stock backend inventory it x :
  served backend -> ids_ok inventory -> ids_exact inventory ->
  In it inventory -> stored_ok it -> price_ok it -> alert_ok it ->
  finite_nonneg x = true ->
  exists before behind,
    inventory = (before ++ it :: behind)%list /\
    backend inventory
      (PUT_item (String_of (Api.id it)) (stock_body (shown it) x))
    = ((before ++ restocked it x :: behind)%list,
       Respond 200 (Json_item (buildItemResponse (restocked it x)))).
Proof.
  intros Hb Hok Hex Hin Hst Hpr Ha Hx.
  pose proof (ids_in_range inventory it Hok Hex Hin) as Hk.
  destruct (findIndex_stored inventory it Hok Hex Hin) as (k & Hf & Hn).
  destruct (assign_split inventory k it Hn) as (before & behind & E & Has).
  exists before, behind. split; [exact E|].
  destruct (shown_numbers it Hst Ha) as (_ & Er & Ep & Em).
  pose proof Hst as ([Hne Hnt] & [Hbe Hbt] & [Hce Hct] & Hs & Hr & Hp).
  assert (Hbody :
    stock_body (shown it) x
    = {| b_name := Given (Api.name it); b_brand := Given (Api.brand it);
         b_category := Given (Api.category it);
         b_stock := Given (SNum (unsigned_zero x));
         b_rawPrice := Given (SNum (unsigned_zero (Api.rawPrice it)));
         b_sellingPrice :=
           Given (SNum (unsigned_zero (Api.sellingPrice it)));
         b_price := Absent;
         b_minStockAlert :=
           Given (SNum (unsigned_zero (Api.minStockAlert it))) |}).
  { unfold stock_body. rewrite Er, Ep, Em.
    rewrite !json_scalar_finite
      by (rewrite ?finite_nonneg_unsigned; assumption).
    rewrite !unsigned_idem. reflexivity. }
  rewrite Hbody.
  assert (Hlt : lt (unsigned_zero (Api.sellingPrice it))
                   (unsigned_zero (Api.rawPrice it)) = false).
  { rewrite lt_unsigned. apply le_not_lt. exact Hpr. }
  destruct Hb as [-> | ->]; cbn [Server.handle ServerStrict.handle].
  - unfold Server.put_item. rewrite String_of_number by lia.
    rewrite Hf, Hn. rewrite server_accepts.
    + rewrite Has. unfold restocked, spread.
      unfold Server.name_of, Server.brand_of, Server.category_of.
      cbn. rewrite Hnt, Hbt, Hct. reflexivity.
    + unfold Server.name_of. cbn. now rewrite Hnt.
    + unfold Server.brand_of. cbn. now rewrite Hbt.
    + unfold Server.category_of. cbn. now rewrite Hct.
    + cbn. now rewrite finite_nonneg_unsigned.
    + cbn. now rewrite finite_nonneg_unsigned.
    + cbn. apply finite_nonneg_finite. now rewrite finite_nonneg_unsigned.
    + cbn. exact Hlt.
    + reflexivity.
  - unfold ServerStrict.put_item. rewrite String_of_number by lia.
    rewrite Hf, Hn. unfold ServerStrict.validateAndNormalizeItem.
    cbn [ServerStrict.texts_of ServerStrict.text_or b_name b_brand
         b_category].
    rewrite strict_accepts.
    + rewrite Has. unfold restocked, spread. cbn.
      rewrite Hnt, Hbt, Hct. reflexivity.
    + cbn. now rewrite Hnt.
    + cbn. now rewrite Hbt.
    + cbn. now rewrite Hct.
    + cbn. now rewrite finite_nonneg_unsigned.
    + cbn. now rewrite finite_nonneg_unsigned.
    + cbn. now rewrite finite_nonneg_unsigned.
    + cbn. exact Hlt.
    + cbn. now rewrite finite_nonneg_unsigned.
    + reflexivity.
Qed.

(** ** Both servers and the item form in edit mode *)

Lemma served_put_form backend inventory it st :
  served backend -> ids_ok inventory -> ids_exact inventory ->
  In it inventory -> rejection st = None ->
  editingId st = Some (Api.id it) ->
  let payload := payload_of (form st) in
  let body := body_of payload (p_name payload) (p_stock payload) in
  let entry := {| e_name := p_name payload; e_stock := p_stock payload |} in
  exists before behind,
    inventory = (before ++ it :: behind)%list /\
    (Str.is_empty (p_name payload) = false ->
     backend inventory (PUT_item (String_of (Api.id it)) body)
     = ((before ++ stored_for payload (Api.id it) entry :: behind)%list,
        Respond 200
          (Json_item
             (buildItemResponse (stored_for payload (Api.id it) entry))))) /\
    (Str.is_empty (p_name payload) = true ->
     backend inventory (PUT_item (String_of (Api.id it)) body)
     = (inventory,
        Respond 400 (Json_error "Name, brand, and category are required."))).
Proof.
  intros Hb Hok Hex Hin R E. cbv zeta.
  pose proof (ids_in_range inventory it Hok Hex Hin) as Hk.
  destruct (findIndex_stored inventory it Hok Hex Hin) as (k & Hf & Hn).
  destruct (assign_split inventory k it Hn) as (before & behind & Ei & Has).
  exists before, behind. split; [exact Ei|].
  destruct (rejection_None st R)
    as ([Hbe Hbt] & [Hce Hct] & _ & _ & Hst & Hr & Hp & Hl & Ha).
  assert (Hs : finite_nonneg (p_stock (payload_of (form st))) = true).
  { apply Hst. right. unfold isEditing. now rewrite E. }
  assert (Hnt : Str.trim (p_name (payload_of (form st)))
                = p_name (payload_of (form st)))
    by apply trim_idem.
  clear Hst. remember (payload_of (form st)) as payload eqn:Epay.
  clear Epay.
  unfold body_of.
  rewrite !json_scalar_finite by assumption.
  split.
  - intros Hne.
    destruct Hb as [-> | ->]; cbn [Server.handle ServerStrict.handle].
    + unfold Server.put_item. rewrite String_of_number by lia.
      rewrite Hf, Hn. rewrite server_accepts.
      * rewrite Has. unfold stored_for, spread.
        unfold Server.name_of, Server.brand_of, Server.category_of.
        cbn. rewrite Hnt, Hbt, Hct. reflexivity.
      * unfold Server.name_of. cbn. now rewrite Hnt.
      * unfold Server.brand_of. cbn. now rewrite Hbt.
      * unfold Server.category_of. cbn. now rewrite Hct.
      * cbn. now rewrite finite_nonneg_unsigned.
      * cbn. now rewrite finite_nonneg_unsigned.
      * cbn. apply finite_nonneg_finite. now rewrite finite_nonneg_unsigned.
      * cbn. now rewrite lt_unsigned.
      * reflexivity.
    + unfold ServerStrict.put_item. rewrite String_of_number by lia.
      rewrite Hf, Hn. unfold ServerStrict.validateAndNormalizeItem.
      cbn [ServerStrict.texts_of ServerStrict.text_or b_name b_brand
           b_category].
      rewrite strict_accepts.
      * rewrite Has. unfold stored_for, spread. cbn.
        rewrite Hnt, Hbt, Hct. reflexivity.
      * cbn. now rewrite Hnt.
      * cbn. now rewrite Hbt.
      * cbn. now rewrite Hct.
      * cbn. now rewrite finite_nonneg_unsigned.
      * cbn. now rewrite finite_nonneg_unsigned.
      * cbn. now rewrite finite_nonneg_unsigned.
      * cbn. now rewrite lt_unsigned.
      * cbn. now rewrite finite_nonneg_unsigned.
      * reflexivity.
  - intros He.
    destruct Hb as [-> | ->]; cbn [Server.handle ServerStrict.handle].
    + unfold Server.put_item. rewrite String_of_number by lia.
      rewrite Hf, Hn. unfold Server.validateAndNormalizeItem.
      unfold Server.name_of. cbn [b_name Server.trimmed nullish].
      rewrite Hnt. cbn [falsy_text]. rewrite He. reflexivity.
    + unfold ServerStrict.put_item. rewrite String_of_number by lia.
      rewrite Hf, Hn. unfold ServerStrict.validateAndNormalizeItem.
      cbn [ServerStrict.texts_of ServerStrict.text_or b_name b_brand
           b_category].
      unfold ServerStrict.checked. rewrite Hnt. cbn [falsy_text].
      rewrite He. reflexivity.
Qed.

End StockFacts.

Module CountFacts.
Import JS Shape Api NumFacts StoreFacts.
Import TextFacts ExactFacts InvariantFacts RouteFacts.

Lemma nextId_le inventory b :
  1 <= b -> Forall (fun it => id it < b) inventory -> nextId inventory <= b.
Proof.
  intros Hb H. pose proof (nextId_one_above inventory) as H1.
  unfold one_above_ids in H1. destruct inventory as [|it0 rest]; [lia|].
  destruct H1 as (it & Hin & -> & _).
  rewrite Forall_forall in H. specialize (H it Hin). lia.
Qed.

Lemma ids_below inventory b :
  (forall i, In i (map id inventory) -> i < b) ->
  Forall (fun it => id it < b) inventory.
Proof.
  intros H. apply Forall_forall. intros it Hin. apply H. now apply in_map.
Qed.

Lemma in_map_assign {A B} (f : A -> B) (l : list A) k v i :
  In i (map f (assign l k v)) -> In i (map f l) \/ i = f v.
Proof.
  revert k. induction l as [|y r IH]; intros [|k]; simpl; auto.
  - intros [H|H]; auto.
  - intros [H|H]; auto. destruct (IH k H); auto.
Qed.

(** A request adds at most the next identifier to the identifiers in
    use. *)
Lemma server_step_ids inventory r i :
  In i (map id (fst (Server.handle inventory r))) ->
  In i (map id inventory) \/ i = nextId inventory.
Proof.
  destruct r as [q|body|p body|p]; simpl.
  - auto.
  - unfold Server.post_item.
    destruct (Server.validateAndNormalizeItem body None true) as [e|v] eqn:Hv;
      simpl; [auto|].
    rewrite map_app, in_app_iff. simpl. unfold spread.
    rewrite (server_valid_id _ _ _ _ Hv). simpl. intuition.
  - unfold Server.put_item.
    destruct (findIndex _ inventory) as [k|]; [|auto].
    destruct (nth_error inventory k) as [cur|] eqn:Hk; [|auto].
    destruct (Server.validateAndNormalizeItem body (Some cur) false)
      as [e|v] eqn:Hv; simpl; [auto|].
    intros H. left. apply in_map_assign in H. destruct H as [H|H]; [exact H|].
    unfold spread in H. rewrite (server_valid_id _ _ _ _ Hv) in H.
    simpl in H. subst i. apply in_map. eapply nth_error_In; eassumption.
  - unfold Server.delete_item.
    match goal with |- context [if ?c then _ else _] => destruct c end;
      simpl; intros H; left; apply in_map_iff in H;
      destruct H as (it & <- & Hin); apply in_map;
      apply filter_In in Hin; tauto.
Qed.

Lemma strict_step_ids inventory r i :
  In i (map id (fst (ServerStrict.handle inventory r))) ->
  In i (map id inventory) \/ i = nextId inventory.
Proof.
  destruct r as [q|body|p body|p]; simpl.
  - unfold ServerStrict.get_items.
    match goal with |- context [if ?c then _ else _] => destruct c end; auto.
  - unfold ServerStrict.post_item.
    destruct (ServerStrict.validateAndNormalizeItem body None true)
      as [[e|v]|e] eqn:Hv; simpl; auto.
    rewrite map_app, in_app_iff. simpl. unfold spread.
    rewrite (strict_valid_id _ _ _ _ Hv). simpl. intuition.
  - unfold ServerStrict.put_item.
    destruct (findIndex _ inventory) as [k|]; [|auto].
    destruct (nth_error inventory k) as [cur|] eqn:Hk; [|auto].
    destruct (ServerStrict.validateAndNormalizeItem body (Some cur) false)
      as [[e|v]|e] eqn:Hv; simpl; auto.
    intros H. left. apply in_map_assign in H. destruct H as [H|H]; [exact H|].
    unfold spread in H. rewrite (strict_valid_id _ _ _ _ Hv) in H.
    simpl in H. subst i. apply in_map. eapply nth_error_In; eassumption.
  - unfold ServerStrict.delete_item.
    match goal with |- context [if ?c then _ else _] => destruct c end;
      simpl; intros H; left; apply in_map_iff in H;
      destruct H as (it & <- & Hin); apply in_map;
      apply filter_In in Hin; tauto.
Qed.

Section Count.

Variable handle : list Item -> request -> list Item * reply.
Variable inv : list Item -> Prop.
Hypothesis inv_ids : forall inventory, inv inventory -> ids_ok inventory.
Hypothesis inv_step : forall inventory r,
    inv inventory -> inv (fst (handle inventory r)).
Hypothesis step_ids : forall inventory r i,
    In i (map id (fst (handle inventory r))) ->
    In i (map id inventory) \/ i = nextId inventory.

Lemma nextId_step inventory r :
  inv inventory -> nextId (fst (handle inventory r)) <= nextId inventory + 1.
Proof.
  intros H. pose proof (proj2 (inv_ids _ H)) as Hp.
  pose proof (nextId_positive _ Hp) as H1.
  apply nextId_le; [lia|]. apply ids_below. intros i Hi.
  destruct (step_ids _ _ _ Hi) as [Hin| ->]; [|lia].
  apply in_map_iff in Hin. destruct Hin as (it & <- & Hin).
  pose proof (nextId_above inventory) as Ha. rewrite Forall_forall in Ha.
  specialize (Ha it Hin). simpl in Ha. lia.
Qed.

Lemma reached_count start n inventory :
  inv start ->
  reached handle start n inventory ->
  inv inventory /\ nextId inventory <= nextId start + Z.of_nat n.
Proof.
  intros H0 H. induction H as [|n inventory r H IH].
  - split; [assumption|lia].
  - destruct IH as [I1 I2]. split; [now apply inv_step|].
    pose proof (nextId_step inventory r I1). lia.
Qed.

End Count.

Lemma ids_exact_below inventory :
  nextId inventory <= 2 ^ 53 -> ids_exact inventory.
Proof.
  intros H. pose proof (nextId_above inventory) as Ha.
  unfold ids_exact. eapply Forall_impl; [|exact Ha]. simpl. intros; lia.
Qed.

End CountFacts.

(* ===================================================================== *)
(** * Further properties of the servers                                    *)
(* ===================================================================== *)

Import TextFacts ExactFacts InvariantFacts RouteFacts.
Import CountFacts.

(** X1.  In every state either server reaches from its seed data by [n]
    requests, where [n + 6] is below 2^53, the identifiers of the stored
    items are pairwise distinct positive integers below 2^53: the range in
    which the binary64 arithmetic of [nextId] is exact. *)
Theorem X1_identifiers_stay_distinct :
  (forall n inventory,
      reached Server.handle Server.inventory0 n inventory ->
      Z.of_nat n + 6 < 2 ^ 53 ->
      ids_ok inventory /\ ids_exact inventory /\
      nextId inventory <= 6 + Z.of_nat n)
  /\
  (forall n inventory,
      reached ServerStrict.handle ServerStrict.inventory0 n inventory ->
      Z.of_nat n + 6 < 2 ^ 53 ->
      ids_ok inventory /\ ids_exact inventory /\
      nextId inventory <= 6 + Z.of_nat n).
Proof.
  split; intros n inventory H Hn.
  - destruct (reached_count Server.handle server_inv
                (fun i H => proj1 H) server_handle_inv server_step_ids
                Server.inventory0 n inventory server_inventory0_inv H)
      as [[Hi _] Hc].
    change (nextId Server.inventory0) with 6 in Hc.
    split; [exact Hi|]. split; [apply ids_exact_below; lia|exact Hc].
  - destruct (reached_count ServerStrict.handle strict_inv
                (fun i H => proj1 H) strict_handle_inv strict_step_ids
                ServerStrict.inventory0 n inventory strict_inventory0_inv H)
      as [[Hi _] Hc].
    change (nextId ServerStrict.inventory0) with 6 in Hc.
    split; [exact Hi|]. split; [apply ids_exact_below; lia|exact Hc].
Qed.

Lemma X1_witness :
  ids_ok (fst (Server.handle Server.inventory0 (POST_item Sample.test))) /\
  ids_ok (fst (ServerStrict.handle ServerStrict.inventory0
                 (DELETE_item "3"))).
Proof.
  destruct X1_identifiers_stay_distinct as [H1 H2]. split.
  - apply (H1 1%nat); [|vm_compute; reflexivity].
    apply reached_next. apply reached_start.
  - apply (H2 1%nat); [|vm_compute; reflexivity].
    apply reached_next. apply reached_start.
Defined.

(** X2.  In every state either server can reach, each stored item has a
    name, a brand and a category that are not empty and carry no white
    space at either end, and a stock, a raw price and a selling price that
    are finite and not negative.  In the second server file the minimum
    stock alert is finite and not negative as well. *)
Theorem X2_stored_items_are_valid :
  (forall inventory, Server.reachable inventory -> Forall stored_ok inventory)
  /\
  (forall inventory,
      ServerStrict.reachable inventory ->
      Forall stored_ok inventory /\ Forall alert_ok inventory).
Proof.
  split; intros inventory H.
  - now apply server_reachable_inv.
  - now apply strict_reachable_inv.
Qed.

Lemma X2_witness :
  Forall stored_ok
    (fst (Server.handle Server.inventory0 (POST_item Sample.test))) /\
  Forall alert_ok
    (fst (ServerStrict.handle ServerStrict.inventory0
            (PUT_item "2" (Sample.only_stock 20)))).
Proof.
  destruct X2_stored_items_are_valid as [H1 H2]. split.
  - apply H1. apply Server.reach_step. apply Server.reach_start.
  - apply H2. apply ServerStrict.reach_step. apply ServerStrict.reach_start.
Defined.

(** X3.  A [DELETE] whose path parameter converts to the identifier of a
    stored item is answered with status 204; the store afterwards is the
    store before without that item, the other items being kept in their
    order.  Repeating the request is answered with 404 and changes
    nothing.  This holds in both servers, for stores whose identifiers are
    distinct positive integers below 2^53. *)
Theorem X3_delete_removes_one_item :
  forall inventory p it,
    ids_ok inventory -> ids_exact inventory ->
    In it inventory ->
    Str.StringToNumber p = of_Z (Api.id it) ->
    exists before behind,
      inventory = (before ++ it :: behind)%list /\
      let after := (before ++ behind)%list in
      Server.delete_item inventory p = (after, Respond 204 Empty_body) /\
      ServerStrict.delete_item inventory p = (after, Respond 204 Empty_body) /\
      Server.delete_item after p
        = (after, Respond 404 (Json_error "Item not found.")) /\
      ServerStrict.delete_item after p
        = (after, Respond 404 (Json_error "Item not found.")).
Proof.
  intros inventory p it Hok Hex Hin Hp.
  destruct (LoadFacts.delete_known inventory p it Hok Hex Hin Hp)
    as (before & behind & E & _ & H).
  exists before, behind. split; [exact E|exact H].
Qed.

Lemma X3_witness :
  exists before behind,
    Server.inventory0
    = (before ++ nth 1 Server.inventory0 Sample.test_item :: behind)%list /\
    Server.delete_item Server.inventory0 "2"
    = ((before ++ behind)%list, Respond 204 Empty_body).
Proof.
  destruct (X3_delete_removes_one_item
              Server.inventory0 "2" (nth 1 Server.inventory0 Sample.test_item))
    as (before & behind & E & H & _).
  - split.
    + simpl. repeat constructor; simpl; intuition discriminate.
    + repeat constructor; simpl; lia.
  - repeat constructor; simpl; lia.
  - simpl. auto.
  - reflexivity.
  - exists before, behind. split; assumption.
Defined.

Import RequestFacts StrFacts.

(** X4.  What a successful [POST] returns is what [GET /api/items] lists
    afterwards: without a query the list is the former list followed by the
    created item, and a query for the name, the brand or the category of
    the created item finds it.  This holds in both servers. *)
Theorem X4_created_item_is_listed :
  (forall inventory body inventory' r,
      Server.post_item inventory body
        = (inventory', Respond 201 (Json_item r)) ->
      Server.get_items inventory' None
        = (inventory',
           Respond 200 (Json_items (map buildItemResponse inventory ++ [r]))) /\
      forall q,
        q = r_name r \/ q = r_brand r \/ q = r_category r ->
        exists rs,
          Server.get_items inventory' (Some q)
            = (inventory', Respond 200 (Json_items rs)) /\ In r rs)
  /\
  (forall inventory body inventory' r,
      ServerStrict.post_item inventory body
        = (inventory', Respond 201 (Json_item r)) ->
      ServerStrict.get_items inventory' None
        = (inventory',
           Respond 200 (Json_items (map buildItemResponse inventory ++ [r]))) /\
      forall q,
        q = r_name r \/ q = r_brand r \/ q = r_category r ->
        exists rs,
          ServerStrict.get_items inventory' (Some q)
            = (inventory', Respond 200 (Json_items rs)) /\ In r rs).
Proof.
  split; intros inventory body inventory' r H.
  - unfold Server.post_item in H.
    destruct (Server.validateAndNormalizeItem body None true) as [e|v] eqn:Hv;
      [discriminate|].
    inversion H; subst inventory' r; clear H.
    set (new := spread (nextId inventory) v).
    assert (Hok : stored_ok new).
    { eapply server_valid_stored_ok; [|exact Hv]. discriminate. }
    destruct Hok as ([Hn _] & [Hb _] & [Hc _] & _).
    split.
    + unfold Server.get_items. simpl. now rewrite map_app.
    + intros q Hq. unfold Server.get_items.
      assert (Hne : Str.is_empty (Str.toLowerCase q) = false).
      { rewrite toLowerCase_empty.
        destruct Hq as [-> | [-> | ->]]; assumption. }
      rewrite Hne. cbn [negb]. eexists. split; [reflexivity|].
      apply in_map. apply filter_In.
      split; [apply in_or_app; right; left; reflexivity|].
      unfold Server.matches. cbn [existsb].
      destruct Hq as [-> | [-> | ->]]; cbn [buildItemResponse r_name r_brand
                                         r_category];
        rewrite includes_refl, ?orb_true_r; reflexivity.
  - unfold ServerStrict.post_item in H.
    destruct (ServerStrict.validateAndNormalizeItem body None true)
      as [[e|v]|e] eqn:Hv; try discriminate.
    inversion H; subst inventory' r; clear H.
    set (new := spread (nextId inventory) v).
    assert (Hok : stored_ok new).
    { eapply strict_valid_stored_ok; [|exact Hv]. discriminate. }
    destruct Hok as ([Hn Tn] & [Hb Tb] & [Hc Tc] & _).
    split.
    + unfold ServerStrict.get_items. simpl. now rewrite map_app.
    + intros q Hq. unfold ServerStrict.get_items.
      assert (Ht : Str.trim q = q)
        by (destruct Hq as [-> | [-> | ->]]; assumption).
      assert (Hne : Str.is_empty (Str.toLowerCase q) = false).
      { rewrite toLowerCase_empty.
        destruct Hq as [-> | [-> | ->]]; assumption. }
      rewrite Ht, Hne. eexists. split; [reflexivity|].
      apply in_map. apply filter_In.
      split; [apply in_or_app; right; left; reflexivity|].
      unfold ServerStrict.matches. cbn [existsb].
      destruct Hq as [-> | [-> | ->]]; cbn [buildItemResponse r_name r_brand
                                         r_category];
        rewrite includes_refl, ?orb_true_r; reflexivity.
Qed.

Lemma X4_witness :
  exists rs,
    Server.get_items (Server.inventory0 ++ [Sample.test_item])%list
                     (Some "Test")
    = ((Server.inventory0 ++ [Sample.test_item])%list,
       Respond 200 (Json_items rs)) /\
    In (buildItemResponse Sample.test_item) rs.
Proof.
  destruct X4_created_item_is_listed as [H _].
  destruct (H Server.inventory0 Sample.test
              (Server.inventory0 ++ [Sample.test_item])%list
              (buildItemResponse Sample.test_item) eq_refl) as [_ Hq].
  apply (Hq "Test"). left. reflexivity.
Defined.

(** X5.  In the second server file a body whose name, brand or category is
    [null] makes the route handler throw a [TypeError] instead of answering:
    on every [POST], and on every [PUT] for a stored item.  The store is
    left as it was. *)
Theorem X5_null_text_throws :
  forall inventory body,
    b_name body = Null \/ b_brand body = Null \/ b_category body = Null ->
    ServerStrict.post_item inventory body
      = (inventory, Raise ServerStrict.type_error) /\
    forall p,
      known inventory p ->
      ServerStrict.put_item inventory p body
        = (inventory, Raise ServerStrict.type_error).
Proof.
  intros inventory body Hnull. split.
  - unfold ServerStrict.post_item.
    now rewrite (strict_null_throws body None true Hnull).
  - intros p Hk. unfold ServerStrict.put_item.
    destruct (findIndex_known _ _ Hk) as (k & cur & -> & -> & _).
    now rewrite (strict_null_throws body (Some cur) false Hnull).
Qed.

Lemma X5_witness :
  ServerStrict.put_item ServerStrict.inventory0 "2"
    {| b_name := Null; b_brand := Absent; b_category := Absent;
       b_stock := Absent; b_rawPrice := Absent; b_sellingPrice := Absent;
       b_price := Absent; b_minStockAlert := Absent |}
  = (ServerStrict.inventory0, Raise ServerStrict.type_error).
Proof.
  apply X5_null_text_throws.
  - left. reflexivity.
  - exists (nth 1 ServerStrict.inventory0 Sample.test_item).
    split; [simpl; auto|reflexivity].
Defined.

(** X6.  In [src/server/index.js] a property sent as [null] in the body of a
    [PUT] counts as a property that is not sent: the request has the
    outcome of the request without that property. *)
Theorem X6_null_counts_as_absent_on_update :
  forall inventory p body,
    Server.put_item inventory p body
    = Server.put_item inventory p (without_nulls body).
Proof.
  intros inventory p body. unfold Server.put_item.
  destruct (findIndex _ inventory) as [k|]; [|reflexivity].
  destruct (nth_error inventory k) as [cur|]; [|reflexivity].
  now rewrite server_update_nulls.
Qed.



(** X8.  For every item of every store either server can reach, the
    response built for it shows a profit that is a number and is not below
    zero, and a price equal to the selling price. *)
Theorem X8_profit_is_never_negative :
  (forall inventory it,
      Server.reachable inventory -> In it inventory ->
      lt (r_profit (buildItemResponse it)) pos_zero = false /\
      isNaN (r_profit (buildItemResponse it)) = false /\
      r_price (buildItemResponse it) = r_sellingPrice (buildItemResponse it))
  /\
  (forall inventory it,
      ServerStrict.reachable inventory -> In it inventory ->
      lt (r_profit (buildItemResponse it)) pos_zero = false /\
      isNaN (r_profit (buildItemResponse it)) = false /\
      r_price (buildItemResponse it) = r_sellingPrice (buildItemResponse it)).
Proof.
  assert (K : forall it, stored_ok it -> price_ok it ->
              lt (r_profit (buildItemResponse it)) pos_zero = false /\
              isNaN (r_profit (buildItemResponse it)) = false /\
              r_price (buildItemResponse it)
              = r_sellingPrice (buildItemResponse it)).
  { intros it (_ & _ & _ & _ & Hr & Hs) Hp.
    unfold finite_nonneg in Hr, Hs. bools.
    destruct (sub_not_below (Api.sellingPrice it) (Api.rawPrice it))
      as [P1 P2]; try assumption.
    - apply le_not_lt. exact Hp.
    - cbn. auto. }
  split; intros inventory it Hreach Hin; apply K.
  - pose proof (proj2 (server_reachable_inv _ Hreach)) as H.
    rewrite Forall_forall in H. now apply H.
  - pose proof (ServerFacts.server_reachable_price_ok _ Hreach) as H.
    rewrite Forall_forall in H. now apply H.
  - pose proof (proj1 (proj2 (strict_reachable_inv _ Hreach))) as H.
    rewrite Forall_forall in H. now apply H.
  - pose proof (StrictFacts.strict_reachable_price_ok _ Hreach) as H.
    rewrite Forall_forall in H. now apply H.
Qed.

Lemma X8_witness :
  lt (r_profit (buildItemResponse Sample.test_item)) pos_zero = false /\
  isNaN (r_profit (buildItemResponse Sample.test_item)) = false /\
  r_price (buildItemResponse Sample.test_item)
  = r_sellingPrice (buildItemResponse Sample.test_item).
Proof.
  destruct X8_profit_is_never_negative as [H _].
  apply (H (fst (Server.handle Server.inventory0 (POST_item Sample.test)))).
  - apply Server.reach_step. apply Server.reach_start.
  - simpl. tauto.
Defined.

Import UpdateFacts.

(** X9.  Identifiers are handed out again: when the item a [POST] has just
    created is deleted, the store is exactly the store before the [POST],
    and the next successful [POST] returns the same identifier.  This holds
    in both servers, for stores whose identifiers are distinct positive
    integers, the next one included, below 2^53. *)
Theorem X9_identifier_is_handed_out_again :
  forall inventory p,
    ids_ok inventory -> ids_exact inventory -> nextId inventory < 2 ^ 53 ->
    (forall body inventory1 r,
        Server.post_item inventory body
          = (inventory1, Respond 201 (Json_item r)) ->
        Str.StringToNumber p = of_Z (r_id r) ->
        Server.delete_item inventory1 p
          = (inventory, Respond 204 Empty_body) /\
        forall body2 inventory2 r2,
          Server.post_item inventory body2
            = (inventory2, Respond 201 (Json_item r2)) ->
          r_id r2 = r_id r)
    /\
    (forall body inventory1 r,
        ServerStrict.post_item inventory body
          = (inventory1, Respond 201 (Json_item r)) ->
        Str.StringToNumber p = of_Z (r_id r) ->
        ServerStrict.delete_item inventory1 p
          = (inventory, Respond 204 Empty_body) /\
        forall body2 inventory2 r2,
          ServerStrict.post_item inventory body2
            = (inventory2, Respond 201 (Json_item r2)) ->
          r_id r2 = r_id r).
Proof.
  intros inventory p Hok Hex Hnext.
  assert (Hpos : 0 < nextId inventory < 2 ^ 53).
  { pose proof (nextId_positive inventory (proj2 Hok)). lia. }
  assert (Hkeep : filter (fun i => negb (id_is (of_Z (nextId inventory)) i))
                         inventory = inventory).
  { apply filter_all. intros it Hin.
    rewrite id_is_exact;
      [|assumption|now apply (ids_in_range inventory)].
    apply negb_true_iff, Z.eqb_neq.
    pose proof (nextId_above inventory) as Ha.
    rewrite Forall_forall in Ha. specialize (Ha it Hin). lia. }
  assert (Hdrop : forall v,
             n_id v = None ->
             id_is (of_Z (nextId inventory)) (spread (nextId inventory) v)
             = true).
  { intros v Hv.
    assert (E : Api.id (spread (nextId inventory) v) = nextId inventory)
      by (unfold spread; now rewrite Hv).
    rewrite id_is_exact; rewrite ?E;
      [apply Z.eqb_refl|assumption|assumption]. }
  assert (Hlen : forall x : Api.Item,
             Nat.eqb (List.length inventory)
                     (List.length (inventory ++ [x])%list) = false).
  { intros x. apply Nat.eqb_neq. rewrite length_app. simpl. lia. }
  split; intros body inventory1 r Hpost Hp.
  - unfold Server.post_item in Hpost.
    destruct (Server.validateAndNormalizeItem body None true) as [e|v] eqn:Hv;
      [discriminate|].
    pose proof (server_valid_id _ _ _ _ Hv) as Hid. simpl in Hid.
    inversion Hpost; subst inventory1 r; clear Hpost.
    assert (Er : r_id (buildItemResponse (spread (nextId inventory) v))
                 = nextId inventory)
      by (unfold spread; rewrite Hid; reflexivity).
    rewrite Er in *. split.
    + unfold Server.delete_item. rewrite Hp, filter_app, Hkeep.
      simpl filter. rewrite (Hdrop v Hid). simpl. rewrite app_nil_r.
      now rewrite Hlen.
    + intros body2 inventory2 r2 H2. unfold Server.post_item in H2.
      destruct (Server.validateAndNormalizeItem body2 None true)
        as [e2|v2] eqn:Hv2; [discriminate|].
      pose proof (server_valid_id _ _ _ _ Hv2) as Hid2. simpl in Hid2.
      inversion H2; subst. unfold spread. rewrite Hid2. reflexivity.
  - unfold ServerStrict.post_item in Hpost.
    destruct (ServerStrict.validateAndNormalizeItem body None true)
      as [[e|v]|e] eqn:Hv; try discriminate.
    pose proof (strict_valid_id _ _ _ _ Hv) as Hid. simpl in Hid.
    inversion Hpost; subst inventory1 r; clear Hpost.
    assert (Er : r_id (buildItemResponse (spread (nextId inventory) v))
                 = nextId inventory)
      by (unfold spread; rewrite Hid; reflexivity).
    rewrite Er in *. split.
    + unfold ServerStrict.delete_item. rewrite Hp, filter_app, Hkeep.
      simpl filter. rewrite (Hdrop v Hid). simpl. rewrite app_nil_r.
      now rewrite Hlen.
    + intros body2 inventory2 r2 H2. unfold ServerStrict.post_item in H2.
      destruct (ServerStrict.validateAndNormalizeItem body2 None true)
        as [[e2|v2]|e2] eqn:Hv2; try discriminate.
      pose proof (strict_valid_id _ _ _ _ Hv2) as Hid2. simpl in Hid2.
      inversion H2; subst. unfold spread. rewrite Hid2. reflexivity.
Qed.

Lemma X9_witness :
  Server.delete_item (Server.inventory0 ++ [Sample.test_item])%list "6"
  = (Server.inventory0, Respond 204 Empty_body).
Proof.
  destruct (X9_identifier_is_handed_out_again Server.inventory0 "6")
    as [H _].
  - split.
    + simpl. repeat constructor; simpl; intuition discriminate.
    + repeat constructor; simpl; lia.
  - repeat constructor; simpl; lia.
  - vm_compute. reflexivity.
  - apply (H Sample.test (Server.inventory0 ++ [Sample.test_item])%list
             (buildItemResponse Sample.test_item)); reflexivity.
Defined.

(** X10.  A request that is answered with a status of 400 or above, or
    whose handler throws, leaves the store of either server exactly as it
    was. *)
Theorem X10_failed_requests_change_nothing :
  (forall inventory r inventory' outcome,
      Server.handle inventory r = (inventory', outcome) ->
      match outcome with
      | Respond status _ => 400 <= status
      | Raise _ => True
      end ->
      inventory' = inventory)
  /\
  (forall inventory r inventory' outcome,
      ServerStrict.handle inventory r = (inventory', outcome) ->
      match outcome with
      | Respond status _ => 400 <= status
      | Raise _ => True
      end ->
      inventory' = inventory).
Proof.
  split; intros inventory r inventory' outcome H Hfail;
    destruct r as [q|body|p body|p]; simpl in H.
  - inversion H; subst. reflexivity.
  - unfold Server.post_item in H.
    destruct (Server.validateAndNormalizeItem body None true);
      inversion H; subst; [reflexivity|]. simpl in Hfail. lia.
  - unfold Server.put_item in H.
    destruct (findIndex _ inventory) as [k|];
      [|inversion H; subst; reflexivity].
    destruct (nth_error inventory k) as [cur|];
      [|inversion H; subst; reflexivity].
    destruct (Server.validateAndNormalizeItem body (Some cur) false);
      inversion H; subst; [reflexivity|]. simpl in Hfail. lia.
  - unfold Server.delete_item in H.
    destruct (Nat.eqb _ _) eqn:E; inversion H; subst.
    + apply Nat.eqb_eq in E. now apply filter_length_eq.
    + simpl in Hfail. lia.
  - unfold ServerStrict.get_items in H.
    destruct (Str.is_empty _); inversion H; subst; reflexivity.
  - unfold ServerStrict.post_item in H.
    destruct (ServerStrict.validateAndNormalizeItem body None true)
      as [[e|v]|e]; inversion H; subst; try reflexivity.
    simpl in Hfail. lia.
  - unfold ServerStrict.put_item in H.
    destruct (findIndex _ inventory) as [k|];
      [|inversion H; subst; reflexivity].
    destruct (nth_error inventory k) as [cur|];
      [|inversion H; subst; reflexivity].
    destruct (ServerStrict.validateAndNormalizeItem body (Some cur) false)
      as [[e|v]|e]; inversion H; subst; try reflexivity.
    simpl in Hfail. lia.
  - unfold ServerStrict.delete_item in H.
    destruct (Nat.eqb _ _) eqn:E; inversion H; subst.
    + apply Nat.eqb_eq in E. now apply filter_length_eq.
    + simpl in Hfail. lia.
Qed.

Lemma X10_witness :
  fst (Server.handle Server.inventory0 (POST_item Sample.inverted))
  = Server.inventory0.
Proof.
  destruct X10_failed_requests_change_nothing as [H _].
  apply (H Server.inventory0 (POST_item Sample.inverted) _
           (Respond 400 (Json_error "Invalid numeric values."))).
  - reflexivity.
  - simpl. lia.
Defined.

(** X11.  [PUT] is idempotent: repeating an update that was answered with
    status 200 is answered with the same item and leaves the store as the
    first update left it.  This holds in both servers. *)
Theorem X11_update_is_idempotent :
  (forall inventory p body inventory' r,
      Server.put_item inventory p body
        = (inventory', Respond 200 (Json_item r)) ->
      Server.put_item inventory' p body
        = (inventory', Respond 200 (Json_item r)))
  /\
  (forall inventory p body inventory' r,
      ServerStrict.put_item inventory p body
        = (inventory', Respond 200 (Json_item r)) ->
      ServerStrict.put_item inventory' p body
        = (inventory', Respond 200 (Json_item r))).
Proof.
  split; intros inventory p body inventory' r H.
  - unfold Server.put_item in H |- *.
    destruct (findIndex _ inventory) as [k|] eqn:Hf; [|discriminate].
    destruct (nth_error inventory k) as [cur|] eqn:Hk; [|discriminate].
    destruct (Server.validateAndNormalizeItem body (Some cur) false)
      as [e|v] eqn:Hv; [discriminate|].
    inversion H; subst inventory' r; clear H.
    pose proof (server_valid_id _ _ _ _ Hv) as Hid. simpl in Hid.
    pose proof (spread_id (Api.id cur) v _ Hid) as Ei.
    rewrite (findIndex_assign _ inventory k cur), Hf;
      [|assumption|unfold id_is; now rewrite Ei].
    rewrite (assign_nth_eq inventory k _ cur Hk).
    rewrite Ei, (server_again body cur v Hv), assign_assign. reflexivity.
  - unfold ServerStrict.put_item in H |- *.
    destruct (findIndex _ inventory) as [k|] eqn:Hf; [|discriminate].
    destruct (nth_error inventory k) as [cur|] eqn:Hk; [|discriminate].
    destruct (ServerStrict.validateAndNormalizeItem body (Some cur) false)
      as [[e|v]|e] eqn:Hv; try discriminate.
    inversion H; subst inventory' r; clear H.
    pose proof (strict_valid_id _ _ _ _ Hv) as Hid. simpl in Hid.
    pose proof (spread_id (Api.id cur) v _ Hid) as Ei.
    rewrite (findIndex_assign _ inventory k cur), Hf;
      [|assumption|unfold id_is; now rewrite Ei].
    rewrite (assign_nth_eq inventory k _ cur Hk).
    rewrite Ei, (strict_again body cur v Hv), assign_assign. reflexivity.
Qed.

Lemma X11_witness :
  Server.put_item
    (fst (Server.put_item Server.inventory0 "2" (Sample.only_stock 20)))
    "2" (Sample.only_stock 20)
  = Server.put_item Server.inventory0 "2" (Sample.only_stock 20).
Proof.
  destruct X11_update_is_idempotent as [H _].
  apply (H Server.inventory0 "2" (Sample.only_stock 20)). reflexivity.
Defined.

(** X12.  For a store whose items are as the validators leave them, a
    [PUT] with an empty body for a stored item (the first one whose
    identifier the path parameter converts to) is answered with that item
    and changes nothing.  A body that only carries a [null] stock has the
    same outcome in [src/server/index.js]; in the second server file it
    sets the stock of that item to 0 and keeps its other properties and
    every other item. *)
Theorem X12_null_stock_on_update :
  forall p,
    (forall inventory,
        Forall stored_ok inventory -> Forall price_ok inventory ->
        known inventory p ->
        exists k cur,
          findIndex (id_is (Str.StringToNumber p)) inventory = Some k /\
          nth_error inventory k = Some cur /\
          id_is (Str.StringToNumber p) cur = true /\
          Server.put_item inventory p empty_body
            = (inventory, Respond 200 (Json_item (buildItemResponse cur))) /\
          Server.put_item inventory p null_stock
            = (inventory, Respond 200 (Json_item (buildItemResponse cur))))
    /\
    (forall inventory,
        Forall stored_ok inventory -> Forall price_ok inventory ->
        Forall alert_ok inventory -> known inventory p ->
        exists k cur,
          findIndex (id_is (Str.StringToNumber p)) inventory = Some k /\
          nth_error inventory k = Some cur /\
          id_is (Str.StringToNumber p) cur = true /\
          ServerStrict.put_item inventory p empty_body
            = (inventory, Respond 200 (Json_item (buildItemResponse cur))) /\
          ServerStrict.put_item inventory p null_stock
            = (assign inventory k (with_stock cur pos_zero),
               Respond 200
                 (Json_item (buildItemResponse (with_stock cur pos_zero)))) /\
          replaced_at inventory (assign inventory k (with_stock cur pos_zero))
                      k (with_stock cur pos_zero)).
Proof.
  intros p. split.
  - intros inventory Hs Hp Hk.
    destruct (findIndex_known _ _ Hk) as (k & cur & Hf & Hc & Hid).
    pose proof (nth_error_In _ _ Hc) as Hin.
    rewrite Forall_forall in Hs, Hp.
    destruct (Hs cur Hin) as ([Hn _] & [Hb _] & [Hg _] & Fs & Fr & Fp).
    pose proof (le_not_lt _ _ (Hp cur Hin)) as Hl.
    assert (E : Server.validateAndNormalizeItem empty_body (Some cur) false
                = Valid {| n_id := Some (Api.id cur);
                           n_name := Api.name cur; n_brand := Api.brand cur;
                           n_category := Api.category cur;
                           n_stock := Api.stock cur;
                           n_rawPrice := Api.rawPrice cur;
                           n_sellingPrice := Api.sellingPrice cur;
                           n_minStockAlert := Api.minStockAlert cur |}).
    { rewrite server_accepts; try assumption; try reflexivity.
      unfold finite_nonneg in Fp. now bools. }
    assert (S : spread (Api.id cur)
                  {| n_id := Some (Api.id cur);
                     n_name := Api.name cur; n_brand := Api.brand cur;
                     n_category := Api.category cur;
                     n_stock := Api.stock cur;
                     n_rawPrice := Api.rawPrice cur;
                     n_sellingPrice := Api.sellingPrice cur;
                     n_minStockAlert := Api.minStockAlert cur |} = cur)
      by (destruct cur; reflexivity).
    exists k, cur. split; [assumption|]. split; [assumption|].
    split; [assumption|]. split.
    + unfold Server.put_item. rewrite Hf, Hc, E, S.
      now rewrite (assign_same _ _ _ Hc).
    + unfold Server.put_item. rewrite Hf, Hc.
      rewrite <- (server_update_nulls null_stock).
      change (without_nulls null_stock) with empty_body.
      rewrite E, S. now rewrite (assign_same _ _ _ Hc).
  - intros inventory Hs Hp Ha Hk.
    destruct (findIndex_known _ _ Hk) as (k & cur & Hf & Hc & Hid).
    pose proof (nth_error_In _ _ Hc) as Hin.
    rewrite Forall_forall in Hs, Ha, Hp.
    destruct (Hs cur Hin) as ([Hn _] & [Hb _] & [Hg _] & Fs & Fr & Fp).
    pose proof (Ha cur Hin) as Fa. unfold alert_ok in Fa.
    pose proof (le_not_lt _ _ (Hp cur Hin)) as Hl.
    assert (E : ServerStrict.validateAndNormalizeItem empty_body (Some cur)
                                                       false
                = ServerStrict.Done
                    (Valid {| n_id := Some (Api.id cur);
                              n_name := Api.name cur;
                              n_brand := Api.brand cur;
                              n_category := Api.category cur;
                              n_stock := Api.stock cur;
                              n_rawPrice := Api.rawPrice cur;
                              n_sellingPrice := Api.sellingPrice cur;
                              n_minStockAlert := Api.minStockAlert cur |})).
    { unfold ServerStrict.validateAndNormalizeItem. cbn.
      rewrite strict_accepts; try assumption; reflexivity. }
    assert (E0 : ServerStrict.validateAndNormalizeItem null_stock (Some cur)
                                                        false
                 = ServerStrict.Done
                     (Valid {| n_id := Some (Api.id cur);
                               n_name := Api.name cur;
                               n_brand := Api.brand cur;
                               n_category := Api.category cur;
                               n_stock := pos_zero;
                               n_rawPrice := Api.rawPrice cur;
                               n_sellingPrice := Api.sellingPrice cur;
                               n_minStockAlert := Api.minStockAlert cur |})).
    { unfold ServerStrict.validateAndNormalizeItem. cbn.
      rewrite strict_accepts; try assumption; reflexivity. }
    exists k, cur. split; [assumption|]. split; [assumption|].
    split; [assumption|]. split; [|split].
    + unfold ServerStrict.put_item. rewrite Hf, Hc, E.
      replace (spread (Api.id cur) _) with cur by (destruct cur; reflexivity).
      now rewrite (assign_same _ _ _ Hc).
    + unfold ServerStrict.put_item. rewrite Hf, Hc, E0. reflexivity.
    + now apply (assign_replaced_at inventory k cur).
Qed.

Lemma X12_witness :
  exists k cur,
    nth_error ServerStrict.inventory0 k = Some cur /\
    id_is (Str.StringToNumber "2") cur = true /\
    ServerStrict.put_item ServerStrict.inventory0 "2" null_stock
    = (assign ServerStrict.inventory0 k (with_stock cur pos_zero),
       Respond 200
         (Json_item (buildItemResponse (with_stock cur pos_zero)))).
Proof.
  destruct (X12_null_stock_on_update "2") as [_ H].
  destruct (H ServerStrict.inventory0)
    as (k & cur & _ & H1 & H2 & _ & H3 & _).
  - repeat constructor.
  - repeat constructor.
  - repeat constructor.
  - exists (nth 1 ServerStrict.inventory0 Sample.test_item).
    split; [simpl; auto|reflexivity].
  - exists k, cur. repeat split; assumption.
Defined.

(* ===================================================================== *)
(** * Further properties of the client                                     *)
(* ===================================================================== *)

Import Dashboard DashFacts OrdinaryFacts.



(** With a negative stock the two figures differ: the row of the item reads
    "Low Stock", and the item is not counted as low on stock. *)
Example negative_stock_is_low_in_one_place :
  map status (stockMovements [Sample.client_item "Pods" (-5) 180])
  = ["Low Stock"] /\
  lowStockCount [Sample.client_item "Pods" (-5) 180] = 0%nat.
Proof. split; reflexivity. Qed.

(** X14.  For items whose stock is a number, [stockMovements] has one row
    for each item, in ascending order of stock; each row carries the stock,
    the status and the action of its item. *)
Theorem X14_stock_movements_are_sorted :
  forall items,
    Forall stock_is_number items ->
    Permutation (stockMovements items) (map movement_of items) /\
    StronglySorted (fun a b => le (m_stock a) (m_stock b) = true)
                   (stockMovements items) /\
    forall row,
      In row (stockMovements items) ->
      action row = action_of (status row) /\
      status row = status_of (m_stock row) (m_minStockAlert row).
Proof.
  intros items H. split; [apply sort_perm|]. split.
  - apply (sort_ascending m_stock).
    rewrite Forall_forall in *. intros row Hin.
    apply in_map_iff in Hin. destruct Hin as (item & <- & Hin).
    cbn [m_stock movement_of]. apply summand_ordinary.
    now apply stock_summand, H.
  - intros row Hin.
    apply (Permutation_in _ (sort_perm _ (map movement_of items))) in Hin.
    apply in_map_iff in Hin. destruct Hin as (item & <- & _).
    split; reflexivity.
Qed.

Lemma X14_witness :
  StronglySorted (fun a b => le (m_stock a) (m_stock b) = true)
                 (stockMovements Sample.three_items) /\
  map m_stock (stockMovements Sample.three_items)
  = [of_Z 2; of_Z 3; of_Z 5].
Proof.
  destruct (X14_stock_movements_are_sorted Sample.three_items)
    as (_ & H & _).
  - repeat constructor.
  - split; [exact H|reflexivity].
Defined.

(** X15.  For items whose numeric properties are numbers,
    [topProductsByValue] holds the six products with the largest stock
    value (stock times selling price), largest first, and
    [profitPerProduct] holds the eight products with the largest profit per
    unit, largest first; when there are fewer products, all of them. *)
Theorem X15_top_products :
  forall items,
    Forall numbers_ok items ->
    largest v_value 6 (map valued items) (topProductsByValue items) /\
    largest profitPerUnit 8 (map profit_row items) (profitPerProduct items).
Proof.
  intros items H. split.
  - apply (firstn_largest v_value 6 (map valued items)).
    rewrite Forall_forall in *. intros x Hin.
    apply in_map_iff in Hin. destruct Hin as (item & <- & Hin).
    now apply valued_ordinary, H.
  - apply (firstn_largest profitPerUnit 8 (map profit_row items)).
    rewrite Forall_forall in *. intros x Hin.
    apply in_map_iff in Hin. destruct Hin as (item & <- & Hin).
    now apply profit_ordinary, H.
Qed.

Lemma X15_witness :
  largest v_value 6 (map valued Sample.two_items)
          (topProductsByValue Sample.two_items) /\
  map v_value (topProductsByValue Sample.two_items)
  = [of_Z 10800; of_Z 5700].
Proof.
  destruct (X15_top_products Sample.two_items) as [H _].
  - repeat constructor.
  - split; [exact H|reflexivity].
Defined.

Import Screen ScreenFacts.

(** X16.  The list of variant entries of the item form never runs out.
    Changing an entry keeps the number of entries and touches the entry at
    the given index only; adding appends a blank entry; removing drops the
    entry at the given index when there are at least two entries and the
    index is in range, and does nothing otherwise; resetting the form
    leaves one blank entry. *)
Theorem X16_variant_entries_never_run_out :
  forall st,
    variantEntries st <> [] ->
    (forall index field value j,
        nth_error (variantEntries (onVariantEntryChange st index field value))
                  j
        = option_map
            (fun entry =>
               if Nat.eqb j index then set_entry entry field value else entry)
            (nth_error (variantEntries st) j)) /\
    variantEntries (onAddVariantEntry st)
    = (variantEntries st ++ [blank_entry])%list /\
    (forall index,
        variantEntries (onRemoveVariantEntry st index) <> [] /\
        variantEntries (onRemoveVariantEntry st index)
        = if (1 <? List.length (variantEntries st))%nat
          then (firstn index (variantEntries st)
                ++ skipn (S index) (variantEntries st))%list
          else variantEntries st) /\
    variantEntries (resetForm st) = [blank_entry].
Proof.
  intros st Hne. split; [|split; [|split]].
  - intros index field value j. cbn [onVariantEntryChange variantEntries
                                      setVariantEntries].
    apply mapi_nth.
  - reflexivity.
  - intros index.
    assert (E : variantEntries (onRemoveVariantEntry st index)
                = if (1 <? List.length (variantEntries st))%nat
                  then (firstn index (variantEntries st)
                        ++ skipn (S index) (variantEntries st))%list
                  else variantEntries st).
    { cbn [onRemoveVariantEntry variantEntries setVariantEntries].
      destruct (Nat.leb_spec (List.length (variantEntries st)) 1) as [L|L].
      - destruct (Nat.ltb_spec 1 (List.length (variantEntries st)));
          [lia|reflexivity].
      - destruct (Nat.ltb_spec 1 (List.length (variantEntries st)));
          [|lia].
        apply (filteri_from_drop (variantEntries st) 0 index). }
    split; [|exact E]. rewrite E.
    destruct (Nat.ltb_spec 1 (List.length (variantEntries st))) as [L|L];
      [|assumption].
    intros Hnil. apply (f_equal (@List.length _)) in Hnil.
    rewrite length_app, length_firstn, length_skipn in Hnil. simpl in Hnil.
    lia.
  - reflexivity.
Qed.

Lemma X16_witness :
  variantEntries
    (onRemoveVariantEntry
       (onAddVariantEntry
          (setVariantEntries
             {| core := Sample.sale_state "1"; form := initialFormState;
                editingId := None; isAddModalOpen := true;
                isEditModalOpen := false; isStockModalOpen := false;
                stockForm := {| itemId := "1"; quantity := "1" |};
                variantEntries := [] |}
             [{| entry_name := "Mint"; entry_stock := "4" |}]))
       0)
  = [blank_entry].
Proof.
  destruct (X16_variant_entries_never_run_out
              (onAddVariantEntry
                 (setVariantEntries
                    {| core := Sample.sale_state "1";
                       form := initialFormState;
                       editingId := None; isAddModalOpen := true;
                       isEditModalOpen := false; isStockModalOpen := false;
                       stockForm := {| itemId := "1"; quantity := "1" |};
                       variantEntries := [] |}
                    [{| entry_name := "Mint"; entry_stock := "4" |}])))
    as (_ & _ & H & _).
  - discriminate.
  - destruct (H 0%nat) as [_ E]. rewrite E. reflexivity.
Defined.

(** X17.  Opening the sale modal or the stock modal without any item only
    shows a notice.  With items, it opens the modal with an empty quantity
    and the first item selected, so that submitting the form acts on that
    item. *)
Theorem X17_opening_a_modal_selects_the_first_item :
  forall st,
    (items (core st) = [] ->
     openSaleModal st
     = (st, [Fired (info "Add products first before recording a sale.")]) /\
     openStockModal st
     = (st, [Fired (info "Add products first before adding stock.")]))
    /\
    (forall first rest,
        items (core st) = first :: rest ->
        (snd (openSaleModal st) = [] /\
         isSaleModalOpen (core (fst (openSaleModal st))) = true /\
         quantity (saleForm (core (fst (openSaleModal st)))) = EmptyString /\
         selected (core (fst (openSaleModal st))) = Some first) /\
        (snd (openStockModal st) = [] /\
         isStockModalOpen (fst (openStockModal st)) = true /\
         quantity (stockForm (fst (openStockModal st))) = EmptyString /\
         find (fun item =>
                 String.eqb (String_of (App.id item))
                            (itemId (stockForm (fst (openStockModal st)))))
              (items (core (fst (openStockModal st))))
         = Some first)).
Proof.
  intros st. split.
  - intros E. unfold openSaleModal, openStockModal. rewrite E. split; reflexivity.
  - intros first rest E. unfold openSaleModal, openStockModal, selected.
    rewrite E. cbn. rewrite E. cbn. rewrite String.eqb_refl.
    repeat split; reflexivity.
Qed.

Lemma X17_witness :
  selected
    (core (fst (openSaleModal
                  {| core := Sample.sale_state "1"; form := initialFormState;
                     editingId := None; isAddModalOpen := false;
                     isEditModalOpen := false; isStockModalOpen := false;
                     stockForm := {| itemId := EmptyString;
                                     quantity := EmptyString |};
                     variantEntries := [blank_entry] |})))
  = nth_error (items (Sample.sale_state "1")) 0.
Proof.
  destruct (X17_opening_a_modal_selects_the_first_item
              {| core := Sample.sale_state "1"; form := initialFormState;
                 editingId := None; isAddModalOpen := false;
                 isEditModalOpen := false; isStockModalOpen := false;
                 stockForm := {| itemId := EmptyString;
                                 quantity := EmptyString |};
                 variantEntries := [blank_entry] |}) as [_ H].
  destruct (H _ _ eq_refl) as [(_ & _ & _ & Hs) _]. exact Hs.
Defined.

(** X18.  The sale form and the stock form refuse a quantity that is not a
    finite number above zero, and the stock form refuses an item that is
    not in the list: the only effect is a notification, no request is sent,
    and the state of the client and the store of the server stay as they
    were. *)
Theorem X18_invalid_quantity_is_refused :
  forall backend now isoString st srv,
    (isFinite (Str.StringToNumber (quantity (saleForm (core st)))) = false
     \/ le (Str.StringToNumber (quantity (saleForm (core st)))) pos_zero = true
     ->
     exists toast,
       App.onAddSaleSubmit backend now isoString (core st) srv
       = (core st, srv, [Fired toast]))
    /\
    (isFinite (Str.StringToNumber (quantity (stockForm st))) = false
     \/ le (Str.StringToNumber (quantity (stockForm st))) pos_zero = true
     \/ find (fun item => String.eqb (String_of (App.id item))
                                     (itemId (stockForm st)))
             (items (core st)) = None ->
     exists toast,
       onAddStockSubmit backend st srv = (st, srv, [Fired toast])).
Proof.
  intros backend now isoString st srv. split.
  - intros H. unfold App.onAddSaleSubmit.
    destruct (find _ (items (core st))) as [item|]; [|eauto].
    assert (E : negb (isFinite
                        (Str.StringToNumber (quantity (saleForm (core st)))))
                || le (Str.StringToNumber (quantity (saleForm (core st))))
                      pos_zero = true).
    { destruct H as [-> | ->]; [reflexivity|apply orb_true_r]. }
    rewrite E. eauto.
  - intros H. unfold onAddStockSubmit.
    destruct (find _ (items (core st))) as [item|] eqn:Hf; [|eauto].
    assert (E : negb (isFinite
                        (Str.StringToNumber (quantity (stockForm st))))
                || le (Str.StringToNumber (quantity (stockForm st)))
                      pos_zero = true).
    { destruct H as [-> | [-> | H]];
        [reflexivity|apply orb_true_r|discriminate]. }
    rewrite E. eauto.
Qed.

Lemma X18_witness :
  exists toast,
    App.onAddSaleSubmit Server.handle Sample.clock Sample.clock_text
                        (Sample.sale_state "0") Server.inventory0
    = (Sample.sale_state "0", Server.inventory0, [Fired toast]).
Proof.
  destruct (X18_invalid_quantity_is_refused
              Server.handle Sample.clock Sample.clock_text
              {| core := Sample.sale_state "0"; form := initialFormState;
                 editingId := None; isAddModalOpen := false;
                 isEditModalOpen := false; isStockModalOpen := false;
                 stockForm := {| itemId := EmptyString;
                                 quantity := EmptyString |};
                 variantEntries := [blank_entry] |}
              Server.inventory0) as [H _].
  apply H. right. reflexivity.
Defined.

(** X19.  Whatever the API answers, submitting the sale form either leaves
    the sales log as it was or puts one record at its head.  A record is
    only added when a [PUT] for the selected item was sent and answered
    with a status from 200 to 299; its quantity is the quantity of the
    form, a finite number above zero that does not exceed the stock of the
    item; its total is the selling price times that quantity, which is
    also the total the modal previews. *)
Theorem X19_sales_log_records_only_accepted_sales :
  forall backend now isoString st srv st' srv' effects,
    App.onAddSaleSubmit backend now isoString st srv = (st', srv', effects) ->
    salesLog st' = salesLog st \/
    exists item record body status p srv1,
      selected st = Some item /\
      salesLog st' = record :: salesLog st /\
      sale_of item (Str.StringToNumber (quantity (saleForm st))) record /\
      positive_quantity (Str.StringToNumber (quantity (saleForm st))) /\
      gt (Str.StringToNumber (quantity (saleForm st)))
         (App.Number (App.stock item)) = false /\
      totalAmount record = saleTotalAmount st /\
      backend srv (Api.PUT_item (String_of (App.id item)) body)
        = (srv1, Api.Respond status p) /\
      ok status = true /\
      In (Fetched (Api.PUT_item (String_of (App.id item)) body)) effects.
Proof.
  intros backend now isoString st srv st' srv' effects H.
  unfold App.onAddSaleSubmit in H.
  destruct (find _ (items st)) as [item|] eqn:Hsel;
    [|inversion H; subst; now left].
  set (q := Str.StringToNumber (quantity (saleForm st))) in *.
  destruct (negb (isFinite q) || le q pos_zero) eqn:Hq;
    [inversion H; subst; now left|].
  destruct (gt q (App.Number (App.stock item))) eqn:Hgt;
    [inversion H; subst; now left|].
  match type of H with
  | context [backend srv ?r] =>
      destruct (backend srv r) as [srv1 [status p|e]] eqn:Hb
  end; [|inversion H; subst; now left].
  destruct (ok status) eqn:Hok.
  2:{ destruct p; inversion H; subst; now left. }
  match type of H with
  | context [App.loadItems backend ?s ?v ?x] =>
      pose proof (loadItems_keeps backend s v x) as Hl;
      destruct (App.loadItems backend s v x) as [[st2 srv2] loaded]
  end.
  destruct Hl as (Hlog & _). inversion H; subst st' srv' effects; clear H.
  right. apply orb_false_iff in Hq. destruct Hq as [Hfin Hle].
  apply negb_false_iff in Hfin.
  eexists item, _, _, status, p, srv1.
  split; [exact Hsel|]. split; [exact Hlog|].
  split; [repeat split|]. split; [split; assumption|].
  split; [exact Hgt|]. split.
  - cbn [totalAmount]. unfold saleTotalAmount, saleUnitPrice, saleQty.
    rewrite Hsel. fold q. now rewrite (positive_is_truthy q Hfin Hle).
  - split; [exact Hb|]. split; [exact Hok|]. left. reflexivity.
Qed.

Lemma X19_witness :
  let '(st', _, _) :=
    App.onAddSaleSubmit Server.handle Sample.clock Sample.clock_text
                        (Sample.sale_state "3") Server.inventory0 in
  salesLog st' = salesLog (Sample.sale_state "3") \/
  exists record,
    salesLog st' = record :: salesLog (Sample.sale_state "3") /\
    totalAmount record = saleTotalAmount (Sample.sale_state "3").
Proof.
  destruct (App.onAddSaleSubmit Server.handle Sample.clock Sample.clock_text
              (Sample.sale_state "3") Server.inventory0)
    as [[st' srv'] effects] eqn:E.
  destruct (X19_sales_log_records_only_accepted_sales _ _ _ _ _ _ _ _ E)
    as [H|(item & record & body & status & p & srv1 & _ & H1 & _ & _ & _
           & H2 & _)].
  - left. exact H.
  - right. exists record. split; assumption.
Defined.

Import FormFacts.

(** X20.  Whatever the API answers, the item form only sends sound
    requests.  Besides the request that reloads the list, it sends a [POST]
    only when no item is being edited, with a name that is not empty, and
    a [PUT] only for the item being edited; the body always carries
    trimmed texts, a brand and a category that are not empty, finite
    numbers that are not negative, and a selling price that is not below
    the raw price.  It never sends a [DELETE]. *)
Theorem X20_the_form_sends_sound_requests :
  forall backend st srv request,
    In (Fetched request) (snd (onFormSubmit backend st srv)) ->
    sound_request st request.
Proof.
  intros backend st srv request. unfold onFormSubmit.
  destruct (rejection st) as [message|] eqn:R; [intros []|].
  destruct (rejection_None st R) as (Hb & Hc & Hm & Hn & Hst & Hr & Hp & Hl & Ha).
  assert (Hsent : forall sent,
             (forall r, In (Fetched r) sent -> sound_request st r) ->
             forall tail,
               (tail = [Fired {| icon := "error"; title := "Save failed";
                                 text := match tail with
                                         | [Fired t] => text t
                                         | _ => []
                                         end |}]
                \/ exists t, tail = [reload (search (core st)); Fired t]) ->
               In (Fetched request) (sent ++ tail)%list ->
               sound_request st request).
  { intros sent Hs tail Ht Hin. apply in_app_or in Hin.
    destruct Hin as [Hin|Hin]; [now apply Hs|].
    destruct Ht as [Ht|[t Ht]]; rewrite Ht in Hin.
    - destruct Hin as [Hin|[]]. discriminate.
    - destruct Hin as [Hin|[Hin|[]]]; [|discriminate].
      unfold reload in Hin. inversion Hin. exact I. }
  unfold save. destruct (editingId st) as [k|] eqn:E.
  - assert (Hput : forall r,
               In (Fetched r)
                  [Fetched
                     (PUT_item (String_of k)
                        (body_of (payload_of (form st))
                                 (p_name (payload_of (form st)))
                                 (p_stock (payload_of (form st)))))] ->
               sound_request st r).
    { intros r [Hr0|[]]. inversion Hr0; subst r. cbn [sound_request].
      exists k. split; [assumption|]. split; [reflexivity|].
      apply body_of_sound; try assumption.
      - cbn [p_name payload_of]. apply TextFacts.trim_idem.
      - apply Hst. right. unfold isEditing. now rewrite E. }
    destruct (backend srv _) as [srv1 reply]. destruct (is_ok reply).
    + rewrite saved_effects. apply Hsent; [exact Hput|]. right. eauto.
    + rewrite save_failed_effects. apply Hsent; [exact Hput|]. left.
      reflexivity.
  - destruct (entries_ok st R E) as [_ Hok].
    pose proof (create_entries_sent backend (payload_of (form st)) srv
                  (entriesToCreate st) 0) as Hposts.
    destruct (create_entries backend (payload_of (form st)) srv
                (entriesToCreate st) 0) as [[srv1 sent] result].
    cbn [fst snd] in Hposts.
    assert (Hpost : forall r, In (Fetched r) sent -> sound_request st r).
    { intros r Hin. destruct (Hposts r Hin) as (e & He & ->).
      rewrite Forall_forall in Hok. destruct (Hok e He) as [[Hne Ht] Hs].
      cbn [sound_request]. split; [assumption|]. split.
      - apply body_of_sound; assumption.
      - exact Hne. }
    destruct result as [message|count].
    + rewrite save_failed_effects. apply Hsent; [exact Hpost|]. left.
      reflexivity.
    + destruct (Nat.eqb count 0).
      * rewrite save_failed_effects. apply Hsent; [exact Hpost|]. left.
        reflexivity.
      * rewrite saved_effects. apply Hsent; [exact Hpost|]. right. eauto.
Qed.

Lemma X20_witness :
  sound_request mint_screen
    (POST_item (body_of (payload_of mint_form) "Mint" (of_Z 4))).
Proof.
  apply (X20_the_form_sends_sound_requests
           Server.handle mint_screen Server.inventory0).
  vm_compute. left. reflexivity.
Defined.

Import LoadFacts.

(** X21.  A new item that passes the checks of the item form is stored by
    either server.  Every entry of the form is sent in one [POST], in the
    order of the form; the store grows by one item per entry, each with the
    next identifier, the trimmed texts and the numbers of the form; then
    the list is loaded again and a success notification is shown.  The
    form is emptied, the dialog is closed and no error is left; with an
    empty search text the list shows the whole store. *)
Theorem X21_a_checked_form_is_saved :
  forall backend st srv,
    served backend -> editingId st = None -> rejection st = None ->
    exists st',
      onFormSubmit backend st srv
      = (st',
         (srv ++ created_from (payload_of (form st)) srv
                              (entriesToCreate st))%list,
         (posts (payload_of (form st)) (entriesToCreate st)
          ++ [reload (search (core st));
              Fired {| icon := "success";
                       title :=
                         saved_title st (List.length (entriesToCreate st));
                       text := [] |}])%list) /\
      entriesToCreate st <> [] /\
      form st' = initialFormState /\ variantEntries st' = [blank_entry] /\
      isAddModalOpen st' = false /\ editingId st' = None /\
      error (core st') = EmptyString /\ loading (core st') = false /\
      (search (core st) = EmptyString ->
       items (core st')
       = map of_response
           (map buildItemResponse
              (srv ++ created_from (payload_of (form st)) srv
                                   (entriesToCreate st))%list)).
Proof.
  intros backend st srv Hb E R.
  destruct (entries_ok st R E) as [Hne Hok].
  unfold onFormSubmit. rewrite R. unfold save. rewrite E.
  rewrite (create_entries_accepted backend (payload_of (form st))
             (served_post backend st Hb R) _ srv 0 Hok).
  cbn [Nat.add].
  destruct (entriesToCreate st) as [|entry rest] eqn:Ee; [congruence|].
  rewrite <- Ee in *. replace (List.length (entriesToCreate st) =? 0)%nat
    with false by (rewrite Ee; reflexivity).
  unfold saved, Screen.loadItems. cbv zeta.
  replace (isEditing st) with false by (unfold isEditing; now rewrite E).
  match goal with
  | |- context [App.loadItems backend ?c ?s ?q] =>
      destruct (loadItems_served backend c s q Hb) as (data & -> & _ & Hall)
  end.
  eexists. split; [reflexivity|]. split; [congruence|].
  repeat (split; [reflexivity|]).
  intros Hs. cbn [core with_core items]. rewrite Hall; [reflexivity|].
  now rewrite Hs.
Qed.

Lemma X21_witness :
  fst (onFormSubmit ServerStrict.handle mint_screen ServerStrict.inventory0)
  = (fst (fst (onFormSubmit ServerStrict.handle mint_screen
                            ServerStrict.inventory0)),
     (ServerStrict.inventory0
      ++ [stored_for (payload_of mint_form)
                     (nextId ServerStrict.inventory0)
                     {| e_name := "Mint"; e_stock := of_Z 4 |}])%list).
Proof.
  destruct (X21_a_checked_form_is_saved
              ServerStrict.handle mint_screen ServerStrict.inventory0)
    as (st' & H & _).
  - right. reflexivity.
  - reflexivity.
  - vm_compute. reflexivity.
  - rewrite H. reflexivity.
Defined.

(** X22.  Loading the list sends one [GET], never leaves the loading flag
    on, and keeps the sales log, the sale form and the search text.  When
    the answer is a list with an ok status, the list shown is replaced by
    it and no error is left.  When the status is not ok, or the handler
    threw, the list shown is kept and the error is "Failed to fetch
    inventory data.".  Against either server the first case always holds:
    the store is left as it was, the list shows stored items only, and all
    of them when the query is empty. *)
Theorem X22_loading_the_list :
  forall backend st srv query,
    let request :=
      GET_items (if Str.is_empty query then None else Some query) in
    let '(st', srv', effects) := App.loadItems backend st srv query in
    effects = [Fetched request] /\ srv' = fst (backend srv request) /\
    loading st' = false /\ salesLog st' = salesLog st /\
    saleForm st' = saleForm st /\ search st' = search st /\
    (forall status data,
        snd (backend srv request) = Respond status (Json_items data) ->
        ok status = true ->
        items st' = map of_response data /\ error st' = EmptyString) /\
    (forall status answer,
        snd (backend srv request) = Respond status answer ->
        ok status = false ->
        items st' = items st /\
        error st' = "Failed to fetch inventory data.") /\
    (forall e,
        snd (backend srv request) = Raise e ->
        items st' = items st /\
        error st' = "Failed to fetch inventory data.") /\
    (served backend ->
     srv' = srv /\ error st' = EmptyString /\
     exists data,
       incl data srv /\ (query = EmptyString -> data = srv) /\
       items st' = map of_response (map buildItemResponse data)).
Proof.
  intros backend st srv query request.
  pose proof (loadItems_served backend st srv query) as Hs.
  unfold App.loadItems in *. fold request in Hs |- *.
  destruct (backend srv request) as [srv' reply]. cbn [fst snd].
  split; [reflexivity|]. split; [reflexivity|].
  match goal with
  | |- context [set_loading ?s false (error ?s)] =>
      set (st' := set_loading s false (error s)) in *
  end.
  assert (Hgen :
    loading st' = false /\ salesLog st' = salesLog st /\
    saleForm st' = saleForm st /\ search st' = search st).
  { subst st'. destruct reply as [status p|e].
    - destruct p; destruct (ok status); cbn; repeat split.
    - cbn. repeat split. }
  destruct Hgen as (H1 & H2 & H3 & H4).
  repeat (split; [assumption|]).
  split; [|split; [|split]].
  - intros status data -> Hok. subst st'. rewrite Hok. split; reflexivity.
  - intros status answer -> Hok. subst st'. rewrite Hok.
    destruct answer; split; reflexivity.
  - intros e ->. subst st'. split; reflexivity.
  - intros Hb. destruct (Hs Hb) as (data & E & Hincl & Hall).
    pose proof (f_equal (fun t => fst (fst t)) E) as E1.
    pose proof (f_equal (fun t => snd (fst t)) E) as E2.
    cbn [fst snd] in E1, E2. fold st' in E1. rewrite E1.
    split; [exact E2|].
    split; [reflexivity|]. exists data. split; [exact Hincl|].
    split; [|reflexivity]. intros ->. now apply Hall.
Qed.

Lemma X22_witness :
  items (fst (fst (App.loadItems Server.handle (Sample.sale_state "1")
                                 Server.inventory0 EmptyString)))
  = map of_response (map buildItemResponse Server.inventory0).
Proof.
  pose proof (X22_loading_the_list Server.handle (Sample.sale_state "1")
                Server.inventory0 EmptyString) as H.
  cbv zeta in H.
  destruct (App.loadItems Server.handle (Sample.sale_state "1")
              Server.inventory0 EmptyString) as [[st' srv'] effects].
  destruct H as (_ & _ & _ & _ & _ & _ & _ & _ & _ & H).
  destruct (H (or_introl eq_refl)) as (_ & _ & data & _ & Hall & Hi).
  cbn [fst]. rewrite Hi, (Hall eq_refl). reflexivity.
Defined.

(** X23.  Deleting from the list.  Unless the user confirms the dialog,
    nothing is sent and the state and the store stay as they were.  When
    the user confirms and the item is stored, either server removes exactly
    that item and keeps the others in their order; the client then loads
    the list again and shows a success notification, and it resets the item
    form when the deleted item was the one being edited.  This holds for
    stores whose identifiers are distinct positive integers below 2^53. *)
Theorem X23_deleting_from_the_list :
  forall backend st srv it name,
    (exists dialog,
        onDelete backend st srv (Api.id it) name false
        = (st, srv, [Confirm dialog])) /\
    (served backend -> ids_ok srv -> ids_exact srv -> In it srv ->
     exists st' dialog toast,
       onDelete backend st srv (Api.id it) name true
       = (st', without_id (Api.id it) srv,
          [Confirm dialog;
           Did (Fetched (DELETE_item (String_of (Api.id it))));
           Did (reload (search (core st)));
           Did (Fired toast)]) /\
       icon toast = "success" /\ error (core st') = EmptyString /\
       (editingId st = Some (Api.id it) ->
        form st' = initialFormState /\ editingId st' = None) /\
       (editingId st <> Some (Api.id it) ->
        form st' = form st /\ editingId st' = editingId st) /\
       (search (core st) = EmptyString ->
        items (core st')
        = map of_response
            (map buildItemResponse (without_id (Api.id it) srv)))).
Proof.
  intros backend st srv it name. split.
  - eexists. reflexivity.
  - intros Hb Hok Hex Hin.
    pose proof (RouteFacts.ids_in_range srv it Hok Hex Hin) as Hk.
    destruct (delete_known srv (String_of (Api.id it)) it Hok Hex Hin)
      as (before & behind & _ & Hw & Hd1 & Hd2 & _).
    { apply String_of_number. lia. }
    assert (Hd : backend srv (DELETE_item (String_of (Api.id it)))
                 = (without_id (Api.id it) srv, Respond 204 Empty_body)).
    { rewrite Hw.
      destruct Hb as [-> | ->]; cbn [Server.handle ServerStrict.handle];
        assumption. }
    unfold onDelete. cbn [negb]. rewrite Hd. cbn [is_ok].
    change (ok 204) with true. cbv iota.
    unfold Screen.loadItems.
    match goal with
    | |- context [App.loadItems backend ?c ?s ?q] =>
        destruct (loadItems_served backend c s q Hb)
          as (data & -> & _ & Hall)
    end.
    eexists _, _, _. split; [reflexivity|]. split; [reflexivity|].
    split; [reflexivity|]. split; [|split].
    + intros ->. rewrite Z.eqb_refl. split; reflexivity.
    + intros Hne. destruct (editingId st) as [editing|] eqn:Ee.
      * destruct (Z.eqb_spec editing (Api.id it)) as [->|_];
          [congruence|]. cbn. rewrite Ee. split; reflexivity.
      * cbn. rewrite Ee. split; reflexivity.
    + intros Hs. cbn [core with_core items]. rewrite Hall; [reflexivity|].
      destruct (editingId st) as [editing|];
        [destruct (editing =? Api.id it)%Z|]; cbn; now rewrite Hs.
Qed.

Lemma X23_witness :
  snd (fst (onDelete Server.handle mint_screen Server.inventory0 2
                     "Mango Ice" true))
  = without_id 2 Server.inventory0.
Proof.
  destruct (X23_deleting_from_the_list
              Server.handle mint_screen Server.inventory0
              (nth 1 Server.inventory0 Sample.test_item) "Mango Ice")
    as [_ H].
  destruct H as (st' & dialog & toast & E & _).
  - left. reflexivity.
  - split.
    + simpl. repeat constructor; simpl; intuition discriminate.
    + repeat constructor; simpl; lia.
  - repeat constructor; simpl; lia.
  - simpl. auto.
  - change (Api.id (nth 1 Server.inventory0 Sample.test_item)) with 2 in E.
    rewrite E. reflexivity.
Defined.

Import StockFacts FiniteFacts.

(** X24.  A sale that the form accepts reduces the stock on the server.
    When the item selected in the sale form is the client's reading of a
    stored item, and the quantity is a finite number above zero and not
    above the stock, either server answers the [PUT] with status 200 and
    replaces that item, in its place, by the same item with the stock
    reduced by the quantity.  The client then puts one record of the sale
    in front of the sales log, closes the dialog, loads the list again and
    shows a success notification.  This holds for a stored item as the
    validators leave it (trimmed texts that are not empty, finite numbers
    that are not negative, a selling price that is not below the raw
    price) whose stock is a binary64 value, in a store whose identifiers
    are distinct positive integers below 2^53. *)
Theorem X24_a_sale_reduces_the_stock :
  forall backend now isoString st srv it,
    served backend -> ids_ok srv -> ids_exact srv -> In it srv ->
    stored_ok it -> price_ok it -> alert_ok it ->
    selected st = Some (shown it) ->
    positive_quantity (Str.StringToNumber (quantity (saleForm st))) ->
    gt (Str.StringToNumber (quantity (saleForm st))) (Api.stock it) = false ->
    valid_binary prec emax (Api.stock it) = true ->
    let q := Str.StringToNumber (quantity (saleForm st)) in
    let sold := restocked it (sub (Api.stock it) q) in
    exists before behind st' record toast,
      srv = (before ++ it :: behind)%list /\
      App.onAddSaleSubmit backend now isoString st srv
      = (st', (before ++ sold :: behind)%list,
         [Fetched (PUT_item (String_of (Api.id it))
                            (stock_body (shown it) (sub (Api.stock it) q)));
          reload (search st); Fired toast]) /\
      icon toast = "success" /\
      salesLog st' = record :: salesLog st /\ sale_of (shown it) q record /\
      isSaleModalOpen st' = false /\
      (search st = EmptyString ->
       items st' = map shown (before ++ sold :: behind)%list).
Proof.
  intros backend now isoString st srv it Hb Hok Hex Hin Hst Hpr Ha Hsel
    [Hfin Hle] Hgt Hvalid q sold.
  fold q in Hfin, Hle, Hgt.
  pose proof Hst as (_ & _ & _ & Hs & _).
  assert (Hdiff : isFinite (sub (Api.stock it) q) = true).
  { apply sub_finite; try assumption.
    - now apply finite_nonneg_finite.
    - destruct (lt q pos_zero) eqn:L; [|reflexivity].
      apply OrderFacts.num_lt_le in L. congruence. }
  assert (Hstock : unsigned_zero (Api.stock it) = Api.stock it).
  { apply finite_nonneg_finite in Hs.
    destruct q as [[]|[]| |[] mq eq], (Api.stock it) as [[]|[]| |[] ms es];
      try discriminate; reflexivity. }
  destruct (shown_numbers it Hst Ha) as (Es & _). rewrite Hstock in Es.
  assert (Hx : finite_nonneg (sub (Api.stock it) q) = true).
  { unfold finite_nonneg. rewrite Hdiff. cbn [andb].
    destruct (sub_not_below (Api.stock it) q) as [Hl _];
      [now apply finite_nonneg_finite|assumption| |now rewrite Hl].
    unfold gt in Hgt. exact Hgt. }
  destruct (served_put_stock backend srv it (sub (Api.stock it) q)
              Hb Hok Hex Hin Hst Hpr Ha Hx)
    as (before & behind & E & Hput).
  exists before, behind.
  unfold App.onAddSaleSubmit. unfold selected in Hsel. rewrite Hsel.
  fold q. rewrite Hfin, Hle. cbn [negb orb]. rewrite Es, Hgt.
  change {| b_name := Given (name (shown it));
            b_brand := Given (brand (shown it));
            b_category := Given (category (shown it));
            b_stock := json_scalar (sub (Api.stock it) q);
            b_rawPrice := json_scalar (rawPriceOf (shown it));
            b_sellingPrice := json_scalar (sellingPriceOf (shown it));
            b_price := Absent;
            b_minStockAlert := json_scalar (minStockAlertOf (shown it)) |}
    with (stock_body (shown it) (sub (Api.stock it) q)).
  change (id (shown it)) with (Api.id it).
  rewrite Hput. change (ok 200) with true. cbv iota.
  match goal with
  | |- context [App.loadItems backend ?c ?s ?v] =>
      destruct (loadItems_served backend c s v Hb) as (data & -> & _ & Hall)
  end.
  eexists _, _, _. split; [exact E|]. split; [reflexivity|].
  split; [reflexivity|]. split; [reflexivity|].
  split; [repeat split|]. split; [reflexivity|].
  intros Hq. cbn [items]. rewrite Hall by (now rewrite Hq).
  now rewrite map_map.
Qed.

Lemma X24_witness :
  exists before behind,
    Server.inventory0
    = (before ++ nth 1 Server.inventory0 Sample.test_item :: behind)%list /\
    snd (fst (App.onAddSaleSubmit Server.handle Sample.clock
                Sample.clock_text (Sample.sale_state "3")
                Server.inventory0))
    = (before
       ++ restocked (nth 1 Server.inventory0 Sample.test_item)
                    (sub (of_Z 15) (of_Z 3)) :: behind)%list.
Proof.
  destruct (X24_a_sale_reduces_the_stock
              Server.handle Sample.clock Sample.clock_text
              (Sample.sale_state "3") Server.inventory0
              (nth 1 Server.inventory0 Sample.test_item))
    as (before & behind & st' & record & toast & E & H & _).
  - left. reflexivity.
  - split.
    + simpl. repeat constructor; simpl; intuition discriminate.
    + repeat constructor; simpl; lia.
  - repeat constructor; simpl; lia.
  - simpl. auto.
  - vm_compute. repeat split.
  - vm_compute. reflexivity.
  - vm_compute. reflexivity.
  - vm_compute. reflexivity.
  - vm_compute. split; reflexivity.
  - vm_compute. reflexivity.
  - vm_compute. reflexivity.
  - exists before, behind. split; [exact E|]. rewrite H. reflexivity.
Defined.

(** X25.  Stock added in the stock form is added on the server.  When the
    item selected in the stock form is the client's reading of a stored
    item and the quantity is a finite number above zero, either server
    answers the [PUT] with status 200 and replaces that item, in its place,
    by the same item with the stock raised by the quantity.  The client
    then closes the dialog, empties the stock form, loads the list again
    and shows a success notification; the sales log is not touched.  This
    holds for a stored item as the validators leave it, in a store whose
    identifiers are distinct positive integers below 2^53, as long as the
    sum is a finite number. *)
Theorem X25_added_stock_reaches_the_server :
  forall backend st srv it,
    served backend -> ids_ok srv -> ids_exact srv -> In it srv ->
    stored_ok it -> price_ok it -> alert_ok it ->
    find (fun item => String.eqb (String_of (App.id item))
                                 (itemId (stockForm st)))
         (items (core st)) = Some (shown it) ->
    positive_quantity (Str.StringToNumber (quantity (stockForm st))) ->
    isFinite (add (Api.stock it)
                  (Str.StringToNumber (quantity (stockForm st)))) = true ->
    let q := Str.StringToNumber (quantity (stockForm st)) in
    let raised := restocked it (add (Api.stock it) q) in
    exists before behind st' toast,
      srv = (before ++ it :: behind)%list /\
      onAddStockSubmit backend st srv
      = (st', (before ++ raised :: behind)%list,
         [Fetched (PUT_item (String_of (Api.id it))
                            (stock_body (shown it) (add (Api.stock it) q)));
          reload (search (core st)); Fired toast]) /\
      icon toast = "success" /\
      isStockModalOpen st' = false /\
      stockForm st' = {| itemId := EmptyString; quantity := EmptyString |} /\
      salesLog (core st') = salesLog (core st) /\
      (search (core st) = EmptyString ->
       items (core st') = map shown (before ++ raised :: behind)%list).
Proof.
  intros backend st srv it Hb Hok Hex Hin Hst Hpr Ha Hsel [Hfin Hle] Hsum
    q raised.
  fold q in Hfin, Hle, Hsum.
  pose proof Hst as (_ & _ & _ & Hs & _).
  destruct (add_nonneg (Api.stock it) q Hs Hfin Hle) as [Hlt Eadd].
  destruct (shown_numbers it Hst Ha) as (Es & _).
  assert (Hx : finite_nonneg (add (Api.stock it) q) = true).
  { unfold finite_nonneg. now rewrite Hsum, Hlt. }
  destruct (served_put_stock backend srv it (add (Api.stock it) q)
              Hb Hok Hex Hin Hst Hpr Ha Hx)
    as (before & behind & E & Hput).
  exists before, behind.
  unfold onAddStockSubmit. rewrite Hsel.
  fold q. rewrite Hfin, Hle. cbn [negb orb]. rewrite Es, Eadd.
  change {| b_name := Given (name (shown it));
            b_brand := Given (brand (shown it));
            b_category := Given (category (shown it));
            b_stock := json_scalar (add (Api.stock it) q);
            b_rawPrice := json_scalar (rawPriceOf (shown it));
            b_sellingPrice := json_scalar (sellingPriceOf (shown it));
            b_price := Absent;
            b_minStockAlert := json_scalar (minStockAlertOf (shown it)) |}
    with (stock_body (shown it) (add (Api.stock it) q)).
  change (App.id (shown it)) with (Api.id it).
  rewrite Hput. cbn [is_ok]. change (ok 200) with true. cbv iota.
  unfold Screen.loadItems.
  match goal with
  | |- context [App.loadItems backend ?c ?s ?v] =>
      destruct (loadItems_served backend c s v Hb) as (data & -> & _ & Hall)
  end.
  eexists _, _. split; [exact E|]. split; [reflexivity|].
  repeat (split; [reflexivity|]).
  intros Hq. cbn [core with_core items]. rewrite Hall by (now rewrite Hq).
  now rewrite map_map.
Qed.

Lemma X25_witness :
  exists before behind,
    ServerStrict.inventory0
    = (before ++ nth 1 ServerStrict.inventory0 Sample.test_item
              :: behind)%list /\
    snd (fst (onAddStockSubmit ServerStrict.handle
                (setStockForm mint_screen
                              {| itemId := "2"; quantity := "5" |})
                ServerStrict.inventory0))
    = (before
       ++ restocked (nth 1 ServerStrict.inventory0 Sample.test_item)
                    (add (of_Z 15) (of_Z 5)) :: behind)%list.
Proof.
  destruct (X25_added_stock_reaches_the_server
              ServerStrict.handle
              (setStockForm mint_screen {| itemId := "2"; quantity := "5" |})
              ServerStrict.inventory0
              (nth 1 ServerStrict.inventory0 Sample.test_item))
    as (before & behind & st' & toast & E & H & _).
  - right. reflexivity.
  - split.
    + simpl. repeat constructor; simpl; intuition discriminate.
    + repeat constructor; simpl; lia.
  - repeat constructor; simpl; lia.
  - simpl. auto.
  - vm_compute. repeat split.
  - vm_compute. reflexivity.
  - vm_compute. reflexivity.
  - vm_compute. reflexivity.
  - vm_compute. split; reflexivity.
  - vm_compute. reflexivity.
  - exists before, behind. split; [exact E|]. rewrite H. reflexivity.
Defined.

(** X26.  Saving an edited item.  When the checks of the item form pass
    and the item being edited is stored, the form sends one [PUT] for it.
    With a name that is not blank, either server answers with status 200
    and replaces the item, in its place, by the item of the form under the
    same identifier; the client closes the dialog, empties the form, loads
    the list again and shows "Item updated".  With a blank name, which the
    form does not check while editing, either server answers with status
    400: the store, the form and the dialog stay as they were and the
    message of the server is shown as the error.  This holds for stores
    whose identifiers are distinct positive integers below 2^53. *)
Theorem X26_saving_an_edited_item :
  forall backend st srv it,
    served backend -> ids_ok srv -> ids_exact srv -> In it srv ->
    editingId st = Some (Api.id it) -> rejection st = None ->
    let payload := payload_of (form st) in
    let request :=
      PUT_item (String_of (Api.id it))
               (body_of payload (p_name payload) (p_stock payload)) in
    let edited :=
      stored_for payload (Api.id it)
                 {| e_name := p_name payload; e_stock := p_stock payload |} in
    exists before behind,
      srv = (before ++ it :: behind)%list /\
      (Str.is_empty (p_name payload) = false ->
       exists st',
         onFormSubmit backend st srv
         = (st', (before ++ edited :: behind)%list,
            [Fetched request; reload (search (core st));
             Fired {| icon := "success"; title := "Item updated";
                      text := [] |}]) /\
         editingId st' = None /\ isEditModalOpen st' = false /\
         form st' = initialFormState /\ error (core st') = EmptyString /\
         (search (core st) = EmptyString ->
          items (core st') = map shown (before ++ edited :: behind)%list)) /\
      (Str.is_empty (p_name payload) = true ->
       exists st',
         onFormSubmit backend st srv
         = (st', srv,
            [Fetched request;
             Fired {| icon := "error"; title := "Save failed";
                      text :=
                        [Lit "Name, brand, and category are required."] |}])
         /\ error (core st') = "Name, brand, and category are required." /\
         editingId st' = editingId st /\ form st' = form st /\
         isEditModalOpen st' = isEditModalOpen st /\
         items (core st') = items (core st)).
Proof.
  intros backend st srv it Hb Hok Hex Hin E R payload request edited.
  destruct (served_put_form backend srv it st Hb Hok Hex Hin R E)
    as (before & behind & Ei & Hgood & Hbad).
  fold payload in Hgood, Hbad. fold request in Hgood, Hbad.
  fold edited in Hgood.
  exists before, behind. split; [exact Ei|]. split.
  - intros Hne. specialize (Hgood Hne).
    unfold onFormSubmit. rewrite R. unfold save. rewrite E.
    fold payload. fold request. rewrite Hgood. cbn [is_ok].
    change (ok 200) with true. cbv iota.
    unfold saved, Screen.loadItems. cbv zeta.
    replace (isEditing st) with true by (unfold isEditing; now rewrite E).
    match goal with
    | |- context [App.loadItems backend ?c ?s ?v] =>
        destruct (loadItems_served backend c s v Hb)
          as (data & -> & _ & Hall)
    end.
    eexists. split.
    + unfold saved_title.
      replace (isEditing st) with true by (unfold isEditing; now rewrite E).
      reflexivity.
    + repeat (split; [reflexivity|]).
      intros Hs. cbn [core with_core items].
      rewrite Hall by (now rewrite Hs). now rewrite map_map.
  - intros He. specialize (Hbad He).
    unfold onFormSubmit. rewrite R. unfold save. rewrite E.
    fold payload. fold request. rewrite Hbad. cbn [is_ok].
    change (ok 400) with false. cbv iota.
    eexists. split; [reflexivity|]. repeat split. exact E.
Qed.

Lemma X26_witness :
  exists before behind,
    Server.inventory0
    = (before ++ nth 1 Server.inventory0 Sample.test_item :: behind)%list /\
    snd (fst (onFormSubmit Server.handle
                (setEditingId mint_screen (Some 2)) Server.inventory0))
    = (before
       ++ stored_for (payload_of mint_form) 2
                     {| e_name := "Mint"; e_stock := of_Z 4 |}
       :: behind)%list.
Proof.
  destruct (X26_saving_an_edited_item
              Server.handle (setEditingId mint_screen (Some 2))
              Server.inventory0
              (nth 1 Server.inventory0 Sample.test_item))
    as (before & behind & E & H & _).
  - left. reflexivity.
  - split.
    + simpl. repeat constructor; simpl; intuition discriminate.
    + repeat constructor; simpl; lia.
  - repeat constructor; simpl; lia.
  - simpl. auto.
  - reflexivity.
  - vm_compute. reflexivity.
  - exists before, behind. split; [exact E|].
    destruct H as (st' & H & _); [vm_compute; reflexivity|].
    rewrite H. reflexivity.
Defined.
